(** * Barcode generator command-line tools: a shallow embedding

    The repository holds three independent Python scripts,
    [barcode_generator.py], [ean13_generator.py] and [qr_generator.py].
    Each one validates a few strings, delegates to a third-party
    encoder and writes a file.  This development embeds the validation,
    option parsing, path handling, command-line handling and error routing
    of the three scripts and proves the properties stated about them.

    Conventions.
    - A Python [str] is the list of its code points, each a number in [N].
      A string literal of the source is written [u "..."].
    - The functions of the Unicode database behind [str.isdigit],
      [str.strip], [str.lower], [str.upper], [int] and [repr] are not part
      of the repository; they are the fields of a record [unicode], and
      every function that uses them takes the record as its first argument.
      The record states what is used of them: on ASCII text they are the
      ASCII tables.
    - A call that may raise is a [result]: [Return v] or [Raise e], where
      [e] is a [ValueError] or some other subclass of [Exception].
    - The third-party encoders (treepoem, python-barcode, qrcode, Pillow)
      are not part of the repository; they are taken as parameters. *)

From Stdlib Require Import String Ascii List ZArith NArith Lia Bool.
From stdpp Require Import base option list gmap.

Open Scope N_scope.
Open Scope list_scope.

(** ** Python values and built-in string methods *)

Module Py.

(** The code points of a string literal of the source. *)
Definition u (s : string) : list N :=
  List.map N_of_ascii (list_ascii_of_string s).

(** Exceptions deriving from [Exception], with the text [str(e)] gives. *)
Inductive exn : Type :=
| ValueError (msg : list N)
| Exception (msg : list N).

Definition exn_str (e : exn) : list N :=
  match e with
  | ValueError m => m
  | Exception m => m
  end.

Inductive result (A : Type) : Type :=
| Return (a : A)
| Raise (e : exn).
Arguments Return {A} a.
Arguments Raise {A} e.

Definition bind {A B : Type} (m : result A) (k : A -> result B) : result B :=
  match m with
  | Return a => k a
  | Raise e => Raise e
  end.

(** [try: body except ValueError as e: hv(e) except Exception as e: he(e)] *)
Definition try_except {A : Type} (body : result A)
    (on_value_error on_exception : list N -> result A) : result A :=
  match body with
  | Return a => Return a
  | Raise (ValueError m) => on_value_error m
  | Raise (Exception m) => on_exception m
  end.

#[global] Instance result_bind : MBind result :=
  fun A B (k : A -> result B) (m : result A) => bind m k.
#[global] Instance result_ret : MRet result := fun A (a : A) => Return a.

Definition raises {A : Type} (m : result A) : Prop :=
  exists e, m = Raise e.

Definition raises_ValueError {A : Type} (m : result A) : Prop :=
  exists msg, m = Raise (ValueError msg).

(** *** The ASCII tables *)

(** White space of the ASCII range as [str.strip] sees it:
    TAB, LF, VT, FF, CR, FS, GS, RS, US and SPACE. *)
Definition ascii_isspace (c : N) : bool :=
  ((9 <=? c) && (c <=? 13)) || ((28 <=? c) && (c <=? 32)).

Definition ascii_lower (c : N) : N :=
  if (65 <=? c) && (c <=? 90) then c + 32 else c.

Definition ascii_upper (c : N) : N :=
  if (97 <=? c) && (c <=? 122) then c - 32 else c.

Definition is_ascii (s : list N) : Prop := Forall (fun c => c < 128) s.

(** *** The Unicode database

    [isdigit_char] and [isspace_char] are the per-character tests behind
    [str.isdigit] and [str.strip]; [lower] and [upper] are [str.lower] and
    [str.upper] on whole strings (they are not character maps: one
    character may become several); [int_of_str] is [int(s)], [None] when
    it raises; [repr] is [repr(s)]. *)
Record unicode : Type := mkUnicode {
  isdigit_char : N -> bool;
  isspace_char : N -> bool;
  lower : list N -> list N;
  upper : list N -> list N;
  int_of_str : list N -> option Z;
  repr : list N -> list N;
  isdigit_ascii :
    forall c, c < 128 -> isdigit_char c = (48 <=? c) && (c <=? 57);
  isspace_ascii : forall c, c < 128 -> isspace_char c = ascii_isspace c;
  lower_ascii : forall s, is_ascii s -> lower s = List.map ascii_lower s;
  upper_ascii : forall s, is_ascii s -> upper s = List.map ascii_upper s
}.

(** *** Strings *)

Definition len (s : list N) : nat := length s.

(** [s == t] *)
Definition eqb (s t : list N) : bool := bool_decide (s = t).

(** [s.isdigit()]: at least one character and every character a digit. *)
Definition isdigit (U : unicode) (s : list N) : bool :=
  match s with
  | [] => false
  | _ => forallb (isdigit_char U) s
  end.

(** [s.startswith(p)] *)
Fixpoint startswith (s p : list N) {struct p} : bool :=
  match p, s with
  | [], _ => true
  | _ :: _, [] => false
  | a :: p', b :: s' => N.eqb a b && startswith s' p'
  end.

(** [s.endswith(p)] *)
Fixpoint endswith (s p : list N) : bool :=
  eqb s p
  || match s with
     | [] => false
     | _ :: s' => endswith s' p
     end.

(** [c in s] for a one-character needle. *)
Fixpoint contains (c : N) (s : list N) : bool :=
  match s with
  | [] => false
  | a :: s' => N.eqb a c || contains c s'
  end.

(** [s.split(c)] for a one-character separator.  The result is never the
    empty list, so the branch for [[]] is never taken. *)
Fixpoint split (c : N) (s : list N) : list (list N) :=
  match s with
  | [] => [[]]
  | a :: s' =>
      if N.eqb a c then [] :: split c s'
      else match split c s' with
           | h :: t => (a :: h) :: t
           | [] => [[a]]
           end
  end.

(** [s.split(c, 1)]: split at the first occurrence only; again the branch
    for [[]] is never taken. *)
Fixpoint split1 (c : N) (s : list N) : list (list N) :=
  match s with
  | [] => [[]]
  | a :: s' =>
      if N.eqb a c then [[]; s']
      else match split1 c s' with
           | h :: t => (a :: h) :: t
           | [] => [[a]]
           end
  end.

(** [sep.join(l)] *)
Fixpoint join (sep : list N) (l : list (list N)) : list N :=
  match l with
  | [] => []
  | [x] => x
  | x :: rest => x ++ sep ++ join sep rest
  end.

Fixpoint lstrip_by (p : N -> bool) (s : list N) : list N :=
  match s with
  | [] => []
  | c :: s' => if p c then lstrip_by p s' else s
  end.

Fixpoint rstrip_by (p : N -> bool) (s : list N) : list N :=
  match s with
  | [] => []
  | c :: s' =>
      match rstrip_by p s' with
      | [] => if p c then [] else [c]
      | r => c :: r
      end
  end.

(** [s.strip()] *)
Definition strip (U : unicode) (s : list N) : list N :=
  rstrip_by (isspace_char U) (lstrip_by (isspace_char U) s).

(** [s.lstrip(c)] for a one-character argument. *)
Definition lstrip_char (c : N) (s : list N) : list N :=
  lstrip_by (N.eqb c) s.

(** [s.rfind(c)]: index of the last occurrence, or -1. *)
Fixpoint rfind (c : N) (s : list N) : Z :=
  match s with
  | [] => (-1)%Z
  | a :: s' =>
      let r := rfind c s' in
      if (0 <=? r)%Z then (r + 1)%Z
      else if N.eqb a c then 0%Z else (-1)%Z
  end.

(** [s[i:]] for [0 <= i]. *)
Fixpoint slice_from (i : nat) (s : list N) : list N :=
  match i, s with
  | O, _ => s
  | S _, [] => []
  | S i', _ :: s' => slice_from i' s'
  end.

(** [s[:i]] for [0 <= i]. *)
Fixpoint slice_to (i : nat) (s : list N) : list N :=
  match i, s with
  | O, _ => []
  | S _, [] => []
  | S i', c :: s' => c :: slice_to i' s'
  end.

(** Truthiness of a string: [not s] holds of the empty string only. *)
Definition truthy (s : list N) : bool := negb (eqb s []).

(** [s <= t], the order [sorted] uses: code point by code point. *)
Fixpoint leb (s t : list N) : bool :=
  match s, t with
  | [], _ => true
  | _ :: _, [] => false
  | a :: s', b :: t' =>
      if a <? b then true else if N.eqb a b then leb s' t' else false
  end.

End Py.

Import Py.

(** ** pathlib (pure POSIX paths)

    The scripts use [pathlib.Path] for suffix handling only.  The model
    follows [PurePosixPath]: parsing, [str], [name], [suffix] and
    [with_suffix]. *)

Module pathlib.

(** A parsed path: its root (empty, ["/"] or ["//"]) and its components. *)
Record Path : Type := mkPath { root : list N; parts : list (list N) }.

(** Exactly two leading slashes are kept as the root ["//"]. *)
Definition splitroot (part : list N) : list N * list N :=
  if startswith part (u "/") then
    let stripped := lstrip_char 47 part in
    if (len part - len stripped =? 2)%nat then (u "//", stripped)
    else (u "/", stripped)
  else ([], part).

(** Empty components and ["."] are dropped. *)
Definition keep_component (x : list N) : bool :=
  truthy x && negb (eqb x (u ".")).

(** [Path(s)] *)
Definition parse (s : list N) : Path :=
  let '(r, rel) := splitroot s in
  {| root := r; parts := List.filter keep_component (split 47 rel) |}.

(** [str(p)] *)
Definition str (p : Path) : list N :=
  let s := root p ++ join (u "/") (parts p) in
  if truthy s then s else u ".".

(** [p.name]: the final component, empty when there is none. *)
Definition name (p : Path) : list N := List.last (parts p) [].

(** [p.suffix]: from the last dot of the name, unless that dot is the
    first or the last character of the name. *)
Definition suffix (p : Path) : list N :=
  let nm := name p in
  let i := rfind 46 nm in
  if (0 <? i)%Z && (i <? Z.of_nat (len nm) - 1)%Z
  then slice_from (Z.to_nat i) nm
  else [].

(** [repr(p)], exact for the paths it is used on here (those without a
    name, whose text is ["."], ["/"] or ["//"]). *)
Definition repr (p : Path) : list N := u "PosixPath('" ++ str p ++ u "')".

(** [p.with_suffix(sfx)] *)
Definition with_suffix (p : Path) (sfx : list N) : result Path :=
  if contains 47 sfx then
    Raise (ValueError (u "Invalid suffix '" ++ sfx ++ u "'"))
  else if (truthy sfx && negb (startswith sfx (u "."))) || eqb sfx (u ".") then
    Raise (ValueError (u "Invalid suffix '" ++ sfx ++ u "'"))
  else
    let nm := name p in
    if negb (truthy nm) then
      Raise (ValueError (repr p ++ u " has an empty name"))
    else
      let old_suffix := suffix p in
      let nm' :=
        if negb (truthy old_suffix) then nm ++ sfx
        else slice_to (len nm - len old_suffix) nm ++ sfx in
      Return {| root := root p; parts := removelast (parts p) ++ [nm'] |}.

End pathlib.

(** ** argparse

    The declarations a script makes, and what [parse_args] does with a
    command line.  The command line is taken as argparse's first pass
    reads it: each string is an argument ([targ]), an option string of the
    parser with the text after [=] if there is one ([topt]; an abbreviation
    stands for the option it abbreviates, a group of single-dash flags for
    its flags), or a string that looks like an option and is none of the
    parser's ([tunknown]).  The second pass, modelled here as in
    CPython 3.11, consumes positionals and options alternately, converts
    and checks the values and runs the actions.  Two things the first
    pass does are left out: it refuses an ambiguous abbreviation with a
    usage error, and it reads every string after [--] as an argument. *)

Module argparse.

Inductive action : Type :=
| store
| store_true
| version (text : list N)
| help.

Inductive value : Type :=
| VNone
| VStr (s : list N)
| VInt (z : Z)
| VBool (b : bool).

Inductive conversion : Type := to_str | to_int.

(** One [parser.add_argument(...)] call. *)
Record argument : Type := mkArgument {
  name_or_flags : list (list N);
  arg_action : action;
  nargs : option (list N);
  arg_default : value;
  arg_type : conversion;
  choices : option (list (list N))
}.

(** The [-h/--help] option every parser gets ([add_help=True]). *)
Definition help_argument : argument :=
  {| name_or_flags := [u "-h"; u "--help"]; arg_action := help; nargs := None;
     arg_default := VNone; arg_type := to_str; choices := None |}.

(** [argparse.ArgumentParser(...)] followed by the [add_argument] calls. *)
Definition ArgumentParser (declared : list argument) : list argument :=
  help_argument :: declared.

(** An argument is optional when its names start with ['-']. *)
Definition is_optional (a : argument) : bool :=
  forallb (fun f => startswith f (u "-")) (name_or_flags a).

Definition has_name (f : list N) (a : argument) : bool :=
  existsb (eqb f) (name_or_flags a).

(** The parser declares an option string [f]. *)
Definition defines_option (parser : list argument) (f : list N) : bool :=
  existsb (fun a => is_optional a && has_name f a) parser.

(** The parser declares a positional argument [f]. *)
Definition defines_positional (parser : list argument) (f : list N) : bool :=
  existsb (fun a => negb (is_optional a) && has_name f a) parser.

Definition find_option (parser : list argument) (f : list N) : option argument :=
  List.find (fun a => is_optional a && has_name f a) parser.

(** The attribute of the namespace an argument is stored in: the first
    long option string, else the first option string, without its dashes
    and with ['-'] replaced by ['_']; the name of a positional. *)
Definition dest (a : argument) : list N :=
  if is_optional a then
    let chosen :=
      match List.find (fun f => startswith f (u "--")) (name_or_flags a) with
      | Some f => f
      | None => hd [] (name_or_flags a)
      end in
    List.map (fun c => if N.eqb c 45 then 95 else c) (lstrip_char 45 chosen)
  else hd [] (name_or_flags a).

(** The name an error message gives an argument. *)
Definition argument_name (a : argument) : list N :=
  if is_optional a then join (u "/") (name_or_flags a)
  else hd [] (name_or_flags a).

(** A positional that must be given: one without [nargs='?']. *)
Definition is_required (a : argument) : bool :=
  match nargs a with
  | Some n => negb (eqb n (u "?"))
  | None => true
  end.

(** What a run of a script shows: the lines printed to each stream and
    the exit status of the process. *)
Record outcome : Type := mkOutcome {
  stdout : list (list N);
  stderr : list (list N);
  exit_status : Z
}.

(** [parser.error(message)]: usage and message to standard error,
    exit status 2. *)
Definition error (usage prog message : list N) : outcome :=
  {| stdout := [];
     stderr := [usage; prog ++ u ": error: " ++ message];
     exit_status := 2 |}.

(** A string of the command line, as the first pass classifies it. *)
Inductive token : Type :=
| targ (s : list N)
| topt (option_string : list N) (explicit_arg : option (list N))
| tunknown (s : list N).

(** [parse_args] returns a namespace or ends the process. *)
Inductive parsed : Type :=
| Namespace (ns : gmap (list N) value)
| Exit (o : outcome).

Section Parser.
Variable U : unicode.
Variables usage help_text prog : list N.
Variable parser : list argument.

Definition argument_error (a : argument) (message : list N) : parsed :=
  Exit (error usage prog (u "argument " ++ argument_name a ++ u ": " ++ message)).

(** [_get_value]: the conversion [type=] asks for. *)
Definition get_value (a : argument) (s : list N) : option value :=
  match arg_type a with
  | to_str => Some (VStr s)
  | to_int => VInt <$> int_of_str U s
  end.

(** [_check_value]: a value is refused when [choices] is given and does
    not hold it. *)
Definition check_value (a : argument) (v : list N) : bool :=
  match choices a with
  | None => true
  | Some cs => existsb (eqb v) cs
  end.

(** [take_action]: convert and check the argument strings, then run the
    action. *)
Definition take_action (a : argument) (args : list (list N))
    (ns : gmap (list N) value) : parsed :=
  match arg_action a with
  | store =>
      match args with
      | [] => Namespace (<[dest a := arg_default a]> ns)
      | s :: _ =>
          match get_value a s with
          | None =>
              argument_error a (u "invalid int value: " ++ repr U s)
          | Some v =>
              if check_value a s then Namespace (<[dest a := v]> ns)
              else
                argument_error a
                  (u "invalid choice: " ++ repr U s ++ u " (choose from "
                   ++ join (u ", ") (List.map (repr U) (default [] (choices a)))
                   ++ u ")")
          end
      end
  | store_true => Namespace (<[dest a := VBool true]> ns)
  | version text =>
      Exit {| stdout := [text]; stderr := []; exit_status := 0 |}
  | help =>
      Exit {| stdout := [help_text]; stderr := []; exit_status := 0 |}
  end.

(** The longest run of positionals the [m] pending arguments can feed:
    each required positional takes one. *)
Fixpoint prefix_fit (ps : list argument) (m : nat) : list argument :=
  match ps with
  | [] => []
  | p :: ps' =>
      if is_required p then
        match m with
        | O => []
        | S m' => p :: prefix_fit ps' m'
        end
      else p :: prefix_fit ps' m
  end.

Definition required_count (ps : list argument) : nat :=
  length (List.filter is_required ps).

(** Give the pending arguments to the chosen positionals, from the left;
    a [nargs='?'] positional takes one only if enough are left for the
    required ones after it. *)
Fixpoint feed (chosen : list argument) (block : list (list N))
    (ns : gmap (list N) value) : parsed * list (list N) :=
  match chosen with
  | [] => (Namespace ns, block)
  | p :: chosen' =>
      let takes :=
        is_required p || (required_count chosen' <? length block)%nat in
      let args := if takes then firstn 1 block else [] in
      let block' := if takes then skipn 1 block else block in
      match take_action p args ns with
      | Namespace ns' => feed chosen' block' ns'
      | Exit o => (Exit o, block')
      end
  end.

(** The state of the second pass: the positionals not yet consumed, the
    namespace, the strings nothing consumed, and the arguments seen since
    the last option. *)
Record state : Type := mkState {
  st_positionals : list argument;
  st_namespace : gmap (list N) value;
  st_extras : list (list N);
  st_block : list (list N)
}.

(** [consume_positionals] on the pending arguments; what it leaves goes
    to the extras. *)
Definition consume_positionals (st : state) : parsed * state :=
  let chosen := prefix_fit (st_positionals st) (length (st_block st)) in
  match feed chosen (st_block st) (st_namespace st) with
  | (Namespace ns, unused) =>
      (Namespace ns,
       {| st_positionals := skipn (length chosen) (st_positionals st);
          st_namespace := ns;
          st_extras := st_extras st ++ unused;
          st_block := [] |})
  | (Exit o, _) => (Exit o, st)
  end.

(** Before an option, positionals are consumed only when arguments are
    pending. *)
Definition flush (st : state) : parsed * state :=
  match st_block st with
  | [] => (Namespace (st_namespace st), st)
  | _ => consume_positionals st
  end.

Definition set_namespace (st : state) (ns : gmap (list N) value) : state :=
  {| st_positionals := st_positionals st; st_namespace := ns;
     st_extras := st_extras st; st_block := st_block st |}.

Definition add_extra (st : state) (s : list N) : state :=
  {| st_positionals := st_positionals st; st_namespace := st_namespace st;
     st_extras := st_extras st ++ [s]; st_block := st_block st |}.

Definition add_pending (st : state) (s : list N) : state :=
  {| st_positionals := st_positionals st; st_namespace := st_namespace st;
     st_extras := st_extras st; st_block := st_block st ++ [s] |}.

(** The end of the command line: the last positionals, then the check
    for missing required arguments, then the check for extras. *)
Definition finish (st : state) : parsed :=
  match consume_positionals st with
  | (Exit o, _) => Exit o
  | (Namespace ns, st') =>
      match List.filter is_required (st_positionals st') with
      | (_ :: _) as missing =>
          Exit (error usage prog
                  (u "the following arguments are required: "
                   ++ join (u ", ") (List.map argument_name missing)))
      | [] =>
          match st_extras st' with
          | [] => Namespace ns
          | (_ :: _) as strings =>
              Exit (error usage prog
                      (u "unrecognized arguments: " ++ join (u " ") strings))
          end
      end
  end.

(** The loop of the second pass. *)
Fixpoint consume (st : state) (ts : list token) {struct ts} : parsed :=
  match ts with
  | [] => finish st
  | targ s :: ts' => consume (add_pending st s) ts'
  | tunknown s :: ts' =>
      match flush st with
      | (Exit o, _) => Exit o
      | (Namespace _, st') => consume (add_extra st' s) ts'
      end
  | topt f explicit :: ts' =>
      match flush st with
      | (Exit o, _) => Exit o
      | (Namespace _, st') =>
          match find_option parser f with
          | None =>
              consume (add_extra st' (f ++ match explicit with
                                          | Some v => u "=" ++ v
                                          | None => []
                                          end)) ts'
          | Some a =>
              match arg_action a with
              | store =>
                  match explicit, ts' with
                  | Some v, _ =>
                      match take_action a [v] (st_namespace st') with
                      | Namespace ns => consume (set_namespace st' ns) ts'
                      | Exit o => Exit o
                      end
                  | None, targ v :: ts'' =>
                      match take_action a [v] (st_namespace st') with
                      | Namespace ns => consume (set_namespace st' ns) ts''
                      | Exit o => Exit o
                      end
                  | None, _ => argument_error a (u "expected one argument")
                  end
              | _ =>
                  match explicit with
                  | Some v =>
                      argument_error a
                        (u "ignored explicit argument " ++ repr U v)
                  | None =>
                      match take_action a [] (st_namespace st') with
                      | Namespace ns => consume (set_namespace st' ns) ts'
                      | Exit o => Exit o
                      end
                  end
              end
          end
      end
  end.

(** The defaults the namespace starts with: those of the arguments that
    store a value. *)
Definition defaults : gmap (list N) value :=
  fold_right
    (fun a ns =>
       match arg_action a with
       | store | store_true => <[dest a := arg_default a]> ns
       | _ => ns
       end)
    ∅ parser.

(** [parser.parse_args()] *)
Definition parse_args (argv : list token) : parsed :=
  consume {| st_positionals := List.filter (fun a => negb (is_optional a)) parser;
             st_namespace := defaults;
             st_extras := [];
             st_block := [] |} argv.

End Parser.

End argparse.

(** ** ean13_generator.py *)

Module ean13_generator.
Import pathlib argparse.

(** [validate_ean13_code(code)] *)
Definition validate_ean13_code (U : unicode) (code : list N) : result (list N) :=
  if negb (isdigit U code) then
    Raise (ValueError (u "EAN-13 code must contain only digits"))
  else if negb (len code =? 12)%nat then
    Raise (ValueError (u "EAN-13 code must be exactly 12 digits"))
  else Return code.

(** python-barcode, as far as the script calls it: the two writer
    constructors, the [EAN13] constructor and [save], which appends the
    writer's own extension and returns the full file name. *)
Record library : Type := mkLibrary {
  writer : Type;
  ean : Type;
  ImageWriter : result writer;
  SVGWriter : result writer;
  EAN13 : list N -> writer -> result ean;
  save : ean -> list N -> result (list N)
}.

(** The parsed command line. *)
Record namespace : Type := mkNamespace {
  code : list N;
  output : list N;
  format : list N
}.

Section WithLibrary.
Variable U : unicode.
Variable lib : library.

(** The [if format_type.lower() == 'png'] statement of [generate_barcode]. *)
Definition select_writer (format_type : list N)
    : result (writer lib * list N) :=
  if eqb (lower U format_type) (u "png") then
    w ← ImageWriter lib; Return (w, u ".png")
  else
    w ← SVGWriter lib; Return (w, u ".svg").

(** The path handed to [ean.save]. *)
Definition save_path (output_path : list N) : result (list N) :=
  p ← with_suffix (parse output_path) []; Return (str p).

(** [generate_barcode(code, output_path, format_type)] *)
Definition generate_barcode (code output_path format_type : list N)
    : result (list N) :=
  try_except
    (validated_code ← validate_ean13_code U code;
     '(writer, file_extension) ← select_writer format_type;
     ean ← EAN13 lib validated_code writer;
     output_path ← save_path output_path;
     filename ← save lib ean output_path;
     Return filename)
    (fun m => Raise (ValueError (u "Invalid EAN-13 code: " ++ m)))
    (fun m => Raise (Exception (u "Failed to generate barcode: " ++ m))).

(** [main()], from the parsed arguments on. *)
Definition main (args : namespace) : outcome :=
  match generate_barcode (code args) (output args) (format args) with
  | Return filename =>
      {| stdout := [u "Barcode generated successfully: " ++ filename];
         stderr := [];
         exit_status := 0 |}
  | Raise (ValueError m) =>
      {| stdout := []; stderr := [u "Error: " ++ m]; exit_status := 1 |}
  | Raise (Exception m) =>
      {| stdout := []; stderr := [u "Error: " ++ m]; exit_status := 1 |}
  end.

End WithLibrary.

(** The parser of [main]: the [add_argument] calls, in order. *)
Definition parser : list argument := ArgumentParser [
  {| name_or_flags := [u "code"]; arg_action := store; nargs := None;
     arg_default := VNone; arg_type := to_str; choices := None |};
  {| name_or_flags := [u "-o"; u "--output"]; arg_action := store; nargs := None;
     arg_default := VStr (u "barcode"); arg_type := to_str; choices := None |};
  {| name_or_flags := [u "-f"; u "--format"]; arg_action := store; nargs := None;
     arg_default := VStr (u "svg"); arg_type := to_str;
     choices := Some [u "svg"; u "png"] |};
  {| name_or_flags := [u "--version"];
     arg_action := version (u "EAN-13 Generator 1.0.0"); nargs := None;
     arg_default := VNone; arg_type := to_str; choices := None |}
].

Definition get_str (ns : gmap (list N) value) (k : list N) : list N :=
  match ns !! k with
  | Some (VStr s) => s
  | _ => []
  end.

(** The attributes [main] reads from the namespace. *)
Definition read_namespace (ns : gmap (list N) value) : namespace :=
  {| code := get_str ns (u "code");
     output := get_str ns (u "output");
     format := get_str ns (u "format") |}.

(** [main()] on a command line; [usage], [help_text] and [prog] are the
    texts argparse prints. *)
Definition run (U : unicode) (lib : library) (usage help_text prog : list N)
    (argv : list token) : outcome :=
  match parse_args U usage help_text prog parser argv with
  | Exit o => o
  | Namespace ns => main U lib (read_namespace ns)
  end.

End ean13_generator.

(** ** barcode_generator.py *)

Module barcode_generator.
Import pathlib argparse.

(** Supported barcode types with descriptions. *)
Definition BARCODE_TYPES_items : list (list N * list N) := [
  (u "code128", u "Code 128 - High-density linear barcode for alphanumeric data");
  (u "datamatrix", u "Data Matrix - 2D matrix code for small spaces and high data density");
  (u "pdf417", u "PDF417 - 2D stacked barcode with high data capacity");
  (u "azteccode", u "Aztec Code - 2D matrix code used in transportation");
  (u "code39", u "Code 39 - Alphanumeric linear barcode");
  (u "code93", u "Code 93 - Compact alphanumeric linear barcode");
  (u "interleaved2of5", u "Interleaved 2 of 5 - Numeric-only linear barcode");
  (u "qrcode", u "QR Code - 2D matrix code (use qr_generator.py for more options)");
  (u "upca", u "UPC-A - 12-digit retail barcode");
  (u "ean13", u "EAN-13 - 13-digit retail barcode (use ean13_generator.py for more options)");
  (u "maxicode", u "MaxiCode - Fixed-size 2D code used by UPS");
  (u "codablock", u "Codablock F - Stacked linear barcode")
].

Definition BARCODE_TYPES : gmap (list N) (list N) :=
  list_to_map BARCODE_TYPES_items.

(** [sorted(...)] on pairs with distinct keys: by key, in code-point order. *)
Fixpoint insert_sorted (x : list N * list N) (l : list (list N * list N))
    : list (list N * list N) :=
  match l with
  | [] => [x]
  | y :: l' =>
      if leb (fst x) (fst y) then x :: l else y :: insert_sorted x l'
  end.

Definition sorted_items (m : gmap (list N) (list N)) : list (list N * list N) :=
  foldr insert_sorted [] (map_to_list m).

Definition sorted_keys (m : gmap (list N) (list N)) : list (list N) :=
  List.map fst (sorted_items m).

(** [validate_barcode_type(barcode_type)] *)
Definition validate_barcode_type (barcode_type : list N) : result (list N) :=
  match BARCODE_TYPES !! barcode_type with
  | None =>
      let available := join (u ", ") (sorted_keys BARCODE_TYPES) in
      Raise (ValueError (u "Unsupported barcode type '" ++ barcode_type
                         ++ u "'. Available types: " ++ available))
  | Some _ => Return barcode_type
  end.

(** A value of the options dictionary: a string, or [True]. *)
Inductive option_value : Type :=
| OStr (s : list N)
| OTrue.

Section WithTables.
Variable U : unicode.

(** One turn of the loop of [parse_options].  Unpacking the result of
    [split('=', 1)] into two names raises when it has not two items. *)
Definition parse_pair (options : gmap (list N) option_value) (pair : list N)
    : result (gmap (list N) option_value) :=
  if contains 61 pair then
    match split1 61 (strip U pair) with
    | [key; value] => Return (<[strip U key := OStr (strip U value)]> options)
    | items =>
        Raise (ValueError
                 (if (length items <? 2)%nat
                  then u "not enough values to unpack (expected 2, got 1)"
                  else u "too many values to unpack (expected 2)"))
    end
  else
    Return (<[strip U pair := OTrue]> options).

Fixpoint parse_pairs (options : gmap (list N) option_value)
    (pairs : list (list N)) : result (gmap (list N) option_value) :=
  match pairs with
  | [] => Return options
  | piece :: rest =>
      options' ← parse_pair options piece; parse_pairs options' rest
  end.

(** [parse_options(options_str)]; [None] stands for Python's [None]. *)
Definition parse_options (options_str : option (list N))
    : result (gmap (list N) option_value) :=
  match options_str with
  | None => Return ∅
  | Some s =>
      if negb (truthy s) then Return ∅
      else
        try_except (parse_pairs ∅ (split 44 s))
          (fun m => Raise (ValueError (u "Invalid options format: " ++ m)))
          (fun m => Raise (ValueError (u "Invalid options format: " ++ m)))
  end.

End WithTables.

(** treepoem and Pillow, as far as the script calls them. *)
Record library : Type := mkLibrary {
  image : Type;
  treepoem_generate_barcode :
    list N -> list N -> gmap (list N) option_value -> result image;
  ImageOps_expand : image -> Z -> list N -> result image;
  convert : image -> list N -> result image;
  save : image -> list N -> result unit
}.

(** The parsed command line. *)
Record namespace : Type := mkNamespace {
  data : option (list N);
  type : option (list N);
  output : list N;
  options : option (list N);
  list_types : bool
}.

Section WithLibrary.
Variable U : unicode.
Variable lib : library.

(** The path the image is written to. *)
Definition target_path (output_path : list N) : result Path :=
  let output_path := parse output_path in
  if negb (truthy (suffix output_path)) then with_suffix output_path (u ".png")
  else Return output_path.

(** [generate_barcode(data, barcode_type, output_path, options)] *)
Definition generate_barcode (data barcode_type output_path : list N)
    (options : option (gmap (list N) option_value)) : result (list N) :=
  try_except
    (validated_type ← validate_barcode_type barcode_type;
     image ← treepoem_generate_barcode lib validated_type data
               (default ∅ options);
     image ← ImageOps_expand lib image 10 (u "white");
     output_path ← target_path output_path;
     image ← (if eqb (lower U (suffix output_path)) (u ".png")
              then convert lib image (u "RGB") else Return image);
     _ ← save lib image (str output_path);
     Return (str output_path))
    (fun m => Raise (ValueError m))
    (fun m => Raise (Exception (u "Failed to generate barcode: " ++ m))).

(** [f"{code:15}"] *)
Definition ljust (width : nat) (s : list N) : list N :=
  s ++ repeat 32 (width - len s).

(** The lines [list_barcode_types()] prints. *)
Definition list_barcode_types : list (list N) :=
  u "Available barcode types:"
  :: repeat 61 50
  :: List.map (fun '(code, description) =>
                 ljust 15 code ++ u " - " ++ description)
       (sorted_items BARCODE_TYPES).

Definition given (v : option (list N)) : bool :=
  match v with
  | None => false
  | Some s => truthy s
  end.

(** [main()], from the parsed arguments on; [usage] and [prog] are the
    texts argparse prints with an error. *)
Definition main (usage prog : list N) (args : namespace) : outcome :=
  if list_types args then
    {| stdout := list_barcode_types; stderr := []; exit_status := 0 |}
  else if negb (given (data args)) || negb (given (type args)) then
    argparse.error usage prog
      (u "Both 'data' and 'type' are required (unless using --list-types)")
  else
    match
      (options ← parse_options U (options args);
       filename ← generate_barcode (default [] (data args))
                    (default [] (type args)) (output args) (Some options);
       Return filename)
    with
    | Return filename =>
        {| stdout := [u "Barcode generated successfully: " ++ filename];
           stderr := [];
           exit_status := 0 |}
    | Raise (ValueError m) =>
        {| stdout := []; stderr := [u "Error: " ++ m]; exit_status := 1 |}
    | Raise (Exception m) =>
        {| stdout := []; stderr := [u "Error: " ++ m]; exit_status := 1 |}
    end.

End WithLibrary.

(** The parser of [main]: the [add_argument] calls, in order. *)
Definition parser : list argument := ArgumentParser [
  {| name_or_flags := [u "data"]; arg_action := store; nargs := Some (u "?");
     arg_default := VNone; arg_type := to_str; choices := None |};
  {| name_or_flags := [u "type"]; arg_action := store; nargs := Some (u "?");
     arg_default := VNone; arg_type := to_str; choices := None |};
  {| name_or_flags := [u "-o"; u "--output"]; arg_action := store; nargs := None;
     arg_default := VStr (u "barcode"); arg_type := to_str; choices := None |};
  {| name_or_flags := [u "--options"]; arg_action := store; nargs := None;
     arg_default := VNone; arg_type := to_str; choices := None |};
  {| name_or_flags := [u "--list-types"]; arg_action := store_true;
     nargs := None; arg_default := VBool false; arg_type := to_str;
     choices := None |};
  {| name_or_flags := [u "--version"];
     arg_action := version (u "Multi-Format Barcode Generator 1.0.0");
     nargs := None; arg_default := VNone; arg_type := to_str; choices := None |}
].

Definition get_str (ns : gmap (list N) value) (k : list N) : list N :=
  match ns !! k with
  | Some (VStr s) => s
  | _ => []
  end.

Definition get_optional_str (ns : gmap (list N) value) (k : list N)
    : option (list N) :=
  match ns !! k with
  | Some (VStr s) => Some s
  | _ => None
  end.

Definition get_bool (ns : gmap (list N) value) (k : list N) : bool :=
  match ns !! k with
  | Some (VBool b) => b
  | _ => false
  end.

(** The attributes [main] reads from the namespace. *)
Definition read_namespace (ns : gmap (list N) value) : namespace :=
  {| data := get_optional_str ns (u "data");
     type := get_optional_str ns (u "type");
     output := get_str ns (u "output");
     options := get_optional_str ns (u "options");
     list_types := get_bool ns (u "list_types") |}.

(** [main()] on a command line. *)
Definition run (U : unicode) (lib : library) (usage help_text prog : list N)
    (argv : list token) : outcome :=
  match parse_args U usage help_text prog parser argv with
  | Exit o => o
  | Namespace ns => main U lib usage prog (read_namespace ns)
  end.

End barcode_generator.

(** ** qr_generator.py *)

Module qr_generator.
Import pathlib argparse.

(** The four constants of [qrcode.constants]. *)
Inductive error_correction : Type :=
| ERROR_CORRECT_L
| ERROR_CORRECT_M
| ERROR_CORRECT_Q
| ERROR_CORRECT_H.

Definition levels : gmap (list N) error_correction :=
  <[u "H" := ERROR_CORRECT_H]>
    (<[u "Q" := ERROR_CORRECT_Q]>
       (<[u "M" := ERROR_CORRECT_M]>
          (<[u "L" := ERROR_CORRECT_L]> ∅))).

Definition valid_colors : gset (list N) :=
  list_to_set [u "black"; u "white"; u "red"; u "green"; u "blue"; u "yellow";
               u "cyan"; u "magenta"; u "orange"; u "purple"; u "brown";
               u "pink"; u "gray"].

Section WithTables.
Variable U : unicode.

(** [get_error_correction_level(level)] *)
Definition get_error_correction_level (level : list N) : error_correction :=
  default ERROR_CORRECT_M (levels !! upper U level).

(** The test applied to each of the two colors. *)
Definition color_ok (color : list N) : bool :=
  startswith color (u "#") || bool_decide (lower U color ∈ valid_colors).

(** [validate_colors(fill_color, back_color)] *)
Definition validate_colors (fill_color back_color : list N) : result unit :=
  _ ← (if color_ok fill_color then Return tt
       else Raise (ValueError (u "Invalid fill color: " ++ fill_color)));
  if color_ok back_color then Return tt
  else Raise (ValueError (u "Invalid background color: " ++ back_color)).

End WithTables.

(** qrcode and Pillow, as far as the script calls them.  The calls
    that change the [QRCode] object return the changed object. *)
Record library : Type := mkLibrary {
  qr_object : Type;
  image_factory : Type;
  image : Type;
  QRCode : Z -> error_correction -> Z -> Z -> result qr_object;
  add_data : qr_object -> list N -> result qr_object;
  make : qr_object -> bool -> result qr_object;
  SvgPathImage : result image_factory;
  make_image :
    qr_object -> option image_factory -> list N -> list N -> result image;
  save : image -> list N -> result unit
}.

(** The parsed command line. *)
Record namespace : Type := mkNamespace {
  data : list N;
  output : list N;
  format : list N;
  error_correction_arg : list N;
  box_size : Z;
  border : Z;
  fill_color : list N;
  back_color : list N
}.

Section WithLibrary.
Variable U : unicode.
Variable lib : library.

(** The [if format_type.lower() == 'svg'] statement. *)
Definition render (qr : qr_object lib) (format_type fill_color back_color : list N)
    : result (image lib * list N) :=
  if eqb (lower U format_type) (u "svg") then
    factory ← SvgPathImage lib;
    img ← make_image lib qr (Some factory) fill_color back_color;
    Return (img, u ".svg")
  else
    img ← make_image lib qr None fill_color back_color;
    Return (img, u ".png").

(** The statements under "Add extension if not provided". *)
Definition add_extension (output_path file_extension : list N) : list N :=
  let output_path := str (parse output_path) in
  if negb (endswith output_path file_extension)
  then output_path ++ file_extension
  else output_path.

(** [generate_qr_code(data, output_path, format_type, box_size, border,
    error_correction, fill_color, back_color)] *)
Definition generate_qr_code (data output_path format_type : list N)
    (box_size border : Z) (error_correction fill_color back_color : list N)
    : result (list N) :=
  let on_error m := Raise (Exception (u "Failed to generate QR code: " ++ m)) in
  try_except
    (qr ← QRCode lib 1 (get_error_correction_level U error_correction)
            box_size border;
     qr ← add_data lib qr data;
     qr ← make lib qr true;
     '(img, file_extension) ← render qr format_type fill_color back_color;
     let output_path := add_extension output_path file_extension in
     _ ← save lib img output_path;
     Return output_path)
    on_error on_error.

(** [main()], from the parsed arguments on. *)
Definition main (args : namespace) : outcome :=
  match
    (_ ← validate_colors U (fill_color args) (back_color args);
     filename ← generate_qr_code (data args) (output args) (format args)
                  (box_size args) (border args) (error_correction_arg args)
                  (fill_color args) (back_color args);
     Return filename)
  with
  | Return filename =>
      {| stdout := [u "QR code generated successfully: " ++ filename];
         stderr := [];
         exit_status := 0 |}
  | Raise (ValueError m) =>
      {| stdout := []; stderr := [u "Error: " ++ m]; exit_status := 1 |}
  | Raise (Exception m) =>
      {| stdout := []; stderr := [u "Error: " ++ m]; exit_status := 1 |}
  end.

End WithLibrary.

(** The parser of [main]: the [add_argument] calls, in order. *)
Definition parser : list argument := ArgumentParser [
  {| name_or_flags := [u "data"]; arg_action := store; nargs := None;
     arg_default := VNone; arg_type := to_str; choices := None |};
  {| name_or_flags := [u "-o"; u "--output"]; arg_action := store; nargs := None;
     arg_default := VStr (u "qr_code"); arg_type := to_str; choices := None |};
  {| name_or_flags := [u "-f"; u "--format"]; arg_action := store; nargs := None;
     arg_default := VStr (u "png"); arg_type := to_str;
     choices := Some [u "png"; u "svg"] |};
  {| name_or_flags := [u "-e"; u "--error-correction"]; arg_action := store;
     nargs := None; arg_default := VStr (u "M"); arg_type := to_str;
     choices := Some [u "L"; u "M"; u "Q"; u "H"] |};
  {| name_or_flags := [u "--box-size"]; arg_action := store; nargs := None;
     arg_default := VInt 10; arg_type := to_int; choices := None |};
  {| name_or_flags := [u "--border"]; arg_action := store; nargs := None;
     arg_default := VInt 4; arg_type := to_int; choices := None |};
  {| name_or_flags := [u "--fill-color"]; arg_action := store; nargs := None;
     arg_default := VStr (u "black"); arg_type := to_str; choices := None |};
  {| name_or_flags := [u "--back-color"]; arg_action := store; nargs := None;
     arg_default := VStr (u "white"); arg_type := to_str; choices := None |};
  {| name_or_flags := [u "--version"];
     arg_action := version (u "QR Code Generator 1.0.0"); nargs := None;
     arg_default := VNone; arg_type := to_str; choices := None |}
].

Definition get_str (ns : gmap (list N) value) (k : list N) : list N :=
  match ns !! k with
  | Some (VStr s) => s
  | _ => []
  end.

Definition get_int (ns : gmap (list N) value) (k : list N) : Z :=
  match ns !! k with
  | Some (VInt z) => z
  | _ => 0%Z
  end.

(** The attributes [main] reads from the namespace. *)
Definition read_namespace (ns : gmap (list N) value) : namespace :=
  {| data := get_str ns (u "data");
     output := get_str ns (u "output");
     format := get_str ns (u "format");
     error_correction_arg := get_str ns (u "error_correction");
     box_size := get_int ns (u "box_size");
     border := get_int ns (u "border");
     fill_color := get_str ns (u "fill_color");
     back_color := get_str ns (u "back_color") |}.

(** [main()] on a command line. *)
Definition run (U : unicode) (lib : library) (usage help_text prog : list N)
    (argv : list token) : outcome :=
  match parse_args U usage help_text prog parser argv with
  | Exit o => o
  | Namespace ns => main U lib (read_namespace ns)
  end.

End qr_generator.

(** ** Sample tables and libraries

    Tables that satisfy what [unicode] asks for, and libraries in which
    every call succeeds, used to run the scripts on concrete inputs.  The
    tables are those of ASCII with some characters beyond it: the
    superscript and full-width digits, the no-break space and NEL, the
    capitals of Latin-1, the Kelvin sign, the long s and the dotless i.
    Every other character is left as it is and taken as neither digit
    nor space; the tables serve to run the scripts on the inputs shown,
    the theorems hold for every table.
    The python-barcode sample appends the extension of the writer, as the
    real [save] does. *)

Module Sample.

Definition isdigit_char (c : N) : bool :=
  ((48 <=? c) && (c <=? 57)) || N.eqb c 178 || N.eqb c 179 || N.eqb c 185
  || ((65296 <=? c) && (c <=? 65305)).

Definition isspace_char (c : N) : bool :=
  ascii_isspace c || N.eqb c 133 || N.eqb c 160.

Definition lower_char (c : N) : N :=
  if c <? 128 then ascii_lower c
  else if N.eqb c 8490 then 107
  else if (192 <=? c) && (c <=? 222) && negb (N.eqb c 215) then c + 32
  else c.

Definition upper_char (c : N) : list N :=
  if c <? 128 then [ascii_upper c]
  else if N.eqb c 223 then [83; 83]
  else if N.eqb c 305 then [73]
  else if N.eqb c 383 then [83]
  else if (224 <=? c) && (c <=? 254) && negb (N.eqb c 247) then [c - 32]
  else [c].

(** [int(s)]: white space around the text is dropped, a sign may come
    first, and the digits may hold single underscores between them. *)
Definition decimal_value (c : N) : option Z :=
  if (48 <=? c) && (c <=? 57) then Some (Z.of_N (c - 48))
  else if (65296 <=? c) && (c <=? 65305) then Some (Z.of_N (c - 65296))
  else None.

Fixpoint digits_value (acc : Z) (after_digit : bool) (s : list N) : option Z :=
  match s with
  | [] => if after_digit then Some acc else None
  | c :: s' =>
      if N.eqb c 95 then
        if after_digit then digits_value acc false s' else None
      else
        match decimal_value c with
        | Some d => digits_value (10 * acc + d) true s'
        | None => None
        end
  end.

Definition int_of_str (s : list N) : option Z :=
  match rstrip_by isspace_char (lstrip_by isspace_char s) with
  | 43 :: digits => digits_value 0 false digits
  | 45 :: digits => Z.opp <$> digits_value 0 false digits
  | digits => digits_value 0 false digits
  end.

(** [repr(s)] for a string without quotes, backslashes and control
    characters. *)
Definition repr (s : list N) : list N := u "'" ++ s ++ u "'".

Definition tables : unicode.
Proof.
  refine {| Py.isdigit_char := isdigit_char;
            Py.isspace_char := isspace_char;
            Py.lower := List.map lower_char;
            Py.upper := flat_map upper_char;
            Py.int_of_str := int_of_str;
            Py.repr := repr |}.
  - intros c H. unfold isdigit_char.
    destruct (N.eqb_spec c 178) as [->|_]; [lia|].
    destruct (N.eqb_spec c 179) as [->|_]; [lia|].
    destruct (N.eqb_spec c 185) as [->|_]; [lia|].
    destruct (N.leb_spec 65296 c); [lia|].
    cbn [andb]. rewrite !orb_false_r. reflexivity.
  - intros c H. unfold isspace_char.
    destruct (N.eqb_spec c 133) as [->|_]; [lia|].
    destruct (N.eqb_spec c 160) as [->|_]; [lia|].
    rewrite !orb_false_r. reflexivity.
  - intros s H. apply map_ext_in. intros c I.
    unfold is_ascii in H. rewrite List.Forall_forall in H. specialize (H c I).
    unfold lower_char. destruct (N.ltb_spec c 128); [reflexivity | lia].
  - intros s H. induction H as [|c s Hc Hs IH]; [reflexivity|].
    cbn [flat_map List.map]. rewrite IH. unfold upper_char.
    destruct (N.ltb_spec c 128); [reflexivity | lia].
Defined.

Definition ean13_library : ean13_generator.library :=
  {| ean13_generator.writer := list N;
     ean13_generator.ean := list N * list N;
     ean13_generator.ImageWriter := Return (u ".png");
     ean13_generator.SVGWriter := Return (u ".svg");
     ean13_generator.EAN13 := fun code w => Return (code, w);
     ean13_generator.save := fun e path => Return (path ++ snd e) |}.

Definition barcode_library : barcode_generator.library :=
  {| barcode_generator.image := unit;
     barcode_generator.treepoem_generate_barcode := fun _ _ _ => Return tt;
     barcode_generator.ImageOps_expand := fun _ _ _ => Return tt;
     barcode_generator.convert := fun _ _ => Return tt;
     barcode_generator.save := fun _ _ => Return tt |}.

Definition qr_library : qr_generator.library :=
  {| qr_generator.qr_object := unit;
     qr_generator.image_factory := unit;
     qr_generator.image := unit;
     qr_generator.QRCode := fun _ _ _ _ => Return tt;
     qr_generator.add_data := fun _ _ => Return tt;
     qr_generator.make := fun _ _ => Return tt;
     qr_generator.SvgPathImage := Return tt;
     qr_generator.make_image := fun _ _ _ _ => Return tt;
     qr_generator.save := fun _ _ => Return tt |}.

(** A treepoem that refuses every input. *)
Definition failing_barcode_library : barcode_generator.library :=
  {| barcode_generator.image := unit;
     barcode_generator.treepoem_generate_barcode :=
       fun _ _ _ => Raise (Exception (u "ghostscript not found"));
     barcode_generator.ImageOps_expand := fun _ _ _ => Return tt;
     barcode_generator.convert := fun _ _ => Return tt;
     barcode_generator.save := fun _ _ => Return tt |}.

End Sample.

(** ** The stated properties, in the vocabulary of the specification *)

Module Spec.
Import argparse.

(** A string composed solely of digits. *)
Definition only_digits (U : unicode) (s : list N) : Prop :=
  Forall (fun c => isdigit_char U c = true) s.

(** The twelve supported barcode types. *)
Definition barcode_type_names : list (list N) :=
  [u "code128"; u "datamatrix"; u "pdf417"; u "azteccode"; u "code39";
   u "code93"; u "interleaved2of5"; u "qrcode"; u "upca"; u "ean13";
   u "maxicode"; u "codablock"].

(** The thirteen color names. *)
Definition color_names : list (list N) :=
  [u "black"; u "white"; u "red"; u "green"; u "blue"; u "yellow"; u "cyan";
   u "magenta"; u "orange"; u "purple"; u "brown"; u "pink"; u "gray"].

Definition starts_with_hash (s : list N) : Prop :=
  exists rest, s = 35 :: rest.

(** A color passes when it starts with ['#'] or its lower-case form is
    one of the thirteen names. *)
Definition acceptable_color (U : unicode) (s : list N) : Prop :=
  starts_with_hash s \/ lower U s ∈ color_names.

(** The four error-correction levels. *)
Definition level_names : list (list N) := [u "L"; u "M"; u "Q"; u "H"].

(** The option [-e/--error-correction] is given the value [v] somewhere
    on the command line. *)
Definition level_given (v : list N) (argv : list token) : Prop :=
  exists f before after,
    f ∈ [u "-e"; u "--error-correction"]
    /\ (argv = before ++ topt f (Some v) :: after
        \/ argv = before ++ topt f None :: targ v :: after).

(** The command line asks for the help text or the version. *)
Definition asks_help_or_version (argv : list token) : Prop :=
  exists f explicit,
    f ∈ [u "-h"; u "--help"; u "--version"] /\ topt f explicit ∈ argv.

(** An error report: nothing on standard output, one ["Error: ..."] line
    on standard error, exit status 1. *)
Definition reports_error (o : outcome) : Prop :=
  stdout o = [] /\ (exists m, stderr o = [u "Error: " ++ m]) /\ exit_status o = 1%Z.

(** A success report: one line on standard output ending in the file
    name, nothing on standard error, exit status 0. *)
Definition reports_success (what filename : list N) (o : outcome) : Prop :=
  stdout o = [what ++ u " generated successfully: " ++ filename]
  /\ stderr o = [] /\ exit_status o = 0%Z.

(** An argparse error: nothing on standard output, the usage and the
    message on standard error, exit status 2. *)
Definition reports_usage_error (o : outcome) : Prop :=
  stdout o = [] /\ (exists usage m, stderr o = [usage; m]) /\ exit_status o = 2%Z.

(** What [--help] and [--version] give: one text on standard output,
    nothing on standard error, exit status 0. *)
Definition reports_information (o : outcome) : Prop :=
  (exists text, stdout o = [text]) /\ stderr o = [] /\ exit_status o = 0%Z.

(** The text before the first occurrence of [c], and the text after it. *)
Fixpoint before (c : N) (s : list N) : list N :=
  match s with
  | [] => []
  | a :: s' => if N.eqb a c then [] else a :: before c s'
  end.

Fixpoint after (c : N) (s : list N) : list N :=
  match s with
  | [] => []
  | a :: s' => if N.eqb a c then s' else after c s'
  end.

(** The dictionary entry a comma-separated piece stands for: split at the
    first ['='] with both sides stripped, or the stripped piece with
    [True]. *)
Definition option_entry (U : unicode) (piece : list N)
    : list N * barcode_generator.option_value :=
  if contains 61 piece then
    (strip U (before 61 piece), barcode_generator.OStr (strip U (after 61 piece)))
  else (strip U piece, barcode_generator.OTrue).

(** The dictionary built from the pieces, from left to right. *)
Definition options_of_pieces (U : unicode) (pieces : list (list N))
    : gmap (list N) barcode_generator.option_value :=
  foldl (fun d piece => <[(option_entry U piece).1 := (option_entry U piece).2]> d)
    ∅ pieces.

(** A path with a final component, as [with_suffix] requires. *)
Definition has_name (output_path : list N) : Prop :=
  pathlib.name (pathlib.parse output_path) <> [].

(** The file [barcode_generator.py] writes: the path with ['.png'] added
    when it has no suffix, the path itself otherwise. *)
Definition barcode_file (output_path : list N) : list N :=
  let p := pathlib.parse output_path in
  if eqb (pathlib.suffix p) [] then pathlib.str p ++ u ".png"
  else pathlib.str p.

(** The suffix of that file. *)
Definition barcode_suffix (output_path : list N) : list N :=
  let p := pathlib.parse output_path in
  if eqb (pathlib.suffix p) [] then u ".png" else pathlib.suffix p.

(** The extension [qr_generator.py] uses for a format. *)
Definition qr_extension (U : unicode) (format_type : list N) : list N :=
  if eqb (lower U format_type) (u "svg") then u ".svg" else u ".png".

(** The file [qr_generator.py] writes: the parsed path, with the
    extension added unless the parsed path ends with it. *)
Definition qr_file (output_path ext : list N) : list N :=
  let s := pathlib.str (pathlib.parse output_path) in
  if endswith s ext then s else s ++ ext.

(** Libraries in which every call returns. *)
Definition ean13_calls_return (lib : ean13_generator.library) : Prop :=
  (exists w, ean13_generator.ImageWriter lib = Return w)
  /\ (exists w, ean13_generator.SVGWriter lib = Return w)
  /\ (forall code w, exists e, ean13_generator.EAN13 lib code w = Return e)
  /\ (forall e path, exists f, ean13_generator.save lib e path = Return f).

Definition barcode_calls_return (lib : barcode_generator.library) : Prop :=
  (forall t d o, exists i,
      barcode_generator.treepoem_generate_barcode lib t d o = Return i)
  /\ (forall i b f, exists i', barcode_generator.ImageOps_expand lib i b f = Return i')
  /\ (forall i m, exists i', barcode_generator.convert lib i m = Return i')
  /\ (forall i path, barcode_generator.save lib i path = Return tt).

Definition qr_calls_return (lib : qr_generator.library) : Prop :=
  (forall v e b d, exists q, qr_generator.QRCode lib v e b d = Return q)
  /\ (forall q d, exists q', qr_generator.add_data lib q d = Return q')
  /\ (forall q fit, exists q', qr_generator.make lib q fit = Return q')
  /\ (exists f, qr_generator.SvgPathImage lib = Return f)
  /\ (forall q f fc bc, exists i, qr_generator.make_image lib q f fc bc = Return i)
  /\ (forall i path, qr_generator.save lib i path = Return tt).

End Spec.

(** ** Vocabulary of the further properties *)

Module Props.

(** The value the last piece with key [k] stands for, if there is one. *)
Definition last_entry (U : unicode) (k : list N) (pieces : list (list N))
    : option barcode_generator.option_value :=
  (fun piece => (Spec.option_entry U piece).2)
    <$> List.find (fun piece => eqb (Spec.option_entry U piece).1 k)
          (rev pieces).

(** An entry as [parse_options] stores it: key and value without white
    space around them, no comma in either, no ['='] in the key. *)
Definition clean_entry (U : unicode)
    (e : list N * barcode_generator.option_value) : Prop :=
  strip U e.1 = e.1 /\ contains 44 e.1 = false /\ contains 61 e.1 = false
  /\ match e.2 with
     | barcode_generator.OStr x => strip U x = x /\ contains 44 x = false
     | barcode_generator.OTrue => True
     end.

(** An entry written the way the [--options] help shows it. *)
Definition format_option (e : list N * barcode_generator.option_value) : list N :=
  match e.2 with
  | barcode_generator.OStr x => e.1 ++ u "=" ++ x
  | barcode_generator.OTrue => e.1
  end.

Definition format_options
    (l : list (list N * barcode_generator.option_value)) : list N :=
  join (u ",") (List.map format_option l).

(** The dictionary with the entries of [l], the later ones winning. *)
Definition dict_of_entries (l : list (list N * barcode_generator.option_value))
    : gmap (list N) barcode_generator.option_value :=
  foldl (fun d e => <[e.1 := e.2]> d) ∅ l.

(** A path in the form [pathlib.parse] produces: one of the three roots,
    and components that are kept and hold no ['/']. *)
Definition normal (q : pathlib.Path) : Prop :=
  (pathlib.root q = [] \/ pathlib.root q = u "/" \/ pathlib.root q = u "//")
  /\ Forall (fun x => pathlib.keep_component x = true /\ contains 47 x = false)
       (pathlib.parts q).

(** An extension as the scripts use them: at least two characters, no
    ['/']. *)
Definition extension (e : list N) : Prop :=
  contains 47 e = false /\ (2 <= length e)%nat.

(** The library [lib] with another [convert]. *)
Definition with_convert (lib : barcode_generator.library)
    (f : barcode_generator.image lib -> list N -> result (barcode_generator.image lib))
    : barcode_generator.library :=
  {| barcode_generator.image := barcode_generator.image lib;
     barcode_generator.treepoem_generate_barcode :=
       barcode_generator.treepoem_generate_barcode lib;
     barcode_generator.ImageOps_expand := barcode_generator.ImageOps_expand lib;
     barcode_generator.convert := f;
     barcode_generator.save := barcode_generator.save lib |}.

(** An argument whose action prints a text and ends the process. *)
Definition prints_and_exits (a : argparse.argument) : bool :=
  match argparse.arg_action a with
  | argparse.version _ | argparse.help => true
  | _ => false
  end.

(** The option strings a parser declares, in order. *)
Definition option_strings (parser : list argparse.argument) : list (list N) :=
  concat (List.map argparse.name_or_flags
            (List.filter argparse.is_optional parser)).

(** The positional arguments a parser declares, in order. *)
Definition positional_names (parser : list argparse.argument) : list (list N) :=
  concat (List.map argparse.name_or_flags
            (List.filter (fun a => negb (argparse.is_optional a)) parser)).

(** In the second pass of [parser]: the positionals still to come are
    arguments of the parser that do not print and exit, and the namespace
    satisfies [I]. *)
Definition state_ok (parser : list argparse.argument)
    (I : gmap (list N) argparse.value -> Prop) (st : argparse.state) : Prop :=
  Forall (fun a => a ∈ parser /\ prints_and_exits a = false)
    (argparse.st_positionals st)
  /\ I (argparse.st_namespace st).

(** What [parse_args] gives on the command line [ts]: a namespace that
    satisfies [I], a usage error, or the text of an option of the command
    line that prints and exits. *)
Definition parsed_ok (parser : list argparse.argument)
    (I : gmap (list N) argparse.value -> Prop) (ts : list argparse.token)
    (r : argparse.parsed) : Prop :=
  match r with
  | argparse.Namespace ns => I ns
  | argparse.Exit o =>
      Spec.reports_usage_error o
      \/ (Spec.reports_information o
          /\ exists f explicit a,
               argparse.topt f explicit ∈ ts
               /\ argparse.find_option parser f = Some a
               /\ prints_and_exits a = true)
  end.

(** The attribute [k] of the namespace holds one of the strings [vs]. *)
Definition holds_one_of (k : list N) (vs : list (list N))
    (ns : gmap (list N) argparse.value) : Prop :=
  exists s, ns !! k = Some (argparse.VStr s) /\ s ∈ vs.

(** The library [lib] with another [ImageWriter]. *)
Definition with_ImageWriter (lib : ean13_generator.library)
    (r : result (ean13_generator.writer lib)) : ean13_generator.library :=
  {| ean13_generator.writer := ean13_generator.writer lib;
     ean13_generator.ean := ean13_generator.ean lib;
     ean13_generator.ImageWriter := r;
     ean13_generator.SVGWriter := ean13_generator.SVGWriter lib;
     ean13_generator.EAN13 := ean13_generator.EAN13 lib;
     ean13_generator.save := ean13_generator.save lib |}.

(** What is used of the Unicode database about the four level letters:
    only a level letter, in either case, has a level letter as its
    upper-case form or the lower-case form of one, as its lower-case
    form; and no upper-case form is a lower-case level letter, no
    lower-case form an upper-case one. *)
Definition level_letters_are_ascii (U : unicode) : Prop :=
  forall s k,
    k ∈ Spec.level_names ->
    (upper U s = k -> s = k \/ s = List.map ascii_lower k)
    /\ (lower U s = List.map ascii_lower k ->
        s = k \/ s = List.map ascii_lower k)
    /\ upper U s <> List.map ascii_lower k
    /\ lower U s <> k.

End Props.

(** ** Facts about the string methods *)

Lemma str_eqb_spec (s t : list N) : reflect (s = t) (eqb s t).
Proof. unfold eqb. apply bool_decide_reflect. Qed.

Lemma str_eqb_refl (s : list N) : eqb s s = true.
Proof. destruct (str_eqb_spec s s); congruence. Qed.

Lemma str_eqb_eq (s t : list N) : eqb s t = true <-> s = t.
Proof. destruct (str_eqb_spec s t); split; congruence. Qed.

Lemma truthy_spec (s : list N) : truthy s = true <-> s <> [].
Proof.
  unfold truthy. destruct (str_eqb_spec s []) as [->|H]; cbn [negb];
    split; congruence.
Qed.

Lemma isdigit_only_digits (U : unicode) (s : list N) :
  isdigit U s = true <-> s <> [] /\ Spec.only_digits U s.
Proof.
  unfold Spec.only_digits, isdigit. destruct s as [|c s].
  - split; [discriminate | intros [H _]; congruence].
  - rewrite forallb_forall, List.Forall_forall. split.
    + intros H. split; [discriminate | exact H].
    + intros [_ H]. exact H.
Qed.

(** ** ean13_generator.py: validation *)

Lemma validate_ean13_code_cases (U : unicode) (code : list N) :
  (isdigit U code = true /\ length code = 12%nat
   /\ ean13_generator.validate_ean13_code U code = Return code)
  \/ ((isdigit U code = false \/ length code <> 12%nat)
      /\ raises_ValueError (ean13_generator.validate_ean13_code U code)).
Proof.
  unfold ean13_generator.validate_ean13_code, raises_ValueError, len.
  destruct (isdigit U code) eqn:D; cbn [negb].
  - destruct (Nat.eqb_spec (length code) 12) as [L|L]; cbn [negb].
    + left. auto.
    + right. split; [right; exact L | eexists; reflexivity].
  - right. split; [left; reflexivity | eexists; reflexivity].
Qed.

Lemma only_digits_ascii (U : unicode) (s : list N) :
  is_ascii s ->
  Spec.only_digits U s <-> Forall (fun c => 48 <= c <= 57) s.
Proof.
  unfold Spec.only_digits, is_ascii. intros A.
  rewrite !List.Forall_forall in *. split; intros H c Hc.
  - specialize (H c Hc). rewrite (isdigit_ascii U c (A c Hc)) in H.
    apply andb_true_iff in H as [H1 H2].
    apply N.leb_le in H1. apply N.leb_le in H2. lia.
  - rewrite (isdigit_ascii U c (A c Hc)). specialize (H c Hc).
    apply andb_true_iff. split; apply N.leb_le; lia.
Qed.

(** C1. [validate_ean13_code] raises [ValueError] exactly when the code is
    not composed solely of digits or its length is not 12; it raises
    nothing else, and when it does not raise it returns its argument.  The
    digits are the characters [str.isdigit] accepts: in an ASCII code the
    characters 0 to 9, beyond ASCII whatever the Unicode database says. *)
Theorem validate_ean13_code_spec (U : unicode) (code : list N) :
  (raises_ValueError (ean13_generator.validate_ean13_code U code)
   <-> ~ Spec.only_digits U code \/ length code <> 12%nat)
  /\ (raises (ean13_generator.validate_ean13_code U code)
      <-> raises_ValueError (ean13_generator.validate_ean13_code U code))
  /\ (~ raises (ean13_generator.validate_ean13_code U code)
      <-> ean13_generator.validate_ean13_code U code = Return code)
  /\ (is_ascii code ->
      (Spec.only_digits U code <-> Forall (fun c => 48 <= c <= 57) code)).
Proof.
  pose proof (only_digits_ascii U code) as A.
  pose proof (isdigit_only_digits U code) as DI.
  assert (R : forall m : list N,
             raises_ValueError (@Raise (list N) (ValueError m))
             /\ raises (@Raise (list N) (ValueError m))).
  { intros m. split; eexists; reflexivity. }
  assert (NR : ~ raises_ValueError (Return code) /\ ~ raises (Return code)).
  { split; intros [? ?]; discriminate. }
  destruct (validate_ean13_code_cases U code) as [(D & L & E)|(C & m & E)];
    rewrite E.
  - destruct (proj1 DI D) as [_ D'].
    destruct NR as [NR1 NR2]. intuition.
  - destruct (R m) as [R1 R2].
    assert (N : ~ Spec.only_digits U code \/ length code <> 12%nat).
    { destruct C as [D|L]; [|right; exact L].
      destruct (decide (code = [])) as [->|Hne]; [right; discriminate|].
      left. intros H. rewrite (proj2 DI) in D; [discriminate | auto]. }
    intuition discriminate.
Qed.

(** A code whose last character is the superscript two has twelve digits
    for [str.isdigit], and is accepted. *)
Example validate_ean13_code_superscript :
  ean13_generator.validate_ean13_code Sample.tables (u "12345678901" ++ [178])
  = Return (u "12345678901" ++ [178]).
Proof. vm_compute. reflexivity. Qed.

(** ** barcode_generator.py: the supported types *)

Lemma BARCODE_TYPES_keys :
  (barcode_generator.BARCODE_TYPES_items).*1 = Spec.barcode_type_names.
Proof. reflexivity. Qed.

Lemma BARCODE_TYPES_lookup_None (k : list N) :
  barcode_generator.BARCODE_TYPES !! k = None <-> k ∉ Spec.barcode_type_names.
Proof.
  unfold barcode_generator.BARCODE_TYPES.
  rewrite <- BARCODE_TYPES_keys. symmetry. apply not_elem_of_list_to_map.
Qed.

(** C3. [validate_barcode_type] returns its argument exactly for the twelve
    keys of [BARCODE_TYPES] and raises [ValueError] for every other string. *)
Theorem validate_barcode_type_spec (barcode_type : list N) :
  (barcode_generator.validate_barcode_type barcode_type = Return barcode_type
   <-> barcode_type ∈ Spec.barcode_type_names)
  /\ (raises_ValueError (barcode_generator.validate_barcode_type barcode_type)
      <-> barcode_type ∉ Spec.barcode_type_names)
  /\ dom barcode_generator.BARCODE_TYPES = list_to_set Spec.barcode_type_names
  /\ length Spec.barcode_type_names = 12%nat.
Proof.
  pose proof (BARCODE_TYPES_lookup_None barcode_type) as HN.
  unfold barcode_generator.validate_barcode_type, raises_ValueError.
  split; [|split; [|split]].
  - destruct (barcode_generator.BARCODE_TYPES !! barcode_type) as [d|].
    + split; [intros _|reflexivity].
      destruct (decide (barcode_type ∈ Spec.barcode_type_names)) as [Hin|Hout];
        [exact Hin|]. apply HN in Hout. discriminate.
    + split; [discriminate|]. intros Hin. exfalso. apply (proj1 HN); auto.
  - destruct (barcode_generator.BARCODE_TYPES !! barcode_type) as [d|].
    + split; [intros [m H]; discriminate|]. intros Hout. apply HN in Hout. discriminate.
    + split; [intros _; apply HN; reflexivity | intros _; eexists; reflexivity].
  - unfold barcode_generator.BARCODE_TYPES. rewrite dom_list_to_map_L.
    rewrite BARCODE_TYPES_keys. reflexivity.
  - reflexivity.
Qed.

(** ** qr_generator.py: colors *)

Lemma startswith_hash (s : list N) :
  startswith s (u "#") = true <-> Spec.starts_with_hash s.
Proof.
  unfold Spec.starts_with_hash. change (u "#") with [35].
  destruct s as [|c s]; cbn [startswith].
  - split; [discriminate | intros [r H]; discriminate].
  - destruct (N.eqb_spec 35 c) as [<-|Hne]; cbn [andb].
    + split; [eauto | reflexivity].
    + split; [discriminate | intros [r H]; injection H as H _; congruence].
Qed.

Lemma color_ok_spec (U : unicode) (color : list N) :
  qr_generator.color_ok U color = true <-> Spec.acceptable_color U color.
Proof.
  unfold qr_generator.color_ok, Spec.acceptable_color, qr_generator.valid_colors.
  rewrite orb_true_iff, startswith_hash, bool_decide_eq_true, elem_of_list_to_set.
  reflexivity.
Qed.

Lemma validate_colors_cases (U : unicode) (fill_color back_color : list N) :
  (qr_generator.color_ok U fill_color = true
   /\ qr_generator.color_ok U back_color = true
   /\ qr_generator.validate_colors U fill_color back_color = Return tt)
  \/ ((qr_generator.color_ok U fill_color = false
       \/ qr_generator.color_ok U back_color = false)
      /\ raises_ValueError (qr_generator.validate_colors U fill_color back_color)).
Proof.
  unfold qr_generator.validate_colors, raises_ValueError.
  destruct (qr_generator.color_ok U fill_color); cbn [mbind result_bind bind].
  - destruct (qr_generator.color_ok U back_color).
    + left. auto.
    + right. split; [right; reflexivity | eexists; reflexivity].
  - right. split; [left; reflexivity | eexists; reflexivity].
Qed.

Lemma acceptable_color_ascii (U : unicode) (s : list N) :
  is_ascii s ->
  Spec.acceptable_color U s
  <-> Spec.starts_with_hash s \/ List.map ascii_lower s ∈ Spec.color_names.
Proof.
  intros A. unfold Spec.acceptable_color. rewrite (lower_ascii U s A).
  reflexivity.
Qed.

(** C7. [validate_colors] raises [ValueError] exactly when one of the two
    colors neither starts with ['#'] nor is, in lower case, one of the
    thirteen color names; otherwise it returns normally.  The lower case
    is that of [str.lower]: on an ASCII color the letters A to Z become
    a to z, beyond ASCII it is what the Unicode database says. *)
Theorem validate_colors_spec (U : unicode) (fill_color back_color : list N) :
  (raises_ValueError (qr_generator.validate_colors U fill_color back_color)
   <-> ~ Spec.acceptable_color U fill_color \/ ~ Spec.acceptable_color U back_color)
  /\ (raises (qr_generator.validate_colors U fill_color back_color)
      <-> raises_ValueError (qr_generator.validate_colors U fill_color back_color))
  /\ (Spec.acceptable_color U fill_color /\ Spec.acceptable_color U back_color
      <-> qr_generator.validate_colors U fill_color back_color = Return tt)
  /\ length Spec.color_names = 13%nat
  /\ (forall color,
        is_ascii color ->
        (Spec.acceptable_color U color
         <-> Spec.starts_with_hash color
             \/ List.map ascii_lower color ∈ Spec.color_names)).
Proof.
  pose proof (acceptable_color_ascii U) as A.
  pose proof (color_ok_spec U fill_color) as F.
  pose proof (color_ok_spec U back_color) as B.
  assert (R : forall m : list N,
             raises_ValueError (@Raise unit (ValueError m))
             /\ raises (@Raise unit (ValueError m))).
  { intros m. split; eexists; reflexivity. }
  assert (NR : ~ raises_ValueError (Return tt) /\ ~ raises (Return tt)).
  { split; intros [? ?]; discriminate. }
  destruct (validate_colors_cases U fill_color back_color)
    as [(Hf & Hb & E)|(C & m & E)]; rewrite E.
  - destruct NR as [NR1 NR2]. intuition.
  - destruct (R m) as [R1 R2].
    assert (N : ~ Spec.acceptable_color U fill_color
                \/ ~ Spec.acceptable_color U back_color).
    { destruct C as [C|C]; [left|right]; intros H;
        [apply F in H | apply B in H]; congruence. }
    intuition discriminate.
Qed.

(** With the Kelvin sign for the last letter, the color is black. *)
Example validate_colors_kelvin :
  qr_generator.validate_colors Sample.tables (u "blac" ++ [8490]) (u "white")
  = Return tt.
Proof. vm_compute. reflexivity. Qed.

(** C10. Two colors that both start with ['#'] are accepted whatever
    follows the ['#']: [validate_colors] returns without raising. *)
Theorem validate_colors_hash_prefix (U : unicode) (fill_color back_color : list N) :
  Spec.starts_with_hash fill_color ->
  Spec.starts_with_hash back_color ->
  qr_generator.validate_colors U fill_color back_color = Return tt
  /\ ~ raises (qr_generator.validate_colors U fill_color back_color).
Proof.
  intros [f ->] [b ->]. split; [reflexivity|].
  intros [e H]. discriminate.
Qed.

Lemma validate_colors_hash_prefix_witness :
  qr_generator.validate_colors Sample.tables (u "#zzz") (u "#") = Return tt
  /\ ~ raises (qr_generator.validate_colors Sample.tables (u "#zzz") (u "#")).
Proof.
  apply (validate_colors_hash_prefix Sample.tables (u "#zzz") (u "#")).
  - exists (u "zzz"). reflexivity.
  - exists []. reflexivity.
Defined.

(** ** Facts about [split], [strip] and the first separator *)

Lemma split_nonempty (c : N) (s : list N) : split c s <> [].
Proof.
  induction s as [|a s IH]; cbn [split]; [discriminate|].
  destruct (N.eqb a c); [discriminate|].
  destruct (split c s); [contradiction | discriminate].
Qed.

Lemma join_cons_char (sep : list N) (a : N) (h : list N) (t : list (list N)) :
  join sep ((a :: h) :: t) = a :: join sep (h :: t).
Proof. destruct t; reflexivity. Qed.

Lemma join_cons_cons (sep y z : list N) (r : list (list N)) :
  join sep (y :: z :: r) = y ++ sep ++ join sep (z :: r).
Proof. reflexivity. Qed.

Lemma join_split (c : N) (s : list N) :
  join [c] (split c s) = s.
Proof.
  induction s as [|a s IH]; [reflexivity|].
  pose proof (split_nonempty c s) as N. cbn [split].
  destruct (split c s) as [|h t]; [contradiction|].
  destruct (N.eqb_spec a c) as [->|Hne].
  - rewrite join_cons_cons, IH. reflexivity.
  - rewrite join_cons_char, IH. reflexivity.
Qed.

Lemma split_pieces (c : N) (s : list N) :
  Forall (fun piece => contains c piece = false) (split c s).
Proof.
  induction s as [|a s IH]; cbn [split].
  - repeat constructor.
  - destruct (N.eqb_spec a c) as [->|Hne].
    + constructor; [reflexivity | exact IH].
    + destruct (split c s) as [|h t]; [repeat constructor; cbn [contains]|].
      * destruct (N.eqb_spec a c); [contradiction | reflexivity].
      * inversion IH; subst. constructor; [|assumption]. cbn [contains].
        destruct (N.eqb_spec a c); [contradiction | assumption].
Qed.

Lemma split1_contains (c : N) (s : list N) :
  contains c s = true -> split1 c s = [Spec.before c s; Spec.after c s].
Proof.
  induction s as [|a s IH]; cbn [contains split1 Spec.before Spec.after];
    [discriminate|].
  destruct (N.eqb a c); cbn [orb]; [reflexivity|].
  intros H. rewrite (IH H). reflexivity.
Qed.

Section Strip.
Variable p : N -> bool.
Variable c : N.
Hypothesis p_c : p c = false.

Lemma contains_lstrip_by (s : list N) :
  contains c (lstrip_by p s) = contains c s.
Proof.
  induction s as [|a s IH]; cbn [lstrip_by contains]; [reflexivity|].
  destruct (p a) eqn:Pa; [|reflexivity].
  rewrite IH. destruct (N.eqb_spec a c) as [->|_]; [congruence | reflexivity].
Qed.

Lemma rstrip_by_cons (a : N) (s : list N) :
  rstrip_by p (a :: s) =
  if eqb (rstrip_by p s) [] then (if p a then [] else [a])
  else a :: rstrip_by p s.
Proof. cbn [rstrip_by]. destruct (rstrip_by p s); reflexivity. Qed.

Lemma contains_rstrip_by (s : list N) :
  contains c (rstrip_by p s) = contains c s.
Proof.
  induction s as [|a s IH]; [reflexivity|].
  rewrite rstrip_by_cons. cbn [contains]. rewrite <- IH.
  destruct (rstrip_by p s) as [|b r].
  - change (eqb [] []) with true. cbv iota. destruct (p a) eqn:Pa; cbn [contains].
    + destruct (N.eqb_spec a c) as [->|_]; [congruence | reflexivity].
    + reflexivity.
  - change (eqb (b :: r) []) with false. reflexivity.
Qed.

Lemma contains_nonempty (s : list N) : contains c s = true -> s <> [].
Proof. destruct s; [discriminate | discriminate]. Qed.

Lemma before_lstrip_by (s : list N) :
  contains c s = true ->
  Spec.before c (lstrip_by p s) = lstrip_by p (Spec.before c s).
Proof.
  induction s as [|a s IH]; cbn [contains lstrip_by Spec.before]; [reflexivity|].
  destruct (N.eqb_spec a c) as [->|Hne]; cbn [orb lstrip_by].
  - intros _. rewrite p_c. cbn [Spec.before]. rewrite N.eqb_refl. reflexivity.
  - intros H. destruct (p a); [exact (IH H)|].
    cbn [Spec.before]. destruct (N.eqb_spec a c); [contradiction | reflexivity].
Qed.

Lemma after_lstrip_by (s : list N) :
  contains c s = true ->
  Spec.after c (lstrip_by p s) = Spec.after c s.
Proof.
  induction s as [|a s IH]; cbn [contains lstrip_by Spec.after]; [reflexivity|].
  destruct (N.eqb_spec a c) as [->|Hne]; cbn [orb].
  - intros _. rewrite p_c. cbn [Spec.after]. rewrite N.eqb_refl. reflexivity.
  - intros H. destruct (p a); [exact (IH H)|].
    cbn [Spec.after]. destruct (N.eqb_spec a c); [contradiction | reflexivity].
Qed.

Lemma before_rstrip_by (s : list N) :
  contains c s = true ->
  Spec.before c (rstrip_by p s) = Spec.before c s.
Proof.
  induction s as [|a s IH]; [reflexivity|].
  rewrite rstrip_by_cons. cbn [contains Spec.before].
  destruct (N.eqb_spec a c) as [->|Hne]; cbn [orb].
  - intros _. rewrite p_c.
    destruct (eqb (rstrip_by p s) []); cbn [Spec.before]; rewrite N.eqb_refl;
      reflexivity.
  - intros H. pose proof (contains_rstrip_by s) as C. rewrite H in C.
    apply contains_nonempty in C.
    destruct (str_eqb_spec (rstrip_by p s) []) as [E|_]; [contradiction|].
    cbn [Spec.before]. destruct (N.eqb_spec a c); [contradiction|].
    rewrite (IH H). reflexivity.
Qed.

Lemma after_rstrip_by (s : list N) :
  contains c s = true ->
  Spec.after c (rstrip_by p s) = rstrip_by p (Spec.after c s).
Proof.
  induction s as [|a s IH]; [reflexivity|].
  rewrite rstrip_by_cons. cbn [contains Spec.after].
  destruct (N.eqb_spec a c) as [->|Hne]; cbn [orb].
  - intros _. rewrite p_c.
    destruct (str_eqb_spec (rstrip_by p s) []) as [E|_]; cbn [Spec.after];
      rewrite N.eqb_refl; [rewrite E|]; reflexivity.
  - intros H. pose proof (contains_rstrip_by s) as C. rewrite H in C.
    apply contains_nonempty in C.
    destruct (str_eqb_spec (rstrip_by p s) []) as [E|_]; [contradiction|].
    cbn [Spec.after]. destruct (N.eqb_spec a c); [contradiction|]. exact (IH H).
Qed.

End Strip.

Lemma lstrip_by_idem (p : N -> bool) (s : list N) :
  lstrip_by p (lstrip_by p s) = lstrip_by p s.
Proof.
  induction s as [|a s IH]; cbn [lstrip_by]; [reflexivity|].
  destruct (p a) eqn:Pa; [exact IH|]. cbn [lstrip_by]. rewrite Pa. reflexivity.
Qed.

Lemma rstrip_by_idem (p : N -> bool) (s : list N) :
  rstrip_by p (rstrip_by p s) = rstrip_by p s.
Proof.
  induction s as [|a s IH]; [reflexivity|].
  rewrite rstrip_by_cons.
  destruct (str_eqb_spec (rstrip_by p s) []) as [E|N].
  - destruct (p a) eqn:Pa; [reflexivity|]. cbn [rstrip_by]. rewrite Pa. reflexivity.
  - rewrite rstrip_by_cons, IH.
    destruct (str_eqb_spec (rstrip_by p s) []); [contradiction | reflexivity].
Qed.

Lemma lstrip_rstrip_by (p : N -> bool) (s : list N) :
  lstrip_by p (rstrip_by p s) = rstrip_by p (lstrip_by p s).
Proof.
  induction s as [|a s IH]; [reflexivity|].
  rewrite rstrip_by_cons. cbn [lstrip_by].
  destruct (p a) eqn:Pa.
  - rewrite <- IH.
    destruct (str_eqb_spec (rstrip_by p s) []) as [E|N].
    + rewrite E. reflexivity.
    + cbn [lstrip_by]. rewrite Pa. reflexivity.
  - rewrite rstrip_by_cons.
    destruct (eqb (rstrip_by p s) []); cbn [lstrip_by]; rewrite Pa; reflexivity.
Qed.

Lemma strip_lstrip (U : unicode) (s : list N) :
  strip U (lstrip_by (isspace_char U) s) = strip U s.
Proof. unfold strip. rewrite lstrip_by_idem. reflexivity. Qed.

Lemma strip_rstrip (U : unicode) (s : list N) :
  strip U (rstrip_by (isspace_char U) s) = strip U s.
Proof. unfold strip. rewrite lstrip_rstrip_by, rstrip_by_idem. reflexivity. Qed.

(** The equals sign and the comma are no white space. *)
Lemma isspace_equals (U : unicode) : isspace_char U 61 = false.
Proof. rewrite isspace_ascii by lia. reflexivity. Qed.

Lemma isspace_comma (U : unicode) : isspace_char U 44 = false.
Proof. rewrite isspace_ascii by lia. reflexivity. Qed.

Lemma contains_strip (U : unicode) (c : N) (s : list N) :
  isspace_char U c = false -> contains c (strip U s) = contains c s.
Proof.
  intros H. unfold strip.
  rewrite (contains_rstrip_by _ _ H), (contains_lstrip_by _ _ H). reflexivity.
Qed.

Lemma before_strip (U : unicode) (c : N) (s : list N) :
  isspace_char U c = false -> contains c s = true ->
  strip U (Spec.before c (strip U s)) = strip U (Spec.before c s).
Proof.
  intros H C. unfold strip at 2.
  rewrite (before_rstrip_by _ _ H) by (rewrite (contains_lstrip_by _ _ H); exact C).
  rewrite (before_lstrip_by _ _ H) by exact C.
  apply strip_lstrip.
Qed.

Lemma after_strip (U : unicode) (c : N) (s : list N) :
  isspace_char U c = false -> contains c s = true ->
  strip U (Spec.after c (strip U s)) = strip U (Spec.after c s).
Proof.
  intros H C. unfold strip at 2.
  rewrite (after_rstrip_by _ _ H) by (rewrite (contains_lstrip_by _ _ H); exact C).
  rewrite (after_lstrip_by _ _ H) by exact C.
  apply strip_rstrip.
Qed.

(** ** barcode_generator.py: the options string *)

Lemma parse_pair_entry (U : unicode)
    (options : gmap (list N) barcode_generator.option_value) (piece : list N) :
  barcode_generator.parse_pair U options piece =
  Return (<[(Spec.option_entry U piece).1 := (Spec.option_entry U piece).2]> options).
Proof.
  unfold barcode_generator.parse_pair, Spec.option_entry.
  destruct (contains 61 piece) eqn:C; [|reflexivity].
  rewrite split1_contains
    by (rewrite contains_strip; [exact C | apply isspace_equals]).
  cbn [fst snd].
  rewrite before_strip, after_strip by (apply isspace_equals || exact C).
  reflexivity.
Qed.

Lemma parse_pairs_entries (U : unicode) (pieces : list (list N))
    (options : gmap (list N) barcode_generator.option_value) :
  barcode_generator.parse_pairs U options pieces =
  Return (foldl (fun d piece =>
                   <[(Spec.option_entry U piece).1 := (Spec.option_entry U piece).2]> d)
            options pieces).
Proof.
  revert options. induction pieces as [|piece rest IH]; intros options.
  - reflexivity.
  - cbn [barcode_generator.parse_pairs foldl]. rewrite parse_pair_entry.
    exact (IH _).
Qed.

Lemma parse_options_returns (U : unicode) (options_str : option (list N)) :
  barcode_generator.parse_options U options_str =
  Return match options_str with
         | None => ∅
         | Some s => if eqb s [] then ∅
                     else Spec.options_of_pieces U (split 44 s)
         end.
Proof.
  unfold barcode_generator.parse_options, truthy.
  destruct options_str as [s|]; [|reflexivity].
  destruct (eqb s []); [reflexivity|].
  cbn [negb]. rewrite parse_pairs_entries. reflexivity.
Qed.

Lemma lstrip_by_ext (p q : N -> bool) (s : list N) :
  Forall (fun c => p c = q c) s -> lstrip_by p s = lstrip_by q s.
Proof.
  induction 1 as [|c s Hc Hs IH]; cbn [lstrip_by]; [reflexivity|].
  rewrite Hc, IH. reflexivity.
Qed.

Lemma rstrip_by_ext (p q : N -> bool) (s : list N) :
  Forall (fun c => p c = q c) s -> rstrip_by p s = rstrip_by q s.
Proof.
  induction 1 as [|c s Hc Hs IH]; cbn [rstrip_by]; [reflexivity|].
  rewrite Hc, IH. reflexivity.
Qed.

Lemma lstrip_by_Forall (P : N -> Prop) (p : N -> bool) (s : list N) :
  Forall P s -> Forall P (lstrip_by p s).
Proof.
  induction 1 as [|c s Hc Hs IH]; cbn [lstrip_by]; [constructor|].
  destruct (p c); [exact IH | constructor; assumption].
Qed.

(** On ASCII text [str.strip] removes the ASCII white space. *)
Lemma strip_ascii (U : unicode) (s : list N) :
  is_ascii s ->
  strip U s = rstrip_by ascii_isspace (lstrip_by ascii_isspace s).
Proof.
  intros A. unfold strip.
  assert (E : forall t, is_ascii t ->
                        Forall (fun c => isspace_char U c = ascii_isspace c) t).
  { intros t T. unfold is_ascii in T. rewrite List.Forall_forall in *.
    intros c Hc. apply (isspace_ascii U), T, Hc. }
  rewrite (lstrip_by_ext _ _ s (E s A)).
  apply rstrip_by_ext, E, lstrip_by_Forall, A.
Qed.

(** C8. [parse_options] never raises.  For [None] and for the empty
    string it returns the empty dictionary; for every other string it
    returns the dictionary built, from left to right, from the pieces
    between the commas: a piece with ['='] gives the pair of the stripped
    texts before and after its first ['='], a piece without ['='] gives the
    stripped piece with [True].  The white space stripped is that of
    [str.strip]: on ASCII text the characters 9 to 13 and 28 to 32,
    beyond ASCII what the Unicode database says. *)
Theorem parse_options_spec (U : unicode) (options_str : option (list N)) :
  ~ raises (barcode_generator.parse_options U options_str)
  /\ barcode_generator.parse_options U None = Return ∅
  /\ barcode_generator.parse_options U (Some []) = Return ∅
  /\ (forall s, options_str = Some s -> s <> [] ->
      exists pieces,
        join (u ",") pieces = s
        /\ Forall (fun piece => contains 44 piece = false) pieces
        /\ barcode_generator.parse_options U options_str =
           Return (Spec.options_of_pieces U pieces))
  /\ (forall s,
        is_ascii s ->
        strip U s = rstrip_by ascii_isspace (lstrip_by ascii_isspace s)).
Proof.
  split; [|split; [|split; [|split; [|apply strip_ascii]]]].
  - rewrite parse_options_returns. intros [e H]. discriminate.
  - reflexivity.
  - reflexivity.
  - intros s -> Hs. exists (split 44 s).
    split; [apply (join_split 44)|]. split; [apply split_pieces|].
    rewrite parse_options_returns.
    destruct (str_eqb_spec s []); [contradiction | reflexivity].
Qed.

(** A no-break space after the value is stripped with the rest. *)
Example parse_options_no_break_space :
  barcode_generator.parse_options Sample.tables (Some (u "a=1" ++ [160]))
  = Return (<[u "a" := barcode_generator.OStr (u "1")]> ∅).
Proof. vm_compute. reflexivity. Qed.

(** ** Error routing in the entry points *)





(** Runs of the three entry points on concrete command lines. *)
Example ean13_main_short_code :
  ean13_generator.main Sample.tables Sample.ean13_library
    {| ean13_generator.code := u "12345"; ean13_generator.output := u "barcode";
       ean13_generator.format := u "svg" |}
  = {| argparse.stdout := [];
       argparse.stderr :=
         [u "Error: Invalid EAN-13 code: EAN-13 code must be exactly 12 digits"];
       argparse.exit_status := 1 |}.
Proof. vm_compute. reflexivity. Qed.

Example ean13_main_success :
  ean13_generator.main Sample.tables Sample.ean13_library
    {| ean13_generator.code := u "123456789012"; ean13_generator.output := u "my.txt";
       ean13_generator.format := u "png" |}
  = {| argparse.stdout := [u "Barcode generated successfully: my.png"];
       argparse.stderr := [];
       argparse.exit_status := 0 |}.
Proof. vm_compute. reflexivity. Qed.

Example qr_main_bad_color :
  qr_generator.main Sample.tables Sample.qr_library
    {| qr_generator.data := u "Hello World"; qr_generator.output := u "qr_code";
       qr_generator.format := u "png"; qr_generator.error_correction_arg := u "M";
       qr_generator.box_size := 10; qr_generator.border := 4;
       qr_generator.fill_color := u "blu"; qr_generator.back_color := u "white" |}
  = {| argparse.stdout := [];
       argparse.stderr := [u "Error: Invalid fill color: blu"];
       argparse.exit_status := 1 |}.
Proof. vm_compute. reflexivity. Qed.

Example barcode_main_library_failure :
  barcode_generator.main Sample.tables Sample.failing_barcode_library
    (u "usage") (u "barcode_generator.py")
    {| barcode_generator.data := Some (u "ABC123");
       barcode_generator.type := Some (u "code128");
       barcode_generator.output := u "barcode";
       barcode_generator.options := Some (u "columns=3,rows=10");
       barcode_generator.list_types := false |}
  = {| argparse.stdout := [];
       argparse.stderr :=
         [u "Error: Failed to generate barcode: ghostscript not found"];
       argparse.exit_status := 1 |}.
Proof. vm_compute. reflexivity. Qed.

Example barcode_main_success :
  barcode_generator.main Sample.tables Sample.barcode_library
    (u "usage") (u "barcode_generator.py")
    {| barcode_generator.data := Some (u "ABC123");
       barcode_generator.type := Some (u "code128");
       barcode_generator.output := u "barcode";
       barcode_generator.options := None;
       barcode_generator.list_types := false |}
  = {| argparse.stdout := [u "Barcode generated successfully: barcode.png"];
       argparse.stderr := [];
       argparse.exit_status := 0 |}.
Proof. vm_compute. reflexivity. Qed.

(** ** Facts about suffixes and slices *)

Lemma append_nonempty_r (a b : list N) : b <> [] -> a ++ b <> [].
Proof. destruct a; cbn [app]; [auto | discriminate]. Qed.

Lemma endswith_iff (s e : list N) :
  endswith s e = true <-> exists pre, s = pre ++ e.
Proof.
  induction s as [|a s IH]; cbn [endswith].
  - rewrite orb_false_r, str_eqb_eq. split.
    + intros <-. exists []. reflexivity.
    + intros [pre H]. destruct pre; cbn [app] in H; [auto | discriminate].
  - rewrite orb_true_iff, str_eqb_eq, IH. split.
    + intros [<-|[pre ->]]; [exists []; reflexivity | exists (a :: pre); reflexivity].
    + intros [pre H]. destruct pre as [|b pre]; cbn [app] in H; [left; auto|].
      right. exists pre. congruence.
Qed.

Lemma endswith_append (s e : list N) : endswith (s ++ e) e = true.
Proof. apply endswith_iff. exists s. reflexivity. Qed.

Lemma endswith_append_l (pre s e : list N) :
  endswith s e = true -> endswith (pre ++ s) e = true.
Proof.
  rewrite !endswith_iff. intros [q ->]. exists (pre ++ q).
  apply app_assoc.
Qed.

Lemma endswith_length (s e : list N) :
  endswith s e = true -> (length e <= length s)%nat.
Proof. rewrite endswith_iff. intros [q ->]. rewrite length_app. lia. Qed.

Lemma endswith_trans (a b c : list N) :
  endswith a b = true -> endswith b c = true -> endswith a c = true.
Proof.
  rewrite !endswith_iff. intros [p ->] [q ->]. exists (p ++ q).
  apply app_assoc.
Qed.

Lemma slice_to_from (i : nat) (s : list N) : slice_to i s ++ slice_from i s = s.
Proof.
  revert s. induction i as [|i IH]; intros s; [reflexivity|].
  destruct s as [|a s]; cbn [slice_to slice_from app];
    [reflexivity | rewrite IH; reflexivity].
Qed.

Lemma length_slice_from (i : nat) (s : list N) :
  length (slice_from i s) = (length s - i)%nat.
Proof.
  revert s. induction i as [|i IH]; intros s; cbn [slice_from]; [lia|].
  destruct s as [|a s]; cbn [length]; [reflexivity | apply IH].
Qed.

Lemma slice_to_nonempty (i : nat) (s : list N) :
  (0 < i)%nat -> s <> [] -> slice_to i s <> [].
Proof. destruct i; [lia|]. destruct s; [congruence | discriminate]. Qed.

Lemma slice_from_append (a b : list N) : slice_from (length a) (a ++ b) = b.
Proof.
  induction a as [|x a IH]; cbn [length slice_from app];
    [destruct b; reflexivity | exact IH].
Qed.

Lemma rfind_range (c : N) (s : list N) :
  (-1 <= rfind c s < Z.of_nat (length s))%Z.
Proof.
  induction s as [|a s IH]; cbn [rfind length]; [lia|].
  destruct (Z.leb_spec 0 (rfind c s)); [lia|].
  destruct (N.eqb a c); lia.
Qed.

Lemma rfind_absent (c : N) (s : list N) :
  contains c s = false -> rfind c s = (-1)%Z.
Proof.
  induction s as [|a s IH]; cbn [rfind contains]; [reflexivity|].
  rewrite orb_false_iff. intros [Ha Hs]. rewrite (IH Hs), Ha. reflexivity.
Qed.

Lemma rfind_append_last (c : N) (a t : list N) :
  contains c t = false ->
  rfind c (a ++ c :: t) = Z.of_nat (length a).
Proof.
  intros H. induction a as [|x a IH]; cbn [app rfind length].
  - rewrite (rfind_absent _ _ H), N.eqb_refl. reflexivity.
  - rewrite IH. destruct (Z.leb_spec 0 (Z.of_nat (length a))); lia.
Qed.

Lemma contains_append (c : N) (a b : list N) :
  contains c (a ++ b) = contains c a || contains c b.
Proof.
  induction a as [|x a IH]; cbn [app contains];
    [reflexivity | rewrite IH, orb_assoc; reflexivity].
Qed.

(** ** Facts about paths *)

Lemma join_snoc (sep : list N) (l : list (list N)) :
  exists pre, forall x, join sep (l ++ [x]) = pre ++ x.
Proof.
  induction l as [|y l [pre IH]].
  - exists []. reflexivity.
  - exists (y ++ sep ++ pre). intros x.
    change ((y :: l) ++ [x]) with (y :: (l ++ [x])).
    destruct (l ++ [x]) as [|z r] eqn:E; [destruct l; discriminate|].
    rewrite join_cons_cons, <- E, IH, <- !app_assoc. reflexivity.
Qed.

Lemma parts_snoc (p : pathlib.Path) :
  pathlib.name p <> [] ->
  pathlib.parts p = removelast (pathlib.parts p) ++ [pathlib.name p].
Proof.
  unfold pathlib.name. intros H. apply app_removelast_last.
  intros E. rewrite E in H. apply H. reflexivity.
Qed.

(** A path with a name prints as some prefix followed by the name. *)
Lemma str_name (p : pathlib.Path) :
  pathlib.name p <> [] ->
  exists pre,
    pathlib.str p = pre ++ pathlib.name p
    /\ forall x, x <> [] ->
         pathlib.str {| pathlib.root := pathlib.root p;
                        pathlib.parts := removelast (pathlib.parts p) ++ [x] |}
         = pre ++ x.
Proof.
  intros H. destruct (join_snoc (u "/") (removelast (pathlib.parts p))) as [pre J].
  exists (pathlib.root p ++ pre).
  assert (S : forall x, x <> [] ->
            pathlib.str {| pathlib.root := pathlib.root p;
                           pathlib.parts := removelast (pathlib.parts p) ++ [x] |}
            = (pathlib.root p ++ pre) ++ x).
  { intros x Hx. unfold pathlib.str. cbn [pathlib.root pathlib.parts].
    rewrite J, app_assoc. unfold truthy.
    destruct (str_eqb_spec ((pathlib.root p ++ pre) ++ x) []) as [E|_];
      [|reflexivity].
    exfalso. exact (append_nonempty_r _ _ Hx E). }
  split; [|exact S].
  rewrite <- (S _ H). rewrite <- parts_snoc by exact H. destruct p; reflexivity.
Qed.

Lemma name_replace (p : pathlib.Path) (x : list N) :
  pathlib.name {| pathlib.root := pathlib.root p;
                  pathlib.parts := removelast (pathlib.parts p) ++ [x] |} = x.
Proof. unfold pathlib.name. cbn [pathlib.parts]. apply last_last. Qed.

Lemma suffix_no_name (p : pathlib.Path) :
  pathlib.name p = [] -> pathlib.suffix p = [].
Proof. unfold pathlib.suffix. intros ->. reflexivity. Qed.

Lemma suffix_of_name (p : pathlib.Path) :
  pathlib.suffix p <> [] ->
  pathlib.name p =
    slice_to (length (pathlib.name p) - length (pathlib.suffix p))
      (pathlib.name p) ++ pathlib.suffix p
  /\ slice_to (length (pathlib.name p) - length (pathlib.suffix p))
       (pathlib.name p) <> [].
Proof.
  unfold pathlib.suffix, len.
  pose proof (rfind_range 46 (pathlib.name p)) as R.
  destruct ((0 <? rfind 46 (pathlib.name p))%Z
            && (rfind 46 (pathlib.name p)
                <? Z.of_nat (length (pathlib.name p)) - 1)%Z) eqn:C;
    [|congruence].
  intros _. apply andb_true_iff in C as [C1 C2].
  apply Z.ltb_lt in C1. apply Z.ltb_lt in C2.
  rewrite length_slice_from.
  replace (length (pathlib.name p)
           - (length (pathlib.name p) - Z.to_nat (rfind 46 (pathlib.name p))))%nat
    with (Z.to_nat (rfind 46 (pathlib.name p))) by lia.
  split; [symmetry; apply slice_to_from|].
  apply slice_to_nonempty; [lia|].
  intros E. rewrite E in C1. cbn [rfind] in C1. lia.
Qed.

Lemma with_suffix_png (p : pathlib.Path) :
  pathlib.name p <> [] -> pathlib.suffix p = [] ->
  exists p',
    pathlib.with_suffix p (u ".png") = Return p'
    /\ pathlib.str p' = pathlib.str p ++ u ".png"
    /\ pathlib.suffix p' = u ".png".
Proof.
  intros H S. destruct (str_name p H) as (pre & E & R).
  unfold pathlib.with_suffix.
  change (contains 47 (u ".png")) with false.
  change ((truthy (u ".png") && negb (startswith (u ".png") (u ".")))
          || eqb (u ".png") (u ".")) with false.
  cbv iota. unfold truthy. rewrite S.
  destruct (str_eqb_spec (pathlib.name p) []) as [?|_]; [contradiction|].
  change (eqb [] []) with true. cbn [negb].
  eexists. split; [reflexivity|]. split.
  - rewrite R by (apply append_nonempty_r; discriminate).
    rewrite E, app_assoc. reflexivity.
  - unfold pathlib.suffix. rewrite name_replace.
    change (u ".png") with (46 :: u "png").
    rewrite (rfind_append_last 46 (pathlib.name p) (u "png")) by reflexivity.
    unfold len. rewrite length_app.
    change (length (46 :: u "png")) with 4%nat.
    assert (0 < length (pathlib.name p))%nat.
    { destruct (pathlib.name p); [congruence | cbn [length]; lia]. }
    destruct (Z.ltb_spec 0 (Z.of_nat (length (pathlib.name p)))); [|lia].
    destruct (Z.ltb_spec (Z.of_nat (length (pathlib.name p)))
                (Z.of_nat (length (pathlib.name p) + 4) - 1)); [|lia].
    cbn [andb]. rewrite Nat2Z.id. apply slice_from_append.
Qed.

Lemma with_suffix_empty (p : pathlib.Path) :
  pathlib.name p <> [] ->
  exists p',
    pathlib.with_suffix p [] = Return p'
    /\ pathlib.str p = pathlib.str p' ++ pathlib.suffix p.
Proof.
  intros H. destruct (str_name p H) as (pre & E & R).
  unfold pathlib.with_suffix.
  change (contains 47 []) with false.
  change ((truthy [] && negb (startswith [] (u "."))) || eqb [] (u ".")) with false.
  cbv iota. unfold truthy.
  destruct (str_eqb_spec (pathlib.name p) []) as [?|_]; [contradiction|].
  cbn [negb].
  eexists. split; [reflexivity|].
  destruct (str_eqb_spec (pathlib.suffix p) []) as [S|S]; cbn [negb].
  - rewrite S, !app_nil_r. rewrite R by exact H. exact E.
  - destruct (suffix_of_name p S) as [N1 N2]. unfold len.
    rewrite app_nil_r, R by exact N2.
    rewrite <- app_assoc, <- N1. exact E.
Qed.

Lemma with_suffix_no_name (p : pathlib.Path) (sfx : list N) :
  pathlib.name p = [] -> sfx = u ".png" \/ sfx = [] ->
  pathlib.with_suffix p sfx =
  Raise (ValueError (pathlib.repr p ++ u " has an empty name")).
Proof.
  intros H [->| ->]; unfold pathlib.with_suffix; rewrite H; reflexivity.
Qed.

Lemma split_absent (c : N) (s : list N) :
  contains c s = false -> split c s = [s].
Proof.
  induction s as [|a s IH]; cbn [contains split]; [reflexivity|].
  rewrite orb_false_iff. intros [Ha Hs]. rewrite Ha, (IH Hs). reflexivity.
Qed.

Lemma endswith_lstrip_slash (s e : list N) :
  contains 47 e = false -> endswith s e = true ->
  endswith (lstrip_char 47 s) e = true.
Proof.
  intros He. unfold lstrip_char.
  induction s as [|a s IH]; cbn [lstrip_by]; [auto|].
  destruct (N.eqb_spec 47 a) as [<-|Hne]; [|auto].
  cbn [endswith]. rewrite orb_true_iff, str_eqb_eq.
  intros [<-|H]; [|exact (IH H)].
  cbn [contains] in He. rewrite N.eqb_refl in He. discriminate.
Qed.

Lemma split_last_endswith (c : N) (s e : list N) :
  contains c e = false -> endswith s e = true ->
  endswith (List.last (split c s) []) e = true.
Proof.
  intros He. induction s as [|a s IH]; [auto|].
  intros H. cbn [endswith] in H. apply orb_true_iff in H as [H|H].
  - apply str_eqb_eq in H. subst e. rewrite (split_absent _ _ He).
    cbn [List.last]. apply endswith_iff. exists []. reflexivity.
  - specialize (IH H). pose proof (split_nonempty c s) as N. cbn [split].
    destruct (split c s) as [|h t]; [contradiction|].
    destruct (N.eqb a c).
    + exact IH.
    + destruct t as [|h' t]; [|exact IH].
      cbn [List.last] in *. cbn [endswith]. rewrite IH. apply orb_true_r.
Qed.

Lemma filter_last (keep : list N -> bool) (l : list (list N)) :
  l <> [] -> keep (List.last l []) = true ->
  List.last (List.filter keep l) [] = List.last l [].
Proof.
  induction l as [|x l IH]; [congruence|]. intros _ K.
  destruct l as [|y l].
  - cbn [List.last] in K. cbn [List.filter]. rewrite K. reflexivity.
  - change (List.last (x :: y :: l) []) with (List.last (y :: l) []) in *.
    specialize (IH ltac:(discriminate) K).
    assert (NE : List.filter keep (y :: l) <> []).
    { intros F.
      assert (In (List.last (y :: l) []) (List.filter keep (y :: l))) as I.
      { apply filter_In. split; [|exact K].
        rewrite (app_removelast_last [] (l := y :: l)) at 2 by discriminate.
        apply in_or_app. right. left. reflexivity. }
      rewrite F in I. exact I. }
    change (List.filter keep (x :: y :: l))
      with (if keep x then x :: List.filter keep (y :: l)
            else List.filter keep (y :: l)).
    destruct (keep x); [|exact IH].
    destruct (List.filter keep (y :: l)) as [|z f]; [contradiction|].
    exact IH.
Qed.

Lemma keep_component_long (x : list N) :
  (2 <= length x)%nat -> pathlib.keep_component x = true.
Proof.
  destruct x as [|a [|b x]]; cbn [length]; try lia.
  intros _. unfold pathlib.keep_component.
  rewrite (proj2 (truthy_spec _)) by discriminate.
  destruct (str_eqb_spec (a :: b :: x) (u ".")); [discriminate | reflexivity].
Qed.

(** A path that ends with an extension keeps it when parsed. *)
Lemma parse_endswith (output_path e : list N) :
  contains 47 e = false -> (2 <= length e)%nat ->
  endswith output_path e = true ->
  endswith (pathlib.str (pathlib.parse output_path)) e = true.
Proof.
  intros He Le H.
  assert (R : exists r rel, pathlib.splitroot output_path = (r, rel)
                            /\ endswith rel e = true).
  { unfold pathlib.splitroot. destruct (startswith output_path (u "/")).
    - destruct (Nat.eqb (len output_path - len (lstrip_char 47 output_path)) 2);
        do 2 eexists; (split; [reflexivity|]); apply endswith_lstrip_slash; assumption.
    - do 2 eexists. split; [reflexivity | exact H]. }
  destruct R as (r & rel & ER & Hrel).
  pose proof (split_last_endswith 47 rel e He Hrel) as HL.
  assert (K : pathlib.keep_component (List.last (split 47 rel) []) = true).
  { apply keep_component_long. apply endswith_length in HL. lia. }
  assert (N : pathlib.name (pathlib.parse output_path) = List.last (split 47 rel) []).
  { unfold pathlib.name, pathlib.parse. rewrite ER. cbn [pathlib.parts].
    apply filter_last; [apply split_nonempty | exact K]. }
  assert (NE : pathlib.name (pathlib.parse output_path) <> []).
  { rewrite N. intros E. rewrite E in HL. apply endswith_length in HL.
    cbn [length] in HL. lia. }
  destruct (str_name _ NE) as (pre & ES & _).
  rewrite ES. apply endswith_append_l. rewrite N. exact HL.
Qed.

(** ** qr_generator.py: the extension of the file *)

Lemma add_extension_file (output_path e : list N) :
  qr_generator.add_extension output_path e = Spec.qr_file output_path e.
Proof.
  unfold qr_generator.add_extension, Spec.qr_file. cbv zeta.
  destruct (endswith (pathlib.str (pathlib.parse output_path)) e); reflexivity.
Qed.

Lemma qr_file_cases (output_path e : list N) :
  let s := pathlib.str (pathlib.parse output_path) in
  (endswith s e = true /\ Spec.qr_file output_path e = s)
  \/ (endswith s e = false /\ Spec.qr_file output_path e = s ++ e).
Proof.
  cbv zeta. unfold Spec.qr_file.
  destruct (endswith (pathlib.str (pathlib.parse output_path)) e); [left|right]; auto.
Qed.

Lemma qr_file_endswith (output_path e : list N) :
  endswith (Spec.qr_file output_path e) e = true.
Proof.
  destruct (qr_file_cases output_path e) as [[H ->]|[_ ->]];
    [exact H | apply endswith_append].
Qed.

Lemma qr_file_present (output_path e : list N) :
  contains 47 e = false -> (2 <= length e)%nat ->
  endswith output_path e = true ->
  Spec.qr_file output_path e = pathlib.str (pathlib.parse output_path).
Proof.
  intros He Le H. pose proof (parse_endswith _ _ He Le H) as P.
  destruct (qr_file_cases output_path e) as [[_ ->]|[C _]];
    [reflexivity | congruence].
Qed.

Lemma qr_extension_cases (U : unicode) (format_type : list N) :
  (lower U format_type = u "svg" /\ Spec.qr_extension U format_type = u ".svg")
  \/ (lower U format_type <> u "svg" /\ Spec.qr_extension U format_type = u ".png").
Proof.
  unfold Spec.qr_extension.
  destruct (str_eqb_spec (lower U format_type) (u "svg")); [left|right]; auto.
Qed.

Lemma render_extension (U : unicode) (lib : qr_generator.library)
    (q : qr_generator.qr_object lib) (format_type fill_color back_color : list N)
    (img : qr_generator.image lib) (ext : list N) :
  qr_generator.render U lib q format_type fill_color back_color = Return (img, ext) ->
  ext = Spec.qr_extension U format_type.
Proof.
  unfold qr_generator.render, Spec.qr_extension.
  destruct (eqb (lower U format_type) (u "svg")).
  - destruct (qr_generator.SvgPathImage lib) as [f|e]; cbn [mbind result_bind bind try_except]; [|discriminate].
    destruct (qr_generator.make_image _ _ _ _ _) as [i|e]; cbn [mbind result_bind bind try_except]; [|discriminate].
    intros [= _ <-]. reflexivity.
  - destruct (qr_generator.make_image _ _ _ _ _) as [i|e]; cbn [mbind result_bind bind try_except]; [|discriminate].
    intros [= _ <-]. reflexivity.
Qed.

(** Once the image is made, [generate_qr_code] is the call of [save] on
    the file. *)
Lemma generate_qr_code_saves (U : unicode) (lib : qr_generator.library)
    (data output_path format_type : list N) (box_size border : Z)
    (error_correction fill_color back_color : list N)
    (q1 q2 q3 : qr_generator.qr_object lib) (img : qr_generator.image lib)
    (ext : list N) :
  qr_generator.QRCode lib 1
    (qr_generator.get_error_correction_level U error_correction) box_size border
    = Return q1 ->
  qr_generator.add_data lib q1 data = Return q2 ->
  qr_generator.make lib q2 true = Return q3 ->
  qr_generator.render U lib q3 format_type fill_color back_color
    = Return (img, ext) ->
  qr_generator.generate_qr_code U lib data output_path format_type box_size
    border error_correction fill_color back_color
  = match qr_generator.save lib img (Spec.qr_file output_path ext) with
    | Return _ => Return (Spec.qr_file output_path ext)
    | Raise e =>
        Raise (Exception (u "Failed to generate QR code: " ++ exn_str e))
    end.
Proof.
  intros H1 H2 H3 H4. unfold qr_generator.generate_qr_code.
  rewrite H1. cbn [mbind result_bind bind]. rewrite H2.
  cbn [mbind result_bind bind]. rewrite H3. cbn [mbind result_bind bind].
  rewrite H4. cbn [mbind result_bind bind]. rewrite add_extension_file.
  destruct (qr_generator.save _ _ _) as [[]|[m|m]]; reflexivity.
Qed.

Lemma generate_qr_code_result (U : unicode) (lib : qr_generator.library)
    (data output_path format_type : list N) (box_size border : Z)
    (error_correction fill_color back_color filename : list N) :
  qr_generator.generate_qr_code U lib data output_path format_type box_size border
    error_correction fill_color back_color = Return filename ->
  filename = Spec.qr_file output_path (Spec.qr_extension U format_type).
Proof.
  unfold qr_generator.generate_qr_code.
  destruct (qr_generator.QRCode _ _ _ _ _) as [q|[|]]; cbn [mbind result_bind bind try_except]; try discriminate.
  destruct (qr_generator.add_data _ _ _) as [q1|[|]]; cbn [mbind result_bind bind try_except]; try discriminate.
  destruct (qr_generator.make _ _ _) as [q2|[|]]; cbn [mbind result_bind bind try_except]; try discriminate.
  destruct (qr_generator.render _ _ _ _ _ _) as [[img ext]|[|]] eqn:R;
    cbn [mbind result_bind bind try_except]; try discriminate.
  apply render_extension in R. subst ext. rewrite add_extension_file.
  destruct (qr_generator.save _ _ _) as [[]|[|]]; cbn [mbind result_bind bind try_except]; try discriminate.
  intros [= <-]. reflexivity.
Qed.

Lemma render_returns (U : unicode) (lib : qr_generator.library)
    (q : qr_generator.qr_object lib) (format_type fill_color back_color : list N) :
  Spec.qr_calls_return lib ->
  exists img,
    qr_generator.render U lib q format_type fill_color back_color
    = Return (img, Spec.qr_extension U format_type).
Proof.
  intros (_ & _ & _ & [f Hf] & H5 & _).
  unfold qr_generator.render, Spec.qr_extension.
  destruct (eqb (lower U format_type) (u "svg")).
  - rewrite Hf. cbn [mbind result_bind bind try_except]. destruct (H5 q (Some f) fill_color back_color) as [i ->].
    cbn [mbind result_bind bind try_except]. eauto.
  - destruct (H5 q None fill_color back_color) as [i ->]. cbn [mbind result_bind bind try_except]. eauto.
Qed.

Lemma generate_qr_code_returns (U : unicode) (lib : qr_generator.library)
    (data output_path format_type : list N) (box_size border : Z)
    (error_correction fill_color back_color : list N) :
  Spec.qr_calls_return lib ->
  qr_generator.generate_qr_code U lib data output_path format_type box_size border
    error_correction fill_color back_color
  = Return (Spec.qr_file output_path (Spec.qr_extension U format_type)).
Proof.
  intros C. pose proof C as (H1 & H2 & H3 & _ & _ & H6).
  destruct (H1 1%Z (qr_generator.get_error_correction_level U error_correction)
              box_size border) as [q Q].
  destruct (H2 q data) as [q1 Q1]. destruct (H3 q1 true) as [q2 Q2].
  destruct (render_returns U lib q2 format_type fill_color back_color C) as [img R].
  rewrite (generate_qr_code_saves U lib _ _ _ _ _ _ _ _ _ _ _ _ _ Q Q1 Q2 R).
  rewrite H6. reflexivity.
Qed.

(** ** barcode_generator.py: the extension of the file *)

Lemma barcode_suffix_cases (output_path : list N) :
  let p := pathlib.parse output_path in
  (pathlib.suffix p = []
   /\ Spec.barcode_file output_path = pathlib.str p ++ u ".png"
   /\ Spec.barcode_suffix output_path = u ".png")
  \/ (pathlib.suffix p <> []
      /\ Spec.barcode_file output_path = pathlib.str p
      /\ Spec.barcode_suffix output_path = pathlib.suffix p).
Proof.
  cbv zeta. unfold Spec.barcode_file, Spec.barcode_suffix. cbv zeta.
  destruct (str_eqb_spec (pathlib.suffix (pathlib.parse output_path)) []);
    [left|right]; auto.
Qed.

Lemma target_path_named (output_path : list N) :
  Spec.has_name output_path ->
  exists tp,
    barcode_generator.target_path output_path = Return tp
    /\ pathlib.str tp = Spec.barcode_file output_path
    /\ pathlib.suffix tp = Spec.barcode_suffix output_path.
Proof.
  unfold Spec.has_name, barcode_generator.target_path, Spec.barcode_file,
    Spec.barcode_suffix, truthy.
  intros H. cbv zeta.
  destruct (str_eqb_spec (pathlib.suffix (pathlib.parse output_path)) []) as [S|S];
    cbn [negb].
  - exact (with_suffix_png _ H S).
  - eexists. split; [reflexivity|]. split; reflexivity.
Qed.

Lemma target_path_unnamed (output_path : list N) :
  ~ Spec.has_name output_path ->
  barcode_generator.target_path output_path =
  Raise (ValueError (pathlib.repr (pathlib.parse output_path)
                     ++ u " has an empty name")).
Proof.
  unfold Spec.has_name, barcode_generator.target_path. intros H.
  assert (N : pathlib.name (pathlib.parse output_path) = []).
  { destruct (decide (pathlib.name (pathlib.parse output_path) = []));
      [auto | contradiction]. }
  cbv zeta. rewrite (suffix_no_name _ N).
  change (negb (truthy [])) with true. cbv iota.
  apply with_suffix_no_name; auto.
Qed.

Lemma validate_barcode_type_member (barcode_type : list N) :
  barcode_type ∈ Spec.barcode_type_names ->
  barcode_generator.validate_barcode_type barcode_type = Return barcode_type.
Proof.
  intros T. unfold barcode_generator.validate_barcode_type.
  destruct (barcode_generator.BARCODE_TYPES !! barcode_type) eqn:L; [reflexivity|].
  apply BARCODE_TYPES_lookup_None in L. contradiction.
Qed.

(** Once the image is made, [generate_barcode] is the call of [save] on
    the file. *)
Lemma generate_barcode_saves (U : unicode) (lib : barcode_generator.library)
    (data barcode_type output_path : list N)
    (options : option (gmap (list N) barcode_generator.option_value))
    (i1 i2 i3 : barcode_generator.image lib) :
  Spec.has_name output_path ->
  barcode_type ∈ Spec.barcode_type_names ->
  barcode_generator.treepoem_generate_barcode lib barcode_type data
    (default ∅ options) = Return i1 ->
  barcode_generator.ImageOps_expand lib i1 10 (u "white") = Return i2 ->
  (if eqb (lower U (Spec.barcode_suffix output_path)) (u ".png")
   then barcode_generator.convert lib i2 (u "RGB") else Return i2) = Return i3 ->
  barcode_generator.generate_barcode U lib data barcode_type output_path options
  = match barcode_generator.save lib i3 (Spec.barcode_file output_path) with
    | Return _ => Return (Spec.barcode_file output_path)
    | Raise (ValueError m) => Raise (ValueError m)
    | Raise (Exception m) =>
        Raise (Exception (u "Failed to generate barcode: " ++ m))
    end.
Proof.
  intros N T H1 H2 H3. unfold barcode_generator.generate_barcode.
  rewrite (validate_barcode_type_member _ T). cbn [mbind result_bind bind].
  rewrite H1. cbn [mbind result_bind bind]. rewrite H2.
  cbn [mbind result_bind bind].
  destruct (target_path_named output_path N) as (tp & -> & ES & SS).
  cbn [mbind result_bind bind]. rewrite SS, H3, ES.
  cbn [mbind result_bind bind].
  destruct (barcode_generator.save _ _ _) as [[]|[m|m]]; reflexivity.
Qed.

Lemma generate_barcode_result (U : unicode) (lib : barcode_generator.library)
    (data barcode_type output_path : list N)
    (options : option (gmap (list N) barcode_generator.option_value))
    (filename : list N) :
  barcode_generator.generate_barcode U lib data barcode_type output_path options
    = Return filename ->
  Spec.has_name output_path /\ filename = Spec.barcode_file output_path.
Proof.
  unfold barcode_generator.generate_barcode.
  destruct (barcode_generator.validate_barcode_type barcode_type) as [vt|[|]];
    cbn [mbind result_bind bind try_except]; try discriminate.
  destruct (barcode_generator.treepoem_generate_barcode _ _ _ _) as [i|[|]];
    cbn [mbind result_bind bind try_except]; try discriminate.
  destruct (barcode_generator.ImageOps_expand _ _ _ _) as [i1|[|]];
    cbn [mbind result_bind bind try_except]; try discriminate.
  destruct (decide (Spec.has_name output_path)) as [N|N].
  - destruct (target_path_named output_path N) as (tp & -> & ES & _). cbn [mbind result_bind bind try_except].
    destruct (eqb (lower U (pathlib.suffix tp)) (u ".png")).
    + destruct (barcode_generator.convert _ _ _) as [i2|[|]]; cbn [mbind result_bind bind try_except]; try discriminate.
      destruct (barcode_generator.save _ _ _) as [[]|[|]]; cbn [mbind result_bind bind try_except]; try discriminate.
      intros [= <-]. auto.
    + cbn [mbind result_bind bind try_except]. destruct (barcode_generator.save _ _ _) as [[]|[|]]; cbn [mbind result_bind bind try_except]; try discriminate.
      intros [= <-]. auto.
  - rewrite (target_path_unnamed output_path N). cbn [mbind result_bind bind try_except]. discriminate.
Qed.

Lemma generate_barcode_returns (U : unicode) (lib : barcode_generator.library)
    (data barcode_type output_path : list N)
    (options : option (gmap (list N) barcode_generator.option_value)) :
  Spec.barcode_calls_return lib ->
  barcode_type ∈ Spec.barcode_type_names ->
  Spec.has_name output_path ->
  barcode_generator.generate_barcode U lib data barcode_type output_path options
    = Return (Spec.barcode_file output_path).
Proof.
  intros (H1 & H2 & H3 & H4) T N.
  destruct (H1 barcode_type data (default ∅ options)) as [i I].
  destruct (H2 i 10%Z (u "white")) as [i1 I1].
  assert (exists i2,
            (if eqb (lower U (Spec.barcode_suffix output_path)) (u ".png")
             then barcode_generator.convert lib i1 (u "RGB") else Return i1)
            = Return i2) as [i2 I2].
  { destruct (eqb _ _); [apply H3 | eauto]. }
  rewrite (generate_barcode_saves U lib _ _ _ _ _ _ _ N T I I1 I2), H4.
  reflexivity.
Qed.

(** ** ean13_generator.py: the path handed to the writer *)

Lemma save_path_named (output_path : list N) :
  Spec.has_name output_path ->
  exists sp,
    ean13_generator.save_path output_path = Return sp
    /\ pathlib.str (pathlib.parse output_path)
       = sp ++ pathlib.suffix (pathlib.parse output_path).
Proof.
  intros H. unfold ean13_generator.save_path.
  destruct (with_suffix_empty _ H) as (p' & -> & E). cbn [mbind result_bind bind try_except].
  eexists. split; [reflexivity | exact E].
Qed.

Lemma select_writer_returns (U : unicode) (lib : ean13_generator.library)
    (format_type : list N) :
  Spec.ean13_calls_return lib ->
  exists w ext, ean13_generator.select_writer U lib format_type = Return (w, ext).
Proof.
  intros ([w1 H1] & [w2 H2] & _). unfold ean13_generator.select_writer.
  destruct (eqb (lower U format_type) (u "png")).
  - rewrite H1. cbn [mbind result_bind bind try_except]. eauto.
  - rewrite H2. cbn [mbind result_bind bind try_except]. eauto.
Qed.

(** Once the [EAN13] object is made, [generate_barcode] is the call of
    [save] on the path without its suffix. *)
Lemma ean13_generate_barcode_saves (U : unicode) (lib : ean13_generator.library)
    (code output_path format_type sp ext : list N)
    (w : ean13_generator.writer lib) (e : ean13_generator.ean lib) :
  ean13_generator.validate_ean13_code U code = Return code ->
  ean13_generator.select_writer U lib format_type = Return (w, ext) ->
  ean13_generator.EAN13 lib code w = Return e ->
  ean13_generator.save_path output_path = Return sp ->
  ean13_generator.generate_barcode U lib code output_path format_type
  = match ean13_generator.save lib e sp with
    | Return filename => Return filename
    | Raise (ValueError m) =>
        Raise (ValueError (u "Invalid EAN-13 code: " ++ m))
    | Raise (Exception m) =>
        Raise (Exception (u "Failed to generate barcode: " ++ m))
    end.
Proof.
  intros V W E P. unfold ean13_generator.generate_barcode.
  rewrite V. cbn [mbind result_bind bind]. rewrite W.
  cbn [mbind result_bind bind]. rewrite E. cbn [mbind result_bind bind].
  rewrite P. cbn [mbind result_bind bind].
  destruct (ean13_generator.save _ _ _) as [f|[m|m]]; reflexivity.
Qed.

Lemma ean13_generate_barcode_returns (U : unicode) (lib : ean13_generator.library)
    (code output_path format_type sp : list N) :
  Spec.ean13_calls_return lib ->
  ean13_generator.validate_ean13_code U code = Return code ->
  ean13_generator.save_path output_path = Return sp ->
  exists w ext e filename,
    ean13_generator.select_writer U lib format_type = Return (w, ext)
    /\ ean13_generator.EAN13 lib code w = Return e
    /\ ean13_generator.save lib e sp = Return filename
    /\ ean13_generator.generate_barcode U lib code output_path format_type
       = Return filename.
Proof.
  intros C V P.
  destruct (select_writer_returns U lib format_type C) as (w & ext & W).
  destruct C as (_ & _ & H3 & H4).
  destruct (H3 code w) as [e E]. destruct (H4 e sp) as [f F].
  exists w, ext, e, f. repeat split; try assumption.
  rewrite (ean13_generate_barcode_saves U lib _ _ _ _ _ _ _ V W E P), F.
  reflexivity.
Qed.

(** C6, as the code has it.  For an output path with a final component,
    [barcode_generator.py] saves the image to the parsed path with
    ['.png'] added when the path has no suffix and to the parsed path
    itself otherwise, and returns that name; [ean13_generator.py] hands
    the writer the parsed path without its last suffix and returns what
    the writer returns.  For every output path [qr_generator.py] saves the
    image to the parsed path, with the extension of the format added
    exactly when the parsed path does not end with it, and returns that
    name; the extension is ['.svg'] when the lower-case format is ['svg']
    and ['.png'] otherwise.  Each conjunct holds for every library: the
    call of [save] is pinned by an equation on the result. *)
Theorem output_extension (U : unicode) (output_path : list N) :
  let p := pathlib.parse output_path in
  (Spec.has_name output_path ->
   ((pathlib.suffix p = []
     /\ Spec.barcode_file output_path = pathlib.str p ++ u ".png"
     /\ Spec.barcode_suffix output_path = u ".png")
    \/ (pathlib.suffix p <> []
        /\ Spec.barcode_file output_path = pathlib.str p
        /\ Spec.barcode_suffix output_path = pathlib.suffix p))
   /\ (exists tp,
         barcode_generator.target_path output_path = Return tp
         /\ pathlib.str tp = Spec.barcode_file output_path
         /\ pathlib.suffix tp = Spec.barcode_suffix output_path)
   /\ (forall lib data barcode_type options i1 i2 i3,
         barcode_type ∈ Spec.barcode_type_names ->
         barcode_generator.treepoem_generate_barcode lib barcode_type data
           (default ∅ options) = Return i1 ->
         barcode_generator.ImageOps_expand lib i1 10 (u "white") = Return i2 ->
         (if eqb (lower U (Spec.barcode_suffix output_path)) (u ".png")
          then barcode_generator.convert lib i2 (u "RGB") else Return i2)
           = Return i3 ->
         barcode_generator.generate_barcode U lib data barcode_type output_path
           options
         = match barcode_generator.save lib i3 (Spec.barcode_file output_path) with
           | Return _ => Return (Spec.barcode_file output_path)
           | Raise (ValueError m) => Raise (ValueError m)
           | Raise (Exception m) =>
               Raise (Exception (u "Failed to generate barcode: " ++ m))
           end)
   /\ (forall lib data barcode_type options,
         Spec.barcode_calls_return lib ->
         barcode_type ∈ Spec.barcode_type_names ->
         barcode_generator.generate_barcode U lib data barcode_type output_path
           options
         = Return (Spec.barcode_file output_path)))
  /\ (forall lib data barcode_type options filename,
        barcode_generator.generate_barcode U lib data barcode_type output_path
          options = Return filename ->
        Spec.has_name output_path /\ filename = Spec.barcode_file output_path)
  /\ (forall lib data format_type box_size border error_correction fill_color
        back_color,
        let ext := Spec.qr_extension U format_type in
        let file := Spec.qr_file output_path ext in
        ((lower U format_type = u "svg" /\ ext = u ".svg")
         \/ (lower U format_type <> u "svg" /\ ext = u ".png"))
        /\ ((endswith (pathlib.str p) ext = true /\ file = pathlib.str p)
            \/ (endswith (pathlib.str p) ext = false
                /\ file = pathlib.str p ++ ext))
        /\ endswith file ext = true
        /\ (endswith output_path ext = true -> file = pathlib.str p)
        /\ qr_generator.add_extension output_path ext = file
        /\ (forall q1 q2 q3 img ext',
              qr_generator.QRCode lib 1
                (qr_generator.get_error_correction_level U error_correction)
                box_size border = Return q1 ->
              qr_generator.add_data lib q1 data = Return q2 ->
              qr_generator.make lib q2 true = Return q3 ->
              qr_generator.render U lib q3 format_type fill_color back_color
                = Return (img, ext') ->
              ext' = ext
              /\ qr_generator.generate_qr_code U lib data output_path format_type
                   box_size border error_correction fill_color back_color
                 = match qr_generator.save lib img file with
                   | Return _ => Return file
                   | Raise e =>
                       Raise (Exception (u "Failed to generate QR code: "
                                         ++ exn_str e))
                   end)
        /\ (forall filename,
              qr_generator.generate_qr_code U lib data output_path format_type
                box_size border error_correction fill_color back_color
              = Return filename -> filename = file)
        /\ (Spec.qr_calls_return lib ->
            qr_generator.generate_qr_code U lib data output_path format_type
              box_size border error_correction fill_color back_color
            = Return file))
  /\ (Spec.has_name output_path ->
      exists sp,
        ean13_generator.save_path output_path = Return sp
        /\ pathlib.str p = sp ++ pathlib.suffix p
        /\ (forall lib code format_type w ext e,
              ean13_generator.validate_ean13_code U code = Return code ->
              ean13_generator.select_writer U lib format_type = Return (w, ext) ->
              ean13_generator.EAN13 lib code w = Return e ->
              ean13_generator.generate_barcode U lib code output_path format_type
              = match ean13_generator.save lib e sp with
                | Return filename => Return filename
                | Raise (ValueError m) =>
                    Raise (ValueError (u "Invalid EAN-13 code: " ++ m))
                | Raise (Exception m) =>
                    Raise (Exception (u "Failed to generate barcode: " ++ m))
                end)
        /\ (forall lib code format_type,
              Spec.ean13_calls_return lib ->
              ean13_generator.validate_ean13_code U code = Return code ->
              exists w ext e filename,
                ean13_generator.select_writer U lib format_type = Return (w, ext)
                /\ ean13_generator.EAN13 lib code w = Return e
                /\ ean13_generator.save lib e sp = Return filename
                /\ ean13_generator.generate_barcode U lib code output_path
                     format_type = Return filename)).
Proof.
  cbv zeta. split; [|split; [|split]].
  - intros N. split; [exact (barcode_suffix_cases output_path)|].
    split; [exact (target_path_named output_path N)|]. split.
    + intros lib data barcode_type options i1 i2 i3 T H1 H2 H3.
      exact (generate_barcode_saves U lib data barcode_type output_path options
               i1 i2 i3 N T H1 H2 H3).
    + intros lib data barcode_type options C T.
      exact (generate_barcode_returns U lib data barcode_type output_path
               options C T N).
  - intros lib data barcode_type options filename.
    apply generate_barcode_result.
  - intros lib data format_type box_size border error_correction fill_color
      back_color.
    split; [exact (qr_extension_cases U format_type)|].
    split; [exact (qr_file_cases output_path (Spec.qr_extension U format_type))|].
    split; [apply qr_file_endswith|]. split; [|split; [|split; [|split]]].
    + apply qr_file_present;
        destruct (qr_extension_cases U format_type) as [[_ ->]|[_ ->]];
        (reflexivity || (vm_compute; lia)).
    + apply add_extension_file.
    + intros q1 q2 q3 img ext' H1 H2 H3 H4.
      pose proof (render_extension U lib _ _ _ _ _ _ H4) as E. split; [exact E|].
      rewrite <- E.
      exact (generate_qr_code_saves U lib data output_path format_type box_size
               border error_correction fill_color back_color q1 q2 q3 img ext'
               H1 H2 H3 H4).
    + intros filename. apply generate_qr_code_result.
    + apply generate_qr_code_returns.
  - intros N. destruct (save_path_named output_path N) as (sp & P & E).
    exists sp. split; [exact P|]. split; [exact E|]. split.
    + intros lib code format_type w ext e V W A.
      exact (ean13_generate_barcode_saves U lib code output_path format_type sp
               ext w e V W A P).
    + intros lib code format_type C V.
      exact (ean13_generate_barcode_returns U lib code output_path format_type
               sp C V P).
Qed.

(** C6, counterexample.  The output path ["."] has no suffix, yet nothing
    is added to it and nothing is stripped from it: with libraries in which
    every call returns, [barcode_generator.py] and [ean13_generator.py]
    both raise [ValueError]. *)
Lemma output_path_without_name_is_refused :
  pathlib.suffix (pathlib.parse (u ".")) = []
  /\ barcode_generator.generate_barcode Sample.tables Sample.barcode_library
       (u "ABC123") (u "code128") (u ".") None
     = Raise (ValueError (u "PosixPath('.') has an empty name"))
  /\ ean13_generator.generate_barcode Sample.tables Sample.ean13_library
       (u "123456789012") (u ".") (u "svg")
     = Raise (ValueError
                (u "Invalid EAN-13 code: PosixPath('.') has an empty name")).
Proof. split; [reflexivity|]. split; vm_compute; reflexivity. Qed.

(** Concrete output paths. *)
Example barcode_file_examples :
  List.map Spec.barcode_file
    [u "barcode"; u "labels/item.jpg"; u "out/"; u ".hidden"; u "a.tar.gz"]
  = [u "barcode.png"; u "labels/item.jpg"; u "out.png"; u ".hidden.png";
     u "a.tar.gz"].
Proof. vm_compute. reflexivity. Qed.

Example add_extension_examples :
  List.map (fun p => qr_generator.add_extension p (u ".png"))
    [u "qr_code"; u "qr_code.png"; u "qr.PNG"; u "out/"; u "a.png/"; []]
  = [u "qr_code.png"; u "qr_code.png"; u "qr.PNG.png"; u "out.png"; u "a.png";
     u "..png"].
Proof. vm_compute. reflexivity. Qed.

Example save_path_examples :
  List.map ean13_generator.save_path
    [u "barcode"; u "barcode.png"; u "a.tar.gz"; u "x/y.svg"]
  = [Return (u "barcode"); Return (u "barcode"); Return (u "a.tar");
     Return (u "x/y")].
Proof. vm_compute. reflexivity. Qed.

(** ** ean13_generator.py: a format that is not ['png'] *)

Lemma select_writer_not_png (U : unicode) (lib : ean13_generator.library)
    (format_type : list N) :
  lower U format_type <> u "png" ->
  ean13_generator.select_writer U lib format_type
  = (w ← ean13_generator.SVGWriter lib; Return (w, u ".svg")).
Proof.
  intros H. unfold ean13_generator.select_writer.
  destruct (str_eqb_spec (lower U format_type) (u "png")) as [E|_];
    [contradiction | reflexivity].
Qed.

(** C9.  In [generate_barcode] of [ean13_generator.py] a format whose
    lower-case form is not ['png'] selects the SVG writer and the ['.svg']
    extension: the call validates the code, builds the [EAN13] object with
    the SVG writer, saves it on the path without its suffix and returns
    the name the writer gives.  The format raises nothing: when the code
    is valid, the path has a name and these calls return, the call returns;
    whatever [ImageWriter] does plays no part; and the call is the call
    with ['svg']. *)
Theorem generate_barcode_unknown_format_is_svg (U : unicode)
    (lib : ean13_generator.library) (code output_path format_type : list N) :
  lower U format_type <> u "png" ->
  ean13_generator.select_writer U lib format_type
    = (w ← ean13_generator.SVGWriter lib; Return (w, u ".svg"))
  /\ ean13_generator.generate_barcode U lib code output_path format_type
     = try_except
         (validated_code ← ean13_generator.validate_ean13_code U code;
          writer ← ean13_generator.SVGWriter lib;
          ean ← ean13_generator.EAN13 lib validated_code writer;
          stem ← (p ← pathlib.with_suffix (pathlib.parse output_path) [];
                  Return (pathlib.str p));
          filename ← ean13_generator.save lib ean stem;
          Return filename)
         (fun m => Raise (ValueError (u "Invalid EAN-13 code: " ++ m)))
         (fun m => Raise (Exception (u "Failed to generate barcode: " ++ m)))
  /\ (forall w e stem filename,
        ean13_generator.validate_ean13_code U code = Return code ->
        Spec.has_name output_path ->
        pathlib.str (pathlib.parse output_path)
          = stem ++ pathlib.suffix (pathlib.parse output_path) ->
        ean13_generator.SVGWriter lib = Return w ->
        ean13_generator.EAN13 lib code w = Return e ->
        ean13_generator.save lib e stem = Return filename ->
        ean13_generator.generate_barcode U lib code output_path format_type
          = Return filename)
  /\ (forall r,
        ean13_generator.generate_barcode U (Props.with_ImageWriter lib r) code
          output_path format_type
        = ean13_generator.generate_barcode U lib code output_path format_type)
  /\ ean13_generator.generate_barcode U lib code output_path format_type
     = ean13_generator.generate_barcode U lib code output_path (u "svg").
Proof.
  intros H. pose proof (select_writer_not_png U lib format_type H) as S.
  assert (G : ean13_generator.generate_barcode U lib code output_path format_type
     = try_except
         (validated_code ← ean13_generator.validate_ean13_code U code;
          writer ← ean13_generator.SVGWriter lib;
          ean ← ean13_generator.EAN13 lib validated_code writer;
          stem ← (p ← pathlib.with_suffix (pathlib.parse output_path) [];
                  Return (pathlib.str p));
          filename ← ean13_generator.save lib ean stem;
          Return filename)
         (fun m => Raise (ValueError (u "Invalid EAN-13 code: " ++ m)))
         (fun m => Raise (Exception (u "Failed to generate barcode: " ++ m)))).
  { unfold ean13_generator.generate_barcode. rewrite S.
    destruct (ean13_generator.validate_ean13_code U code) as [vc|x];
      [|reflexivity].
    cbn [mbind result_bind bind].
    destruct (ean13_generator.SVGWriter lib) as [w|x]; reflexivity. }
  split; [exact S|]. split; [exact G|]. split; [|split].
  - intros w e stem filename V N E W A F. rewrite G, V.
    cbn [mbind result_bind bind]. rewrite W. cbn [mbind result_bind bind].
    rewrite A. cbn [mbind result_bind bind].
    destruct (save_path_named output_path N) as (sp & P & E').
    unfold ean13_generator.save_path in P. rewrite P.
    cbn [mbind result_bind bind].
    assert (sp = stem) as ->.
    { apply (app_inv_tail (pathlib.suffix (pathlib.parse output_path))).
      congruence. }
    rewrite F. reflexivity.
  - intros r. unfold ean13_generator.generate_barcode.
    rewrite S, (select_writer_not_png U (Props.with_ImageWriter lib r) _ H).
    reflexivity.
  - unfold ean13_generator.generate_barcode. rewrite S.
    rewrite (select_writer_not_png U lib (u "svg")); [reflexivity|].
    rewrite (lower_ascii U) by (vm_compute; repeat constructor).
    vm_compute. discriminate.
Qed.

Lemma generate_barcode_unknown_format_is_svg_witness :
  lower Sample.tables (u "jpeg") <> u "png"
  /\ ean13_generator.generate_barcode Sample.tables Sample.ean13_library
       (u "123456789012") (u "barcode") (u "jpeg")
     = Return (u "barcode.svg").
Proof.
  assert (H : lower Sample.tables (u "jpeg") <> u "png")
    by (vm_compute; discriminate).
  split; [exact H|].
  refine (proj1 (proj2 (proj2
            (generate_barcode_unknown_format_is_svg Sample.tables
               Sample.ean13_library (u "123456789012") (u "barcode") (u "jpeg")
               H)))
            (u ".svg") (u "123456789012", u ".svg") (u "barcode")
            (u "barcode.svg") _ _ _ _ _ _);
    vm_compute; (reflexivity || discriminate).
Defined.

Example generate_barcode_unknown_format :
  ean13_generator.generate_barcode Sample.tables Sample.ean13_library
    (u "123456789012") (u "barcode") (u "jpeg")
  = Return (u "barcode.svg").
Proof. vm_compute. reflexivity. Qed.

(** ** Facts about argparse *)

Section ParserFacts.
Variable U : unicode.
Variables usage help_text prog : list N.

Lemma error_reports_usage_error (m : list N) :
  Spec.reports_usage_error (argparse.error usage prog m).
Proof.
  split; [reflexivity|]. split; [eexists _, _; reflexivity | reflexivity].
Qed.

Lemma take_action_exit (a : argparse.argument) (args : list (list N))
    (ns : gmap (list N) argparse.value) (o : argparse.outcome) :
  argparse.take_action U usage help_text prog a args ns = argparse.Exit o ->
  Spec.reports_usage_error o
  \/ (Props.prints_and_exits a = true /\ Spec.reports_information o).
Proof.
  unfold argparse.take_action, Props.prints_and_exits, argparse.argument_error.
  destruct (argparse.arg_action a).
  - destruct args as [|s r]; [discriminate|].
    destruct (argparse.get_value U a s).
    + destruct (argparse.check_value a s); [discriminate|].
      intros [= <-]. left. apply error_reports_usage_error.
    + intros [= <-]. left. apply error_reports_usage_error.
  - discriminate.
  - intros [= <-]. right. split; [reflexivity|].
    split; [eexists; reflexivity | split; reflexivity].
  - intros [= <-]. right. split; [reflexivity|].
    split; [eexists; reflexivity | split; reflexivity].
Qed.

Lemma prefix_fit_Forall (P : argparse.argument -> Prop)
    (ps : list argparse.argument) :
  Forall P ps -> forall m, Forall P (argparse.prefix_fit ps m).
Proof.
  induction 1 as [|p ps Hp Hps IH]; intros m; cbn [argparse.prefix_fit];
    [constructor|].
  destruct (argparse.is_required p); [destruct m|]; constructor; auto.
Qed.

Section Invariant.
Variable parser : list argparse.argument.
Variable I : gmap (list N) argparse.value -> Prop.
Hypothesis take_action_I :
  forall a args ns ns',
    a ∈ parser -> I ns ->
    argparse.take_action U usage help_text prog a args ns = argparse.Namespace ns' ->
    I ns'.

Lemma feed_ok (chosen : list argparse.argument) :
  forall block ns,
    Forall (fun a => a ∈ parser /\ Props.prints_and_exits a = false) chosen ->
    I ns ->
    match argparse.feed U usage help_text prog chosen block ns with
    | (argparse.Namespace ns', _) => I ns'
    | (argparse.Exit o, _) => Spec.reports_usage_error o
    end.
Proof.
  induction chosen as [|p chosen IH]; intros block ns F Hns;
    cbn [argparse.feed]; [exact Hns|].
  inversion F as [|? ? [Hp Hq] F']; subst. cbv zeta.
  destruct (argparse.take_action U usage help_text prog p _ ns) as [ns'|o] eqn:T.
  - apply IH; [exact F'|]. exact (take_action_I _ _ _ _ Hp Hns T).
  - apply take_action_exit in T as [T|[T _]]; [exact T | congruence].
Qed.

Lemma consume_positionals_ok (st : argparse.state) :
  Props.state_ok parser I st ->
  match argparse.consume_positionals U usage help_text prog st with
  | (argparse.Namespace ns, st') => Props.state_ok parser I st' /\ argparse.st_namespace st' = ns
  | (argparse.Exit o, _) => Spec.reports_usage_error o
  end.
Proof.
  intros [F Hns]. unfold argparse.consume_positionals.
  pose proof (feed_ok
                (argparse.prefix_fit (argparse.st_positionals st)
                   (length (argparse.st_block st)))
                (argparse.st_block st) (argparse.st_namespace st)
                (prefix_fit_Forall _ _ F _) Hns) as H.
  destruct (argparse.feed _ _ _ _ _ _ _) as [[ns|o] unused]; [|exact H].
  split; [|reflexivity]. split; [|exact H].
  cbn [argparse.st_positionals]. apply Forall_drop. exact F.
Qed.

Lemma flush_ok (st : argparse.state) :
  Props.state_ok parser I st ->
  match argparse.flush U usage help_text prog st with
  | (argparse.Namespace _, st') => Props.state_ok parser I st'
  | (argparse.Exit o, _) => Spec.reports_usage_error o
  end.
Proof.
  intros H. unfold argparse.flush. destruct (argparse.st_block st); [exact H|].
  pose proof (consume_positionals_ok st H) as C.
  destruct (argparse.consume_positionals _ _ _ _ _) as [[ns|o] st'];
    [exact (proj1 C) | exact C].
Qed.

Lemma finish_ok (st : argparse.state) :
  Props.state_ok parser I st ->
  match argparse.finish U usage help_text prog st with
  | argparse.Namespace ns => I ns
  | argparse.Exit o => Spec.reports_usage_error o
  end.
Proof.
  intros H. unfold argparse.finish.
  pose proof (consume_positionals_ok st H) as C.
  destruct (argparse.consume_positionals _ _ _ _ _) as [[ns|o] st']; [|exact C].
  destruct C as [[_ C] E].
  destruct (List.filter _ _); [|apply error_reports_usage_error].
  destruct (argparse.st_extras st'); [|apply error_reports_usage_error].
  rewrite <- E. exact C.
Qed.

Lemma parsed_ok_cons (t : argparse.token) (ts : list argparse.token)
    (r : argparse.parsed) :
  Props.parsed_ok parser I ts r -> Props.parsed_ok parser I (t :: ts) r.
Proof.
  destruct r as [ns|o]; [auto|]. intros [H|(H & f & e & a & H1 & H2)];
    [left; exact H | right]. split; [exact H|].
  exists f, e, a. split; [apply elem_of_cons; right; exact H1 | exact H2].
Qed.

Lemma find_option_elem_of (f : list N) (a : argparse.argument) :
  argparse.find_option parser f = Some a ->
  a ∈ parser /\ argparse.is_optional a = true /\ f ∈ argparse.name_or_flags a.
Proof.
  unfold argparse.find_option. intros H. apply find_some in H as [H1 H2].
  apply andb_true_iff in H2 as [H2 H3]. split; [apply list_elem_of_In; exact H1|].
  split; [exact H2|]. unfold argparse.has_name in H3.
  apply existsb_exists in H3 as (x & Hx & E). apply str_eqb_eq in E. subst x.
  apply list_elem_of_In. exact Hx.
Qed.

Lemma set_namespace_ok (st : argparse.state) (ns : gmap (list N) argparse.value) :
  Props.state_ok parser I st -> I ns -> Props.state_ok parser I (argparse.set_namespace st ns).
Proof. intros [F _] H. split; [exact F | exact H]. Qed.

Lemma add_extra_ok (st : argparse.state) (s : list N) :
  Props.state_ok parser I st -> Props.state_ok parser I (argparse.add_extra st s).
Proof. intros [F H]. split; [exact F | exact H]. Qed.

Lemma add_pending_ok (st : argparse.state) (s : list N) :
  Props.state_ok parser I st -> Props.state_ok parser I (argparse.add_pending st s).
Proof. intros [F H]. split; [exact F | exact H]. Qed.

Lemma consume_ok_bounded (n : nat) :
  forall ts st,
    (length ts <= n)%nat -> Props.state_ok parser I st ->
    Props.parsed_ok parser I ts (argparse.consume U usage help_text prog parser st ts).
Proof.
  induction n as [|n IH]; intros ts st L H.
  - destruct ts; [|cbn [length] in L; lia]. cbn [argparse.consume].
    pose proof (finish_ok st H) as F.
    destruct (argparse.finish _ _ _ _ _); [exact F | left; exact F].
  - destruct ts as [|t ts].
    { cbn [argparse.consume]. pose proof (finish_ok st H) as F.
      destruct (argparse.finish _ _ _ _ _); [exact F | left; exact F]. }
    cbn [length] in L. assert (L' : (length ts <= n)%nat) by lia.
    destruct t as [s|f explicit|s]; cbn [argparse.consume].
    + apply parsed_ok_cons. apply IH; [exact L' | apply add_pending_ok; exact H].
    + pose proof (flush_ok st H) as F.
      destruct (argparse.flush _ _ _ _ _) as [[ns0|o] st']; [|left; exact F].
      destruct (argparse.find_option parser f) as [a|] eqn:O.
      2:{ apply parsed_ok_cons. apply IH; [exact L' | apply add_extra_ok; exact F]. }
      pose proof (find_option_elem_of _ _ O) as (Ha & _ & _).
      assert (T : forall args,
                match argparse.take_action U usage help_text prog a args
                        (argparse.st_namespace st') with
                | argparse.Namespace ns => I ns
                | argparse.Exit o =>
                    Props.parsed_ok parser I (argparse.topt f explicit :: ts) (argparse.Exit o)
                end).
      { intros args.
        destruct (argparse.take_action _ _ _ _ a args _) as [ns|o] eqn:T.
        - exact (take_action_I _ _ _ _ Ha (proj2 F) T).
        - apply take_action_exit in T as [T|[T1 T2]]; [left; exact T | right].
          split; [exact T2|]. exists f, explicit, a.
          split; [apply elem_of_cons; left; reflexivity | split; assumption]. }
      assert (E : forall m,
                Props.parsed_ok parser I (argparse.topt f explicit :: ts)
                  (argparse.argument_error usage prog a m)).
      { intros m. left. apply error_reports_usage_error. }
      destruct (argparse.arg_action a).
      * destruct explicit as [v|].
        -- specialize (T [v]).
           destruct (argparse.take_action _ _ _ _ a [v] _) as [ns|o]; [|exact T].
           apply parsed_ok_cons. apply IH; [exact L'|].
           apply set_namespace_ok; [exact F | exact T].
        -- destruct ts as [|[v| |] ts'']; try apply E.
           specialize (T [v]).
           destruct (argparse.take_action _ _ _ _ a [v] _) as [ns|o]; [|exact T].
           do 2 apply parsed_ok_cons. apply IH; [cbn [length] in L'; lia|].
           apply set_namespace_ok; [exact F | exact T].
      * destruct explicit as [v|]; [apply E|]. specialize (T []).
        destruct (argparse.take_action _ _ _ _ a [] _) as [ns|o]; [|exact T].
        apply parsed_ok_cons. apply IH; [exact L'|].
        apply set_namespace_ok; [exact F | exact T].
      * destruct explicit as [v|]; [apply E|]. specialize (T []).
        destruct (argparse.take_action _ _ _ _ a [] _) as [ns|o]; [|exact T].
        apply parsed_ok_cons. apply IH; [exact L'|].
        apply set_namespace_ok; [exact F | exact T].
      * destruct explicit as [v|]; [apply E|]. specialize (T []).
        destruct (argparse.take_action _ _ _ _ a [] _) as [ns|o]; [|exact T].
        apply parsed_ok_cons. apply IH; [exact L'|].
        apply set_namespace_ok; [exact F | exact T].
    + pose proof (flush_ok st H) as F.
      destruct (argparse.flush _ _ _ _ _) as [[ns0|o] st']; [|left; exact F].
      apply parsed_ok_cons. apply IH; [exact L' | apply add_extra_ok; exact F].
Qed.

Lemma parse_args_ok (argv : list argparse.token) :
  Forall (fun a => Props.prints_and_exits a = false)
    (List.filter (fun a => negb (argparse.is_optional a)) parser) ->
  I (argparse.defaults parser) ->
  Props.parsed_ok parser I argv (argparse.parse_args U usage help_text prog parser argv).
Proof.
  intros Q D. unfold argparse.parse_args.
  apply (consume_ok_bounded (length argv)); [lia|]. split; [|exact D].
  cbn [argparse.st_positionals]. apply Forall_forall. intros a Ha.
  split.
  - apply list_elem_of_In. apply list_elem_of_In in Ha.
    apply filter_In in Ha. tauto.
  - rewrite Forall_forall in Q. apply Q. exact Ha.
Qed.

End Invariant.

End ParserFacts.

Section ParserChoices.
Variable U : unicode.
Variables usage help_text prog : list N.

Lemma take_action_namespace (a : argparse.argument) (args : list (list N))
    (ns ns' : gmap (list N) argparse.value) :
  argparse.take_action U usage help_text prog a args ns = argparse.Namespace ns' ->
  (argparse.arg_action a = argparse.store
   /\ ((args = [] /\ ns' = <[argparse.dest a := argparse.arg_default a]> ns)
       \/ exists s r v,
            args = s :: r /\ argparse.get_value U a s = Some v
            /\ argparse.check_value a s = true
            /\ ns' = <[argparse.dest a := v]> ns))
  \/ (argparse.arg_action a = argparse.store_true
      /\ ns' = <[argparse.dest a := argparse.VBool true]> ns).
Proof.
  unfold argparse.take_action, argparse.argument_error.
  destruct (argparse.arg_action a); try discriminate.
  - destruct args as [|s r].
    + intros [= <-]. left. auto.
    + destruct (argparse.get_value U a s) as [v|] eqn:G; [|discriminate].
      destruct (argparse.check_value a s) eqn:C; [|discriminate].
      intros [= <-]. left. split; [reflexivity|]. right. exists s, r, v. auto.
  - intros [= <-]. right. auto.
Qed.

Lemma check_value_choices (a : argparse.argument) (cs : list (list N))
    (s : list N) :
  argparse.choices a = Some cs ->
  argparse.check_value a s = true <-> s ∈ cs.
Proof.
  intros C. unfold argparse.check_value. rewrite C.
  rewrite existsb_exists. split.
  - intros (x & Hx & E). apply str_eqb_eq in E. subst x.
    apply list_elem_of_In. exact Hx.
  - intros H. exists s. split; [apply list_elem_of_In; exact H|].
    apply str_eqb_refl.
Qed.

(** An attribute stays one of [vs] when the argument that stores it has
    its default and its choices in [vs]. *)
Lemma take_action_holds_one_of (k : list N) (vs : list (list N))
    (a : argparse.argument) (args : list (list N))
    (ns ns' : gmap (list N) argparse.value) :
  (argparse.dest a = k ->
   argparse.arg_action a = argparse.store
   /\ argparse.arg_type a = argparse.to_str
   /\ (exists d, argparse.arg_default a = argparse.VStr d /\ d ∈ vs)
   /\ argparse.choices a = Some vs) ->
  Props.holds_one_of k vs ns ->
  argparse.take_action U usage help_text prog a args ns = argparse.Namespace ns' ->
  Props.holds_one_of k vs ns'.
Proof.
  intros C [s0 [L0 V0]] T. unfold Props.holds_one_of.
  destruct (decide (argparse.dest a = k)) as [E|E].
  - destruct (C E) as (A & Ty & (d & D & Dv) & Ch).
    apply take_action_namespace in T as [[_ [[_ ->]|(s & r & v & _ & G & K & ->)]]|[T _]].
    + exists d. rewrite E, lookup_insert_eq, D. auto.
    + unfold argparse.get_value in G. rewrite Ty in G. injection G as <-.
      exists s. rewrite E, lookup_insert_eq. split; [reflexivity|].
      apply (check_value_choices a vs s Ch). exact K.
    + congruence.
  - exists s0. split; [|exact V0].
    apply take_action_namespace in T as [[_ [[_ ->]|(s & r & v & _ & _ & _ & ->)]]|[_ ->]];
      rewrite lookup_insert_ne by exact E; exact L0.
Qed.


Section Reach.
Variable parser : list argparse.argument.



End Reach.

End ParserChoices.

(** ** The parsers of the three scripts *)

Ltac parser_cases H :=
  repeat (apply elem_of_cons in H as [->|H]);
  [..|apply elem_of_nil in H; contradiction].

Ltac in_list := repeat first [apply list_elem_of_here | apply list_elem_of_further].

Ltac stores_choice :=
  first
    [ intros E; vm_compute in E; discriminate E
    | intros _; split; [reflexivity|]; split; [reflexivity|];
      split; [eexists; split; [reflexivity | in_list] | reflexivity] ].

Lemma qr_parser_level (a : argparse.argument) :
  a ∈ qr_generator.parser ->
  argparse.dest a = u "error_correction" ->
  argparse.arg_action a = argparse.store
  /\ argparse.arg_type a = argparse.to_str
  /\ (exists d, argparse.arg_default a = argparse.VStr d /\ d ∈ Spec.level_names)
  /\ argparse.choices a = Some Spec.level_names.
Proof.
  intros H. unfold qr_generator.parser, argparse.ArgumentParser in H.
  parser_cases H; stores_choice.
Qed.

Lemma qr_parser_format (a : argparse.argument) :
  a ∈ qr_generator.parser ->
  argparse.dest a = u "format" ->
  argparse.arg_action a = argparse.store
  /\ argparse.arg_type a = argparse.to_str
  /\ (exists d, argparse.arg_default a = argparse.VStr d
                /\ d ∈ [u "png"; u "svg"])
  /\ argparse.choices a = Some [u "png"; u "svg"].
Proof.
  intros H. unfold qr_generator.parser, argparse.ArgumentParser in H.
  parser_cases H; stores_choice.
Qed.

Lemma ean13_parser_format (a : argparse.argument) :
  a ∈ ean13_generator.parser ->
  argparse.dest a = u "format" ->
  argparse.arg_action a = argparse.store
  /\ argparse.arg_type a = argparse.to_str
  /\ (exists d, argparse.arg_default a = argparse.VStr d
                /\ d ∈ [u "svg"; u "png"])
  /\ argparse.choices a = Some [u "svg"; u "png"].
Proof.
  intros H. unfold ean13_generator.parser, argparse.ArgumentParser in H.
  parser_cases H; stores_choice.
Qed.

Lemma help_or_version_flag (parser : list argparse.argument) (f : list N)
    (a : argparse.argument) :
  Forall (fun a => Props.prints_and_exits a = true ->
                   forall f, f ∈ argparse.name_or_flags a ->
                             f ∈ [u "-h"; u "--help"; u "--version"]) parser ->
  argparse.find_option parser f = Some a ->
  Props.prints_and_exits a = true ->
  f ∈ [u "-h"; u "--help"; u "--version"].
Proof.
  intros F O P. apply find_option_elem_of in O as (Ha & _ & Hf).
  rewrite Forall_forall in F. exact (F a Ha P f Hf).
Qed.

Ltac flags_of_parser :=
  repeat (constructor;
          [intros P;
           first [discriminate P | intros f Hf; parser_cases Hf; in_list]|]);
  constructor.

Lemma qr_parser_flags :
  Forall (fun a => Props.prints_and_exits a = true ->
                   forall f, f ∈ argparse.name_or_flags a ->
                             f ∈ [u "-h"; u "--help"; u "--version"])
    qr_generator.parser.
Proof. flags_of_parser. Qed.

Lemma ean13_parser_flags :
  Forall (fun a => Props.prints_and_exits a = true ->
                   forall f, f ∈ argparse.name_or_flags a ->
                             f ∈ [u "-h"; u "--help"; u "--version"])
    ean13_generator.parser.
Proof. flags_of_parser. Qed.

Lemma barcode_parser_flags :
  Forall (fun a => Props.prints_and_exits a = true ->
                   forall f, f ∈ argparse.name_or_flags a ->
                             f ∈ [u "-h"; u "--help"; u "--version"])
    barcode_generator.parser.
Proof. flags_of_parser. Qed.

(** What [parse_args] gives, in the vocabulary of the specification. *)
Lemma parsed_ok_outcome (parser : list argparse.argument)
    (I : gmap (list N) argparse.value -> Prop) (argv : list argparse.token)
    (o : argparse.outcome) :
  Forall (fun a => Props.prints_and_exits a = true ->
                   forall f, f ∈ argparse.name_or_flags a ->
                             f ∈ [u "-h"; u "--help"; u "--version"]) parser ->
  Props.parsed_ok parser I argv (argparse.Exit o) ->
  Spec.reports_usage_error o
  \/ (Spec.reports_information o /\ Spec.asks_help_or_version argv).
Proof.
  intros F [H|(H & f & e & a & H1 & H2 & H3)]; [left; exact H | right].
  split; [exact H|]. exists f, e. split; [|exact H1].
  exact (help_or_version_flag parser f a F H2 H3).
Qed.

Lemma qr_parse_args_ok (U : unicode) (usage help_text prog : list N)
    (argv : list argparse.token) :
  Props.parsed_ok qr_generator.parser
    (fun ns => Props.holds_one_of (u "error_correction") Spec.level_names ns
               /\ Props.holds_one_of (u "format") [u "png"; u "svg"] ns)
    argv (argparse.parse_args U usage help_text prog qr_generator.parser argv).
Proof.
  apply parse_args_ok.
  - intros a args ns ns' Ha [H1 H2] T. split.
    + exact (take_action_holds_one_of U usage help_text prog _ _ a args ns ns'
               (qr_parser_level a Ha) H1 T).
    + exact (take_action_holds_one_of U usage help_text prog _ _ a args ns ns'
               (qr_parser_format a Ha) H2 T).
  - vm_compute. repeat constructor.
  - split; eexists; (split; [vm_compute; reflexivity | in_list]).
Qed.

Lemma ean13_parse_args_ok (U : unicode) (usage help_text prog : list N)
    (argv : list argparse.token) :
  Props.parsed_ok ean13_generator.parser
    (Props.holds_one_of (u "format") [u "svg"; u "png"])
    argv (argparse.parse_args U usage help_text prog ean13_generator.parser argv).
Proof.
  apply parse_args_ok.
  - intros a args ns ns' Ha H T.
    exact (take_action_holds_one_of U usage help_text prog _ _ a args ns ns'
             (ean13_parser_format a Ha) H T).
  - vm_compute. repeat constructor.
  - eexists; (split; [vm_compute; reflexivity | in_list]).
Qed.

Lemma barcode_parse_args_ok (U : unicode) (usage help_text prog : list N)
    (argv : list argparse.token) :
  Props.parsed_ok barcode_generator.parser (fun _ => True)
    argv (argparse.parse_args U usage help_text prog barcode_generator.parser argv).
Proof.
  apply parse_args_ok; [auto | vm_compute; repeat constructor | exact Logic.I].
Qed.

Lemma level_names_upper (U : unicode) (level : list N) :
  level ∈ Spec.level_names -> upper U level = level.
Proof.
  intros H. unfold Spec.level_names in H.
  parser_cases H; rewrite (upper_ascii U) by (repeat constructor); reflexivity.
Qed.



(** The choices are case-sensitive, so ['X'] and ['l'] are both refused;
    ['L'] is accepted. *)
Example qr_run_level_X :
  qr_generator.run Sample.tables Sample.qr_library
    (u "usage: qr_generator.py [-h] ...") (u "help") (u "qr_generator.py")
    [argparse.targ (u "hello"); argparse.topt (u "-e") None;
     argparse.targ (u "X")]
  = {| argparse.stdout := [];
       argparse.stderr :=
         [u "usage: qr_generator.py [-h] ...";
          u "qr_generator.py: error: argument -e/--error-correction: invalid choice: 'X' (choose from 'L', 'M', 'Q', 'H')"];
       argparse.exit_status := 2 |}.
Proof. vm_compute. reflexivity. Qed.

Example qr_run_level_lower_case :
  qr_generator.run Sample.tables Sample.qr_library
    (u "usage: qr_generator.py [-h] ...") (u "help") (u "qr_generator.py")
    [argparse.targ (u "hello"); argparse.topt (u "--error-correction") (Some (u "l"))]
  = {| argparse.stdout := [];
       argparse.stderr :=
         [u "usage: qr_generator.py [-h] ...";
          u "qr_generator.py: error: argument -e/--error-correction: invalid choice: 'l' (choose from 'L', 'M', 'Q', 'H')"];
       argparse.exit_status := 2 |}.
Proof. vm_compute. reflexivity. Qed.

Example qr_run_level_L :
  qr_generator.run Sample.tables Sample.qr_library
    (u "usage: qr_generator.py [-h] ...") (u "help") (u "qr_generator.py")
    [argparse.targ (u "hello"); argparse.topt (u "-e") None;
     argparse.targ (u "L")]
  = {| argparse.stdout := [u "QR code generated successfully: qr_code.png"];
       argparse.stderr := [];
       argparse.exit_status := 0 |}.
Proof. vm_compute. reflexivity. Qed.

(** ** The argument grammar of the three scripts *)

Lemma has_name_spec (f : list N) (a : argparse.argument) :
  argparse.has_name f a = true <-> f ∈ argparse.name_or_flags a.
Proof.
  unfold argparse.has_name. rewrite existsb_exists. split.
  - intros (x & Hx & E). apply str_eqb_eq in E. subst x.
    apply list_elem_of_In. exact Hx.
  - intros H. exists f. split; [apply list_elem_of_In; exact H|].
    apply str_eqb_refl.
Qed.

Lemma defines_option_spec (parser : list argparse.argument) (f : list N) :
  argparse.defines_option parser f = true <-> f ∈ Props.option_strings parser.
Proof.
  unfold argparse.defines_option, Props.option_strings.
  induction parser as [|a parser IH]; cbn [existsb List.filter].
  - cbn [List.map concat]. rewrite elem_of_nil. split; [discriminate | tauto].
  - rewrite orb_true_iff, IH. destruct (argparse.is_optional a); cbn [andb].
    + cbn [List.map concat]. rewrite elem_of_app, has_name_spec. tauto.
    + split; [intros [H|H]; [discriminate | exact H] | auto].
Qed.

Lemma defines_positional_spec (parser : list argparse.argument) (f : list N) :
  argparse.defines_positional parser f = true
  <-> f ∈ Props.positional_names parser.
Proof.
  unfold argparse.defines_positional, Props.positional_names.
  induction parser as [|a parser IH]; cbn [existsb List.filter].
  - cbn [List.map concat]. rewrite elem_of_nil. split; [discriminate | tauto].
  - rewrite orb_true_iff, IH. destruct (argparse.is_optional a); cbn [andb negb].
    + split; [intros [H|H]; [discriminate | exact H] | auto].
    + cbn [List.map concat]. rewrite elem_of_app, has_name_spec. tauto.
Qed.

Lemma find_option_format_choices (parser : list argparse.argument)
    (a : argparse.argument) (cs : list (list N)) (v : list N) :
  argparse.find_option parser (u "--format") = Some a ->
  argparse.choices a = Some cs ->
  (exists a', argparse.find_option parser (u "--format") = Some a'
              /\ argparse.check_value a' v = true)
  <-> v ∈ cs.
Proof.
  intros O C. split.
  - intros (a' & O' & K). rewrite O in O'. injection O' as <-.
    apply (check_value_choices a cs v C). exact K.
  - intros H. exists a. split; [exact O|].
    apply (check_value_choices a cs v C). exact H.
Qed.

Lemma format_of_namespace (ns : gmap (list N) argparse.value)
    (vs : list (list N)) :
  Props.holds_one_of (u "format") vs ns ->
  exists s, ns !! u "format" = Some (argparse.VStr s) /\ s ∈ vs.
Proof. auto. Qed.

(** C5, as the code has it.  Every script declares its positional
    arguments, [-h/--help], [-o/--output] and [--version];
    [ean13_generator.py] and [qr_generator.py] declare [-f/--format],
    whose value is one of svg and png in every namespace [parse_args]
    returns; [qr_generator.py] declares five options of its own;
    [barcode_generator.py] declares [--options] and [--list-types] and no
    [-f/--format]: after the data and the type, [-f] with a value ends
    with the usage error for unrecognized arguments. *)
Theorem argument_grammar :
  ((forall f, argparse.defines_positional ean13_generator.parser f = true
              <-> f ∈ [u "code"])
   /\ (forall f, argparse.defines_option ean13_generator.parser f = true
                 <-> f ∈ [u "-h"; u "--help"; u "-o"; u "--output"; u "-f";
                          u "--format"; u "--version"]))
  /\ ((forall f, argparse.defines_positional qr_generator.parser f = true
                 <-> f ∈ [u "data"])
      /\ (forall f, argparse.defines_option qr_generator.parser f = true
                    <-> f ∈ [u "-h"; u "--help"; u "-o"; u "--output"; u "-f";
                             u "--format"; u "-e"; u "--error-correction";
                             u "--box-size"; u "--border"; u "--fill-color";
                             u "--back-color"; u "--version"]))
  /\ ((forall f, argparse.defines_positional barcode_generator.parser f = true
                 <-> f ∈ [u "data"; u "type"])
      /\ (forall f, argparse.defines_option barcode_generator.parser f = true
                    <-> f ∈ [u "-h"; u "--help"; u "-o"; u "--output";
                             u "--options"; u "--list-types"; u "--version"]))
  /\ (forall v,
        (exists a, argparse.find_option ean13_generator.parser (u "--format")
                     = Some a
                   /\ argparse.find_option ean13_generator.parser (u "-f")
                     = Some a
                   /\ argparse.check_value a v = true)
        <-> v ∈ [u "svg"; u "png"])
  /\ (forall v,
        (exists a, argparse.find_option qr_generator.parser (u "--format")
                     = Some a
                   /\ argparse.find_option qr_generator.parser (u "-f")
                     = Some a
                   /\ argparse.check_value a v = true)
        <-> v ∈ [u "png"; u "svg"])
  /\ (forall U usage help_text prog argv ns,
        argparse.parse_args U usage help_text prog ean13_generator.parser argv
          = argparse.Namespace ns ->
        ean13_generator.format (ean13_generator.read_namespace ns)
          ∈ [u "svg"; u "png"])
  /\ (forall U usage help_text prog argv ns,
        argparse.parse_args U usage help_text prog qr_generator.parser argv
          = argparse.Namespace ns ->
        qr_generator.format (qr_generator.read_namespace ns)
          ∈ [u "png"; u "svg"])
  /\ (forall U lib usage help_text prog data type v,
        barcode_generator.run U lib usage help_text prog
          [argparse.targ data; argparse.targ type; argparse.tunknown (u "-f");
           argparse.targ v]
        = argparse.error usage prog (u "unrecognized arguments: -f " ++ v)).
Proof.
  split; [|split; [|split; [|split; [|split; [|split; [|split]]]]]].
  - split; intros f;
      [rewrite defines_positional_spec | rewrite defines_option_spec];
      reflexivity.
  - split; intros f;
      [rewrite defines_positional_spec | rewrite defines_option_spec];
      reflexivity.
  - split; intros f;
      [rewrite defines_positional_spec | rewrite defines_option_spec];
      reflexivity.
  - intros v. split.
    + intros (a & O & _ & K).
      apply (find_option_format_choices ean13_generator.parser a _ v O);
        [|exists a; auto].
      vm_compute in O. injection O as <-. reflexivity.
    + intros H. eexists. split; [vm_compute; reflexivity|].
      split; [vm_compute; reflexivity|].
      apply (check_value_choices _ [u "svg"; u "png"]); [reflexivity | exact H].
  - intros v. split.
    + intros (a & O & _ & K).
      apply (find_option_format_choices qr_generator.parser a _ v O);
        [|exists a; auto].
      vm_compute in O. injection O as <-. reflexivity.
    + intros H. eexists. split; [vm_compute; reflexivity|].
      split; [vm_compute; reflexivity|].
      apply (check_value_choices _ [u "png"; u "svg"]); [reflexivity | exact H].
  - intros U usage help_text prog argv ns E.
    pose proof (ean13_parse_args_ok U usage help_text prog argv) as P.
    rewrite E in P. destruct P as (s & L & V).
    unfold ean13_generator.read_namespace, ean13_generator.get_str.
    cbn [ean13_generator.format]. rewrite L. exact V.
  - intros U usage help_text prog argv ns E.
    pose proof (qr_parse_args_ok U usage help_text prog argv) as P.
    rewrite E in P. destruct P as [_ (s & L & V)].
    unfold qr_generator.read_namespace, qr_generator.get_str.
    cbn [qr_generator.format]. rewrite L. exact V.
  - intros U lib usage help_text prog data type v.
    unfold barcode_generator.run. vm_compute. reflexivity.
Qed.

(** C5, counterexample.  [barcode_generator.py] declares neither [-f] nor
    [--format]: with them on the command line the script writes nothing
    and ends with exit status 2. *)
Lemma barcode_generator_has_no_format_option :
  argparse.defines_option barcode_generator.parser (u "-f") = false
  /\ argparse.defines_option barcode_generator.parser (u "--format") = false
  /\ barcode_generator.run Sample.tables Sample.barcode_library
       (u "usage: barcode_generator.py [-h] ...") (u "help")
       (u "barcode_generator.py")
       [argparse.targ (u "ABC123"); argparse.targ (u "code128");
        argparse.tunknown (u "--format"); argparse.targ (u "png")]
     = {| argparse.stdout := [];
          argparse.stderr :=
            [u "usage: barcode_generator.py [-h] ...";
             u "barcode_generator.py: error: unrecognized arguments: --format png"];
          argparse.exit_status := 2 |}.
Proof. split; [|split]; vm_compute; reflexivity. Qed.

(** * Further properties of the three scripts *)

(** ** Validation comes before any call into a library *)

Lemma sorted_keys_BARCODE_TYPES :
  join (u ", ") (barcode_generator.sorted_keys barcode_generator.BARCODE_TYPES)
  = u "azteccode, codablock, code128, code39, code93, datamatrix, ean13, interleaved2of5, maxicode, pdf417, qrcode, upca".
Proof. vm_compute. reflexivity. Qed.

(** X1. For a type that is not one of the twelve keys, [generate_barcode] of
    [barcode_generator.py] raises the [ValueError] of the validation,
    whatever the library, the data, the path and the options are; the
    message quotes the type and lists the supported types in sorted order;
    [main] prints it after ["Error: "] and exits with status 1. *)
Theorem generate_barcode_unsupported_type (U : unicode)
    (lib : barcode_generator.library) (data barcode_type output_path : list N)
    (options : option (gmap (list N) barcode_generator.option_value))
    (usage prog : list N) (args : barcode_generator.namespace) :
  barcode_type ∉ Spec.barcode_type_names ->
  let message :=
    u "Unsupported barcode type '" ++ barcode_type ++ u "'. Available types: "
    ++ u "azteccode, codablock, code128, code39, code93, datamatrix, ean13, "
    ++ u "interleaved2of5, maxicode, pdf417, qrcode, upca" in
  barcode_generator.generate_barcode U lib data barcode_type output_path options
    = Raise (ValueError message)
  /\ (barcode_generator.list_types args = false ->
      barcode_generator.data args = Some data -> data <> [] ->
      barcode_generator.type args = Some barcode_type -> barcode_type <> [] ->
      barcode_generator.main U lib usage prog args
      = {| argparse.stdout := [];
           argparse.stderr := [u "Error: " ++ message];
           argparse.exit_status := 1 |}).
Proof.
  intros H. cbv zeta.
  assert (G : forall p o,
             barcode_generator.generate_barcode U lib data barcode_type p o
             = Raise (ValueError
                 (u "Unsupported barcode type '" ++ barcode_type
                  ++ u "'. Available types: "
                  ++ u "azteccode, codablock, code128, code39, code93, datamatrix, ean13, "
                  ++ u "interleaved2of5, maxicode, pdf417, qrcode, upca"))).
  { intros p o. unfold barcode_generator.generate_barcode,
      barcode_generator.validate_barcode_type.
    rewrite (proj2 (BARCODE_TYPES_lookup_None barcode_type) H).
    rewrite sorted_keys_BARCODE_TYPES. reflexivity. }
  split; [apply G|].
  intros HL HD Hd HT Ht. unfold barcode_generator.main.
  rewrite HL, HD, HT. unfold barcode_generator.given, truthy.
  destruct (str_eqb_spec data []) as [?|_]; [contradiction|].
  destruct (str_eqb_spec barcode_type []) as [?|_]; [contradiction|].
  cbn [negb orb from_option]. unfold id. rewrite parse_options_returns.
  cbn [mbind result_bind bind].
  rewrite G. reflexivity.
Qed.

Ltac not_in_list :=
  let H := fresh "H" in
  intros H;
  repeat (apply elem_of_cons in H; destruct H as [H|H]; [discriminate H|]);
  apply elem_of_nil in H; exact H.

Lemma generate_barcode_unsupported_type_witness :
  barcode_generator.generate_barcode Sample.tables Sample.barcode_library
    (u "ABC123") (u "CODE128") (u "barcode") None
  = Raise (ValueError
      (u "Unsupported barcode type '" ++ u "CODE128" ++ u "'. Available types: "
       ++ u "azteccode, codablock, code128, code39, code93, datamatrix, ean13, "
       ++ u "interleaved2of5, maxicode, pdf417, qrcode, upca")).
Proof.
  refine (proj1 (generate_barcode_unsupported_type Sample.tables
                   Sample.barcode_library
                   (u "ABC123") (u "CODE128") (u "barcode") None
                   (u "usage") (u "prog")
                   {| barcode_generator.data := Some (u "ABC123");
                      barcode_generator.type := Some (u "CODE128");
                      barcode_generator.output := u "barcode";
                      barcode_generator.options := None;
                      barcode_generator.list_types := false |} _)).
  not_in_list.
Defined.

(** X2. For a code that fails the validation, [generate_barcode] of
    [ean13_generator.py] raises [ValueError] whatever the library, the path
    and the format are.  The digit test comes first: a code that is empty or
    has a character [str.isdigit] refuses gets the digits message whatever
    its length; only a code of digits gets the length message. *)
Theorem ean13_generate_barcode_invalid_code (U : unicode)
    (lib : ean13_generator.library) (code output_path format_type : list N) :
  (code = [] \/ ~ Spec.only_digits U code ->
   ean13_generator.generate_barcode U lib code output_path format_type
   = Raise (ValueError
              (u "Invalid EAN-13 code: EAN-13 code must contain only digits")))
  /\ (code <> [] -> Spec.only_digits U code -> length code <> 12%nat ->
      ean13_generator.generate_barcode U lib code output_path format_type
      = Raise (ValueError
                 (u "Invalid EAN-13 code: EAN-13 code must be exactly 12 digits"))).
Proof.
  pose proof (isdigit_only_digits U code) as DI.
  unfold ean13_generator.generate_barcode, ean13_generator.validate_ean13_code.
  split.
  - intros H.
    assert (D : isdigit U code = false).
    { destruct (isdigit U code) eqn:D; [|reflexivity].
      destruct (proj1 DI eq_refl) as [N O]. destruct H; contradiction. }
    rewrite D. reflexivity.
  - intros N O L. rewrite (proj2 DI (conj N O)). cbn [negb].
    unfold len. destruct (Nat.eqb_spec (length code) 12); [contradiction|].
    reflexivity.
Qed.

(** Three superscript twos are digits for [str.isdigit]: the code gets
    the length message. *)
Example ean13_generate_barcode_superscripts :
  ean13_generator.generate_barcode Sample.tables Sample.ean13_library
    [178; 178; 178] (u "barcode") (u "svg")
  = Raise (ValueError
             (u "Invalid EAN-13 code: EAN-13 code must be exactly 12 digits")).
Proof. vm_compute. reflexivity. Qed.

(** ** The exceptions the generators let out *)

(** X3. Whatever the library raises, [generate_qr_code] lets out only an
    [Exception] whose text starts with ["Failed to generate QR code: "],
    never a [ValueError]; [generate_barcode] of [ean13_generator.py] lets out
    a [ValueError] starting with ["Invalid EAN-13 code: "] or an [Exception]
    starting with ["Failed to generate barcode: "]; in
    [barcode_generator.py] every [Exception] that is not a [ValueError]
    starts with ["Failed to generate barcode: "]. *)
Theorem generators_wrap_exceptions (U : unicode) :
  (forall lib data output_path format_type box_size border error_correction
          fill_color back_color e,
     qr_generator.generate_qr_code U lib data output_path format_type box_size
       border error_correction fill_color back_color = Raise e ->
     exists m, e = Exception (u "Failed to generate QR code: " ++ m))
  /\ (forall lib code output_path format_type e,
        ean13_generator.generate_barcode U lib code output_path format_type
          = Raise e ->
        exists m, e = ValueError (u "Invalid EAN-13 code: " ++ m)
                  \/ e = Exception (u "Failed to generate barcode: " ++ m))
  /\ (forall lib data barcode_type output_path options m,
        barcode_generator.generate_barcode U lib data barcode_type output_path
          options = Raise (Exception m) ->
        exists m', m = u "Failed to generate barcode: " ++ m').
Proof.
  split; [|split].
  - intros lib data output_path format_type box_size border error_correction
      fill_color back_color e.
    unfold qr_generator.generate_qr_code, try_except.
    destruct (_ ≫= _) as [f|[m|m]]; [discriminate| |]; intros [= <-]; eauto.
  - intros lib code output_path format_type e.
    unfold ean13_generator.generate_barcode, try_except.
    destruct (_ ≫= _) as [f|[m|m]]; [discriminate| |]; intros [= <-]; eauto.
  - intros lib data barcode_type output_path options m.
    unfold barcode_generator.generate_barcode, try_except.
    destruct (_ ≫= _) as [f|[m0|m0]]; [discriminate|discriminate|].
    intros [= <-]. eauto.
Qed.

(** X4. In [qr_generator.py] the colors are checked before anything is
    generated, the fill color first: with a fill color that does not pass,
    [main] reports that color whatever the background color and the library
    are; with a good fill color and a bad background color it reports the
    background color. *)
Theorem qr_main_invalid_color (U : unicode) (lib : qr_generator.library)
    (args : qr_generator.namespace) :
  (~ Spec.acceptable_color U (qr_generator.fill_color args) ->
   qr_generator.main U lib args
   = {| argparse.stdout := [];
        argparse.stderr :=
          [u "Error: " ++ u "Invalid fill color: "
           ++ qr_generator.fill_color args];
        argparse.exit_status := 1 |})
  /\ (Spec.acceptable_color U (qr_generator.fill_color args) ->
      ~ Spec.acceptable_color U (qr_generator.back_color args) ->
      qr_generator.main U lib args
      = {| argparse.stdout := [];
           argparse.stderr :=
             [u "Error: " ++ u "Invalid background color: "
              ++ qr_generator.back_color args];
           argparse.exit_status := 1 |}).
Proof.
  pose proof (color_ok_spec U (qr_generator.fill_color args)) as F.
  pose proof (color_ok_spec U (qr_generator.back_color args)) as B.
  unfold qr_generator.main, qr_generator.validate_colors. split.
  - intros H. destruct (qr_generator.color_ok U (qr_generator.fill_color args));
      [exfalso; apply H, F; reflexivity | reflexivity].
  - intros HF HB. rewrite (proj2 F HF).
    destruct (qr_generator.color_ok U (qr_generator.back_color args));
      [exfalso; apply HB, B; reflexivity | reflexivity].
Qed.

(** ** Case and white space in the validated names *)

Lemma barcode_type_names_plain (U : unicode) (t : list N) :
  t ∈ Spec.barcode_type_names -> lower U t = t /\ strip U t = t.
Proof.
  unfold Spec.barcode_type_names. intros H.
  parser_cases H;
    (rewrite (lower_ascii U), (strip_ascii U) by (repeat constructor);
     split; vm_compute; reflexivity).
Qed.

(** X6. [validate_barcode_type] compares names as they are: every accepted
    name is in lower case and has no white space around it, so a name with
    an upper-case letter, or with a space before or after it, raises
    [ValueError]. *)
Theorem validate_barcode_type_is_exact (U : unicode) (barcode_type : list N) :
  lower U barcode_type <> barcode_type \/ strip U barcode_type <> barcode_type ->
  raises_ValueError (barcode_generator.validate_barcode_type barcode_type).
Proof.
  intros H. unfold barcode_generator.validate_barcode_type.
  destruct (barcode_generator.BARCODE_TYPES !! barcode_type) eqn:L.
  - exfalso.
    assert (I : barcode_type ∈ Spec.barcode_type_names).
    { destruct (decide (barcode_type ∈ Spec.barcode_type_names)) as [I|O]; [exact I|].
      apply BARCODE_TYPES_lookup_None in O. congruence. }
    destruct (barcode_type_names_plain U _ I) as [A B]. destruct H; contradiction.
  - eexists. reflexivity.
Qed.

Lemma validate_barcode_type_is_exact_witness :
  raises_ValueError (barcode_generator.validate_barcode_type (u "Code128"))
  /\ raises_ValueError (barcode_generator.validate_barcode_type (u " code128")).
Proof.
  split.
  - apply (validate_barcode_type_is_exact Sample.tables (u "Code128")).
    left. vm_compute. discriminate.
  - apply (validate_barcode_type_is_exact Sample.tables (u " code128")).
    right. vm_compute. discriminate.
Defined.

(** ** The case of the level *)

Ltac no_test t :=
  lazymatch t with
  | context [if _ then _ else _] => fail
  | _ => idtac
  end.

Ltac case_N :=
  repeat (match goal with
          | |- context [N.ltb ?a ?b] =>
              no_test a; no_test b; destruct (N.ltb_spec a b)
          | |- context [N.leb ?a ?b] =>
              no_test a; no_test b; destruct (N.leb_spec a b)
          | |- context [N.eqb ?a ?b] =>
              no_test a; no_test b; destruct (N.eqb_spec a b)
          end;
          cbn [andb negb orb]).

Lemma sample_upper_char (c x : N) :
  Sample.upper_char c = [x] ->
  x ∈ [76; 77; 81; 72; 108; 109; 113; 104] ->
  x < 97 /\ (c = x \/ c = x + 32).
Proof.
  intros E H. parser_cases H; revert E;
    unfold Sample.upper_char, ascii_upper; case_N; intros [= E]; lia.
Qed.

Lemma sample_lower_char (c x : N) :
  Sample.lower_char c = x ->
  x ∈ [76; 77; 81; 72; 108; 109; 113; 104] ->
  97 <= x /\ (c = x \/ c + 32 = x).
Proof.
  intros E H. parser_cases H; revert E;
    unfold Sample.lower_char, ascii_lower; case_N; intros E; lia.
Qed.

Lemma sample_upper_length (s : list N) :
  (length s <= length (flat_map Sample.upper_char s))%nat.
Proof.
  induction s as [|c s IH]; [reflexivity|].
  cbn [flat_map]. rewrite length_app. cbn [length].
  assert (1 <= length (Sample.upper_char c))%nat; [|lia].
  unfold Sample.upper_char. case_N; cbn [length]; lia.
Qed.

Lemma sample_upper_one (s : list N) (x : N) :
  upper Sample.tables s = [x] -> exists c, s = [c] /\ Sample.upper_char c = [x].
Proof.
  change (upper Sample.tables s) with (flat_map Sample.upper_char s).
  intros E. pose proof (sample_upper_length s) as L. rewrite E in L.
  destruct s as [|c [|d s]]; cbn [length] in L; try lia.
  - discriminate.
  - exists c. cbn [flat_map] in E. rewrite app_nil_r in E. auto.
Qed.

Lemma sample_lower_one (s : list N) (x : N) :
  lower Sample.tables s = [x] -> exists c, s = [c] /\ Sample.lower_char c = x.
Proof.
  change (lower Sample.tables s) with (List.map Sample.lower_char s).
  destruct s as [|c [|d s]]; try discriminate.
  intros [= E]. eauto.
Qed.

Lemma sample_level_letters : Props.level_letters_are_ascii Sample.tables.
Proof.
  intros s k H. unfold Spec.level_names in H.
  parser_cases H; (split; [|split; [|split]]).
  all: repeat match goal with
              | |- context [List.map ascii_lower (u ?x)] =>
                  let v := eval vm_compute in (List.map ascii_lower (u x)) in
                  change (List.map ascii_lower (u x)) with v
              end.
  all: repeat match goal with
              | |- context [u ?x] =>
                  let v := eval vm_compute in (u x) in change (u x) with v
              end.
  all: try (intros E; apply sample_upper_one in E as (c & -> & E);
            apply sample_upper_char in E as [E1 E2]; [|in_list];
            first [lia | destruct E2 as [->| ->]; [left|right]; reflexivity]).
  all: try (intros E; apply sample_lower_one in E as (c & -> & E);
            apply sample_lower_char in E as [E1 E2]; [|in_list];
            first [lia
                  | destruct E2 as [->|E2];
                    [right; reflexivity
                    | left; f_equal; lia]]).
Qed.

(** X7. [get_error_correction_level] does not look at the case of the
    level: a level, its upper-case form and its lower-case form give the
    same constant.  On the four letters the command line accepts it is
    one-to-one.  What is used of the Unicode database is that nothing
    but the letters themselves has a level letter as its upper-case or
    lower-case form. *)
Theorem get_error_correction_level_ignores_case (U : unicode) (level : list N) :
  Props.level_letters_are_ascii U ->
  qr_generator.get_error_correction_level U (upper U level)
    = qr_generator.get_error_correction_level U level
  /\ qr_generator.get_error_correction_level U (lower U level)
     = qr_generator.get_error_correction_level U level
  /\ (forall other,
        level ∈ [u "L"; u "M"; u "Q"; u "H"] ->
        other ∈ [u "L"; u "M"; u "Q"; u "H"] ->
        qr_generator.get_error_correction_level U level
          = qr_generator.get_error_correction_level U other ->
        level = other).
Proof.
  intros A.
  assert (K : forall s, qr_generator.levels !! s <> None -> s ∈ Spec.level_names).
  { intros s H. destruct (decide (s ∈ Spec.level_names)) as [I|O]; [exact I|].
    exfalso. apply H. unfold qr_generator.levels.
    unfold Spec.level_names in O. rewrite !elem_of_cons, elem_of_nil in O.
    rewrite !lookup_insert_ne by (intros E; apply O; rewrite E; tauto).
    apply lookup_empty. }
  assert (UA : forall k, k ∈ Spec.level_names ->
                         upper U k = k /\ upper U (List.map ascii_lower k) = k
                         /\ lower U k = List.map ascii_lower k
                         /\ lower U (List.map ascii_lower k) = List.map ascii_lower k).
  { intros k H. unfold Spec.level_names in H.
    parser_cases H;
      rewrite !(upper_ascii U), !(lower_ascii U) by (repeat constructor);
      repeat split; vm_compute; reflexivity. }
  assert (C : forall s,
            (exists k, k ∈ Spec.level_names /\ upper U s = k
                       /\ (s = k \/ s = List.map ascii_lower k))
            \/ (qr_generator.levels !! upper U s = None
                /\ forall k, k ∈ Spec.level_names -> upper U s <> k)).
  { intros s. destruct (qr_generator.levels !! upper U s) eqn:L.
    - left. exists (upper U s).
      assert (I : upper U s ∈ Spec.level_names) by (apply K; congruence).
      split; [exact I|]. split; [reflexivity|].
      exact (proj1 (A s (upper U s) I) eq_refl).
    - right. split; [reflexivity|]. intros k Hk E. rewrite E in L.
      unfold Spec.level_names in Hk. parser_cases Hk; vm_compute in L; discriminate. }
  unfold qr_generator.get_error_correction_level.
  split; [|split].
  - destruct (C level) as [(k & Hk & E & _)|[L N]].
    + rewrite E. rewrite (proj1 (UA k Hk)). reflexivity.
    + rewrite L. destruct (C (upper U level)) as [(k & Hk & E & [E'|E'])|[L' _]].
      * exfalso. exact (N k Hk E').
      * exfalso. exact (proj1 (proj2 (proj2 (A level k Hk))) E').
      * rewrite L'. reflexivity.
  - destruct (C level) as [(k & Hk & E & [->| ->])|[L N]].
    + destruct (UA k Hk) as (U1 & U2 & L1 & L2). rewrite L1, U2, U1. reflexivity.
    + destruct (UA k Hk) as (U1 & U2 & L1 & L2). rewrite L2. reflexivity.
    + rewrite L. destruct (C (lower U level)) as [(k & Hk & E & [E'|E'])|[L' _]].
      * exfalso. exact (proj2 (proj2 (proj2 (A level k Hk))) E').
      * exfalso. destruct (proj1 (proj2 (A level k Hk)) E') as [->| ->].
        -- exact (N k Hk (proj1 (UA k Hk))).
        -- exact (N k Hk (proj1 (proj2 (UA k Hk)))).
      * rewrite L'. reflexivity.
  - intros other H1 H2.
    rewrite (level_names_upper U level H1), (level_names_upper U other H2).
    parser_cases H1; parser_cases H2; vm_compute;
      (reflexivity || discriminate).
Qed.

Lemma get_error_correction_level_ignores_case_witness :
  qr_generator.get_error_correction_level Sample.tables (upper Sample.tables (u "q"))
    = qr_generator.get_error_correction_level Sample.tables (u "q")
  /\ qr_generator.get_error_correction_level Sample.tables (lower Sample.tables (u "q"))
     = qr_generator.get_error_correction_level Sample.tables (u "q")
  /\ (forall other,
        u "q" ∈ [u "L"; u "M"; u "Q"; u "H"] ->
        other ∈ [u "L"; u "M"; u "Q"; u "H"] ->
        qr_generator.get_error_correction_level Sample.tables (u "q")
          = qr_generator.get_error_correction_level Sample.tables other ->
        u "q" = other).
Proof.
  exact (get_error_correction_level_ignores_case Sample.tables (u "q")
           sample_level_letters).
Defined.

Example get_error_correction_level_lower_case :
  qr_generator.get_error_correction_level Sample.tables (u "q")
  = qr_generator.ERROR_CORRECT_Q.
Proof. vm_compute. reflexivity. Qed.

(** ** The case of the colors and of the format *)

Lemma ascii_case (c : N) :
  ascii_lower (ascii_upper c) = ascii_lower c
  /\ ascii_upper (ascii_lower c) = ascii_upper c
  /\ N.eqb 35 (ascii_upper c) = N.eqb 35 c
  /\ N.eqb 35 (ascii_lower c) = N.eqb 35 c
  /\ (c < 128 -> ascii_upper c < 128 /\ ascii_lower c < 128).
Proof.
  unfold ascii_lower, ascii_upper.
  repeat split; case_N; try reflexivity; try lia.
Qed.

Lemma is_ascii_map (f : N -> N) (s : list N) :
  (forall c, c < 128 -> f c < 128) -> is_ascii s -> is_ascii (List.map f s).
Proof.
  intros H A. unfold is_ascii in *. induction A as [|c s Hc Hs IH];
    cbn [List.map]; constructor; auto.
Qed.

Lemma lower_upper_ascii (U : unicode) (s : list N) :
  is_ascii s ->
  lower U (upper U s) = lower U s /\ lower U (lower U s) = lower U s
  /\ is_ascii (upper U s) /\ is_ascii (lower U s).
Proof.
  intros A.
  assert (AU : is_ascii (List.map ascii_upper s)).
  { apply is_ascii_map; [|exact A]. intros c Hc. apply ascii_case. exact Hc. }
  assert (AL : is_ascii (List.map ascii_lower s)).
  { apply is_ascii_map; [|exact A]. intros c Hc. apply ascii_case. exact Hc. }
  rewrite (upper_ascii U s A), (lower_ascii U s A).
  rewrite (lower_ascii U _ AU), (lower_ascii U _ AL), !List.map_map.
  split; [|split; [|split; assumption]].
  - apply map_ext. intros c. apply ascii_case.
  - apply map_ext. intros c. unfold ascii_lower. case_N; try reflexivity; lia.
Qed.

Lemma startswith_hash_case (U : unicode) (s : list N) :
  is_ascii s ->
  startswith (upper U s) (u "#") = startswith s (u "#")
  /\ startswith (lower U s) (u "#") = startswith s (u "#").
Proof.
  intros A. rewrite (upper_ascii U s A), (lower_ascii U s A).
  change (u "#") with [35].
  destruct s as [|c s]; [split; reflexivity|].
  cbn [List.map startswith].
  destruct (ascii_case c) as (_ & _ & H1 & H2 & _). rewrite H1, H2. auto.
Qed.

Lemma color_ok_case (U : unicode) (color : list N) :
  is_ascii color ->
  qr_generator.color_ok U (upper U color) = qr_generator.color_ok U color
  /\ qr_generator.color_ok U (lower U color) = qr_generator.color_ok U color.
Proof.
  intros A. unfold qr_generator.color_ok.
  destruct (startswith_hash_case U color A) as [H1 H2].
  destruct (lower_upper_ascii U color A) as (L1 & L2 & _).
  rewrite H1, H2, L1, L2. auto.
Qed.

Lemma validate_colors_raises_iff (U : unicode) (fill_color back_color : list N) :
  raises (qr_generator.validate_colors U fill_color back_color)
  <-> qr_generator.color_ok U fill_color = false
      \/ qr_generator.color_ok U back_color = false.
Proof.
  unfold qr_generator.validate_colors, raises.
  destruct (qr_generator.color_ok U fill_color); cbn [mbind result_bind bind].
  - destruct (qr_generator.color_ok U back_color).
    + split; [intros [e H]; discriminate | intros [H|H]; discriminate].
    + split; eauto.
  - split; eauto.
Qed.

(** X8. On ASCII colors [validate_colors] does not look at the case: a
    pair of ASCII colors is refused exactly when the pair in upper case is
    refused, and exactly when the pair in lower case is refused.  Beyond
    ASCII this fails: a dotless i is no i, but its upper-case form is I. *)
Theorem validate_colors_ignores_case (U : unicode)
    (fill_color back_color : list N) :
  is_ascii fill_color -> is_ascii back_color ->
  (raises (qr_generator.validate_colors U fill_color back_color)
   <-> raises (qr_generator.validate_colors U (upper U fill_color)
                 (upper U back_color)))
  /\ (raises (qr_generator.validate_colors U fill_color back_color)
      <-> raises (qr_generator.validate_colors U (lower U fill_color)
                    (lower U back_color))).
Proof.
  intros AF AB. rewrite !validate_colors_raises_iff.
  destruct (color_ok_case U fill_color AF) as [FU FL].
  destruct (color_ok_case U back_color AB) as [BU BL].
  rewrite FU, FL, BU, BL. tauto.
Qed.

Lemma validate_colors_ignores_case_witness :
  (raises (qr_generator.validate_colors Sample.tables (u "Pink") (u "whITe"))
   <-> raises (qr_generator.validate_colors Sample.tables
                 (upper Sample.tables (u "Pink"))
                 (upper Sample.tables (u "whITe"))))
  /\ (raises (qr_generator.validate_colors Sample.tables (u "Pink") (u "whITe"))
      <-> raises (qr_generator.validate_colors Sample.tables
                    (lower Sample.tables (u "Pink"))
                    (lower Sample.tables (u "whITe")))).
Proof.
  apply (validate_colors_ignores_case Sample.tables (u "Pink") (u "whITe"));
    repeat constructor.
Defined.

(** The color p, dotless i, n, k is refused, its upper-case form PINK is
    accepted. *)
Example validate_colors_dotless_i :
  qr_generator.validate_colors Sample.tables [112; 305; 110; 107] (u "white")
    = Raise (ValueError (u "Invalid fill color: " ++ [112; 305; 110; 107]))
  /\ qr_generator.validate_colors Sample.tables
       (upper Sample.tables [112; 305; 110; 107]) (u "white") = Return tt.
Proof. split; vm_compute; reflexivity. Qed.

(** X17. The generators look at the format only through one test on its
    lower-case form: [generate_barcode] of [ean13_generator.py] gives the
    same result for two formats that agree on being ['png'] in lower case,
    [generate_qr_code] for two formats that agree on being ['svg'].  For an
    ASCII format the case does not matter. *)
Theorem format_is_one_test (U : unicode) :
  (forall lib code output_path format_type format_type',
     (lower U format_type = u "png" <-> lower U format_type' = u "png") ->
     ean13_generator.generate_barcode U lib code output_path format_type
     = ean13_generator.generate_barcode U lib code output_path format_type')
  /\ (forall lib data output_path format_type format_type' box_size border
             error_correction fill_color back_color,
        (lower U format_type = u "svg" <-> lower U format_type' = u "svg") ->
        qr_generator.generate_qr_code U lib data output_path format_type box_size
          border error_correction fill_color back_color
        = qr_generator.generate_qr_code U lib data output_path format_type'
            box_size border error_correction fill_color back_color)
  /\ (forall lib code output_path format_type,
        is_ascii format_type ->
        ean13_generator.generate_barcode U lib code output_path
          (upper U format_type)
        = ean13_generator.generate_barcode U lib code output_path format_type)
  /\ (forall lib data output_path format_type box_size border
             error_correction fill_color back_color,
        is_ascii format_type ->
        qr_generator.generate_qr_code U lib data output_path
          (upper U format_type) box_size border error_correction fill_color
          back_color
        = qr_generator.generate_qr_code U lib data output_path format_type
            box_size border error_correction fill_color back_color).
Proof.
  assert (E : forall lib code output_path format_type format_type',
             (lower U format_type = u "png" <-> lower U format_type' = u "png") ->
             ean13_generator.generate_barcode U lib code output_path format_type
             = ean13_generator.generate_barcode U lib code output_path format_type').
  { intros lib code output_path format_type format_type' H.
    unfold ean13_generator.generate_barcode, ean13_generator.select_writer.
    destruct (str_eqb_spec (lower U format_type) (u "png")) as [A|A];
      destruct (str_eqb_spec (lower U format_type') (u "png")) as [B|B];
      try reflexivity; tauto. }
  assert (Q : forall lib data output_path format_type format_type' box_size border
                     error_correction fill_color back_color,
             (lower U format_type = u "svg" <-> lower U format_type' = u "svg") ->
             qr_generator.generate_qr_code U lib data output_path format_type
               box_size border error_correction fill_color back_color
             = qr_generator.generate_qr_code U lib data output_path format_type'
                 box_size border error_correction fill_color back_color).
  { intros lib data output_path format_type format_type' box_size border
      error_correction fill_color back_color H.
    unfold qr_generator.generate_qr_code, qr_generator.render.
    destruct (str_eqb_spec (lower U format_type) (u "svg")) as [A|A];
      destruct (str_eqb_spec (lower U format_type') (u "svg")) as [B|B];
      try reflexivity; tauto. }
  split; [exact E|]. split; [exact Q|]. split.
  - intros lib code output_path format_type A. apply E.
    rewrite (proj1 (lower_upper_ascii U format_type A)). tauto.
  - intros lib data output_path format_type box_size border error_correction
      fill_color back_color A. apply Q.
    rewrite (proj1 (lower_upper_ascii U format_type A)). tauto.
Qed.

(** The format long s, v, g is PNG for [generate_qr_code]; its upper-case
    form SVG is SVG. *)
Example generate_qr_code_long_s :
  qr_generator.generate_qr_code Sample.tables Sample.qr_library (u "hello")
    (u "qr") [383; 118; 103] 10 4 (u "M") (u "black") (u "white")
    = Return (u "qr.png")
  /\ qr_generator.generate_qr_code Sample.tables Sample.qr_library (u "hello")
       (u "qr") (upper Sample.tables [383; 118; 103]) 10 4 (u "M") (u "black")
       (u "white")
     = Return (u "qr.svg").
Proof. split; vm_compute; reflexivity. Qed.

(** ** The options dictionary *)

Lemma find_app_pieces (f : list N -> bool) (l1 l2 : list (list N)) :
  List.find f (l1 ++ l2) =
  match List.find f l1 with
  | Some y => Some y
  | None => List.find f l2
  end.
Proof.
  induction l1 as [|x l1 IH]; cbn [List.find app]; [reflexivity|].
  destruct (f x); [reflexivity | exact IH].
Qed.

Lemma options_fold_lookup (U : unicode) (pieces : list (list N))
    (d : gmap (list N) barcode_generator.option_value) (k : list N) :
  foldl (fun d piece =>
           <[(Spec.option_entry U piece).1 := (Spec.option_entry U piece).2]> d)
    d pieces !! k
  = match Props.last_entry U k pieces with
    | Some v => Some v
    | None => d !! k
    end.
Proof.
  revert d. induction pieces as [|x l IH]; intros d; [reflexivity|].
  cbn [foldl]. rewrite IH. unfold Props.last_entry.
  cbn [rev]. rewrite find_app_pieces.
  destruct (List.find _ (rev l)) as [y|]; [reflexivity|].
  cbn [List.find fmap option_fmap option_map].
  destruct (str_eqb_spec (Spec.option_entry U x).1 k) as [E|N].
  - cbn [fmap option_fmap option_map]. rewrite E. apply lookup_insert_eq.
  - cbn [fmap option_fmap option_map]. apply lookup_insert_ne. exact N.
Qed.

(** X9. In the dictionary [parse_options] returns, a key has the value of
    the last comma-separated piece that stands for it, and a key that no
    piece stands for is absent. *)
Theorem parse_options_last_wins (U : unicode) (s k : list N) :
  s <> [] ->
  exists d,
    barcode_generator.parse_options U (Some s) = Return d
    /\ d !! k = Props.last_entry U k (split 44 s).
Proof.
  intros H. eexists. split; [apply parse_options_returns|].
  destruct (str_eqb_spec s []); [contradiction|].
  unfold Spec.options_of_pieces. rewrite options_fold_lookup.
  destruct (Props.last_entry U k (split 44 s)); [reflexivity | apply lookup_empty].
Qed.

Lemma parse_options_last_wins_witness :
  exists d,
    barcode_generator.parse_options Sample.tables
      (Some (u "rows=1, columns=3 ,rows = 10" ++ [160] ++ u ",flag")) = Return d
    /\ d !! u "rows" = Some (barcode_generator.OStr (u "10")).
Proof.
  apply (parse_options_last_wins Sample.tables
           (u "rows=1, columns=3 ,rows = 10" ++ [160] ++ u ",flag") (u "rows")).
  discriminate.
Defined.

Lemma split_snoc_sep (c : N) (s : list N) :
  split c (s ++ [c]) = split c s ++ [[]].
Proof.
  induction s as [|a s IH]; cbn [app].
  - cbn [split]. rewrite N.eqb_refl. reflexivity.
  - cbn [split]. rewrite IH. pose proof (split_nonempty c s) as N.
    destruct (N.eqb a c); [reflexivity|].
    destruct (split c s) as [|h t]; [contradiction | reflexivity].
Qed.

(** X10. A comma at the end of the options string adds the empty key:
    the dictionary maps the empty key to [True], whatever came before. *)
Theorem parse_options_trailing_comma (U : unicode) (s : list N) :
  endswith s (u ",") = true ->
  exists d,
    barcode_generator.parse_options U (Some s) = Return d
    /\ d !! [] = Some barcode_generator.OTrue.
Proof.
  intros H. apply endswith_iff in H as [pre ->].
  assert (N : pre ++ u "," <> []) by (apply append_nonempty_r; discriminate).
  eexists. split; [apply parse_options_returns|].
  destruct (str_eqb_spec (pre ++ u ",") []); [contradiction|].
  unfold Spec.options_of_pieces. rewrite options_fold_lookup.
  unfold Props.last_entry. change (u ",") with [44].
  rewrite split_snoc_sep, rev_app_distr. reflexivity.
Qed.

Lemma parse_options_trailing_comma_witness :
  exists d,
    barcode_generator.parse_options Sample.tables (Some (u "=x,columns=3,"))
      = Return d
    /\ d !! [] = Some barcode_generator.OTrue.
Proof.
  apply (parse_options_trailing_comma Sample.tables (u "=x,columns=3,")).
  reflexivity.
Defined.

Lemma strip_strip (U : unicode) (s : list N) : strip U (strip U s) = strip U s.
Proof. unfold strip at 2. rewrite strip_rstrip, strip_lstrip. reflexivity. Qed.

Lemma contains_before (c d : N) (s : list N) :
  contains c s = false -> contains c (Spec.before d s) = false.
Proof.
  induction s as [|a s IH]; cbn [contains Spec.before]; [auto|].
  rewrite orb_false_iff. intros [Ha Hs].
  destruct (N.eqb a d); [reflexivity|].
  cbn [contains]. rewrite Ha. exact (IH Hs).
Qed.

Lemma contains_after (c d : N) (s : list N) :
  contains c s = false -> contains c (Spec.after d s) = false.
Proof.
  induction s as [|a s IH]; cbn [contains Spec.after]; [auto|].
  rewrite orb_false_iff. intros [Ha Hs].
  destruct (N.eqb a d); [exact Hs | exact (IH Hs)].
Qed.

Lemma contains_before_self (c : N) (s : list N) :
  contains c (Spec.before c s) = false.
Proof.
  induction s as [|a s IH]; cbn [Spec.before]; [reflexivity|].
  destruct (N.eqb a c) eqn:E; [reflexivity|].
  cbn [contains]. rewrite E. exact IH.
Qed.

Lemma option_entry_clean (U : unicode) (piece : list N) :
  contains 44 piece = false -> Props.clean_entry U (Spec.option_entry U piece).
Proof.
  intros H. unfold Props.clean_entry, Spec.option_entry.
  destruct (contains 61 piece) eqn:E; cbn [fst snd].
  - rewrite !strip_strip, !contains_strip
      by first [apply isspace_comma | apply isspace_equals].
    rewrite (contains_before _ _ _ H), (contains_after _ _ _ H), contains_before_self.
    auto.
  - rewrite strip_strip, !contains_strip
      by first [apply isspace_comma | apply isspace_equals].
    rewrite H, E. auto.
Qed.

Lemma last_entry_piece (U : unicode) (k : list N) (pieces : list (list N))
    (v : barcode_generator.option_value) :
  Props.last_entry U k pieces = Some v ->
  exists piece, In piece pieces /\ Spec.option_entry U piece = (k, v).
Proof.
  unfold Props.last_entry. intros H.
  destruct (List.find _ (rev pieces)) as [piece|] eqn:F; [|discriminate].
  injection H as <-. apply find_some in F as [I E].
  apply in_rev in I. apply str_eqb_eq in E.
  exists piece. split; [exact I|]. rewrite <- E.
  destruct (Spec.option_entry U piece). reflexivity.
Qed.

(** X11. Every entry of the dictionary [parse_options] returns is clean:
    the key has no white space around it, no comma and no ['=']; a string
    value has no white space around it and no comma. *)
Theorem parse_options_entries_clean (U : unicode)
    (options_str : option (list N))
    (d : gmap (list N) barcode_generator.option_value) (k : list N)
    (v : barcode_generator.option_value) :
  barcode_generator.parse_options U options_str = Return d ->
  d !! k = Some v ->
  Props.clean_entry U (k, v).
Proof.
  rewrite parse_options_returns. intros [= <-].
  destruct options_str as [s|]; [|rewrite lookup_empty; discriminate].
  destruct (eqb s []); [rewrite lookup_empty; discriminate|].
  unfold Spec.options_of_pieces. rewrite options_fold_lookup.
  destruct (Props.last_entry U k (split 44 s)) as [w|] eqn:L;
    [|rewrite lookup_empty; discriminate].
  intros [= ->]. apply last_entry_piece in L as (piece & I & E).
  rewrite <- E. apply option_entry_clean.
  pose proof (split_pieces 44 s) as P. rewrite List.Forall_forall in P.
  exact (P piece I).
Qed.

Lemma parse_options_entries_clean_witness :
  Props.clean_entry Sample.tables (u "rows", barcode_generator.OStr (u "10")).
Proof.
  apply (parse_options_entries_clean Sample.tables (Some (u " rows = 10 , flag"))
           (Spec.options_of_pieces Sample.tables
              (split 44 (u " rows = 10 , flag")))).
  - vm_compute. reflexivity.
  - vm_compute. reflexivity.
Defined.

Lemma split_join (c : N) (l : list (list N)) :
  l <> [] -> Forall (fun x => contains c x = false) l ->
  split c (join [c] l) = l.
Proof.
  induction l as [|x l IH]; [congruence|]. intros _ F.
  inversion F as [|? ? Hx Hl]; subst.
  destruct l as [|y l].
  - cbn [join]. apply split_absent. exact Hx.
  - rewrite join_cons_cons.
    specialize (IH ltac:(discriminate) Hl).
    revert IH. generalize (join [c] (y :: l)). intros rest IH.
    clear F Hl. induction x as [|a x IHx].
    + cbn [app split]. rewrite N.eqb_refl, IH. reflexivity.
    + change ((a :: x) ++ [c] ++ rest) with (a :: (x ++ [c] ++ rest)).
      cbn [contains] in Hx. apply orb_false_iff in Hx as [Ha Hx].
      cbn [split]. rewrite Ha, (IHx Hx). reflexivity.
Qed.

Lemma before_append (c : N) (k x : list N) :
  contains c k = false -> Spec.before c (k ++ c :: x) = k.
Proof.
  intros H. induction k as [|a k IH]; cbn [app Spec.before].
  - rewrite N.eqb_refl. reflexivity.
  - cbn [contains] in H. apply orb_false_iff in H as [Ha Hk].
    rewrite Ha, (IH Hk). reflexivity.
Qed.

Lemma after_append (c : N) (k x : list N) :
  contains c k = false -> Spec.after c (k ++ c :: x) = x.
Proof.
  intros H. induction k as [|a k IH]; cbn [app Spec.after].
  - rewrite N.eqb_refl. reflexivity.
  - cbn [contains] in H. apply orb_false_iff in H as [Ha Hk].
    rewrite Ha. exact (IH Hk).
Qed.

Lemma option_entry_format (U : unicode)
    (e : list N * barcode_generator.option_value) :
  Props.clean_entry U e ->
  Spec.option_entry U (Props.format_option e) = e
  /\ contains 44 (Props.format_option e) = false.
Proof.
  destruct e as [k [x|]]; unfold Props.clean_entry, Props.format_option,
    Spec.option_entry; cbn [fst snd].
  - intros (Sk & Ck & Ek & Sx & Cx).
    change (u "=" ++ x) with (61 :: x).
    rewrite !contains_append. cbn [contains].
    rewrite Ek, Ck, Cx. cbn [orb N.eqb Pos.eqb].
    rewrite (before_append 61 k x Ek), (after_append 61 k x Ek), Sk, Sx.
    auto.
  - intros (Sk & Ck & Ek & _). rewrite Ek, Sk, Ck. auto.
Qed.

(** X12. Writing and reading back.  A non-empty list of clean entries,
    written as [key=value] or [key] and joined with commas, is read by
    [parse_options] as the dictionary of these entries, provided the text
    is not empty.  Clean is for the white space of [str.strip]. *)
Theorem parse_options_format_options (U : unicode)
    (l : list (list N * barcode_generator.option_value)) :
  Forall (Props.clean_entry U) l ->
  Props.format_options l <> [] ->
  barcode_generator.parse_options U (Some (Props.format_options l))
  = Return (Props.dict_of_entries l).
Proof.
  intros C NE. rewrite parse_options_returns.
  destruct (str_eqb_spec (Props.format_options l) []) as [?|_]; [contradiction|].
  f_equal. unfold Props.format_options in *.
  assert (L : l <> []) by (intros ->; apply NE; reflexivity).
  change (u ",") with [44].
  rewrite split_join.
  - unfold Spec.options_of_pieces, Props.dict_of_entries.
    generalize (∅ : gmap (list N) barcode_generator.option_value).
    clear NE L. induction C as [|e l He Hl IH]; intros d; [reflexivity|].
    cbn [List.map foldl]. rewrite (proj1 (option_entry_format U e He)). apply IH.
  - destruct l; [congruence | discriminate].
  - clear NE L. induction C as [|e l He Hl IH]; constructor; [|exact IH].
    exact (proj2 (option_entry_format U e He)).
Qed.

Lemma parse_options_format_options_witness :
  barcode_generator.parse_options Sample.tables
    (Some (u "columns=3,rows=10,eclevel=a=b,parse"))
  = Return (Props.dict_of_entries
              [(u "columns", barcode_generator.OStr (u "3"));
               (u "rows", barcode_generator.OStr (u "10"));
               (u "eclevel", barcode_generator.OStr (u "a=b"));
               (u "parse", barcode_generator.OTrue)]).
Proof.
  apply (parse_options_format_options Sample.tables
           [(u "columns", barcode_generator.OStr (u "3"));
            (u "rows", barcode_generator.OStr (u "10"));
            (u "eclevel", barcode_generator.OStr (u "a=b"));
            (u "parse", barcode_generator.OTrue)]).
  - repeat constructor.
  - vm_compute. discriminate.
Defined.

(** An entry with a no-break space after the key is not clean. *)
Example clean_entry_no_break_space :
  ~ Props.clean_entry Sample.tables (u "a" ++ [160], barcode_generator.OTrue).
Proof. intros [H _]. vm_compute in H. discriminate H. Qed.

(** ** Paths: parsing what was printed *)

Lemma splitroot_root (s : list N) :
  (pathlib.splitroot s).1 = [] \/ (pathlib.splitroot s).1 = u "/"
  \/ (pathlib.splitroot s).1 = u "//".
Proof.
  unfold pathlib.splitroot. destruct (startswith s (u "/")); [|auto].
  destruct (Nat.eqb _ 2); auto.
Qed.

Lemma parse_normal (s : list N) : Props.normal (pathlib.parse s).
Proof.
  unfold Props.normal, pathlib.parse.
  pose proof (splitroot_root s) as R.
  destruct (pathlib.splitroot s) as [r rel]. cbn [pathlib.root pathlib.parts fst] in *.
  split; [exact R|].
  apply List.Forall_forall. intros x I. apply filter_In in I as [I K].
  split; [exact K|].
  pose proof (split_pieces 47 rel) as P. rewrite List.Forall_forall in P. auto.
Qed.

Lemma filter_all (keep : list N -> bool) (l : list (list N)) :
  Forall (fun x => keep x = true) l -> List.filter keep l = l.
Proof.
  induction 1 as [|x l Hx Hl IH]; cbn [List.filter]; [reflexivity|].
  rewrite Hx, IH. reflexivity.
Qed.

(** The text of the components does not start with a slash. *)
Lemma join_parts_head (x : list N) (l : list (list N)) :
  pathlib.keep_component x = true -> contains 47 x = false ->
  exists a rest, join (u "/") (x :: l) = a :: rest /\ N.eqb 47 a = false.
Proof.
  intros K C. destruct x as [|a x]; [discriminate K|].
  rewrite join_cons_char. exists a, (join (u "/") (x :: l)).
  split; [reflexivity|].
  cbn [contains] in C. apply orb_false_iff in C as [C _].
  rewrite N.eqb_sym. exact C.
Qed.

Lemma parse_rooted (r j : list N) (l : list (list N)) :
  r = [] \/ r = u "/" \/ r = u "//" ->
  (exists a rest, j = a :: rest /\ N.eqb 47 a = false) ->
  split 47 j = l ->
  Forall (fun x => pathlib.keep_component x = true) l ->
  pathlib.parse (r ++ j) = {| pathlib.root := r; pathlib.parts := l |}.
Proof.
  intros R (a & rest & -> & A) S K.
  assert (L : lstrip_char 47 (a :: rest) = a :: rest).
  { unfold lstrip_char. cbn [lstrip_by]. rewrite A. reflexivity. }
  assert (NS : startswith (a :: rest) (u "/") = false).
  { change (u "/") with [47]. cbn [startswith]. rewrite A. reflexivity. }
  unfold pathlib.parse, pathlib.splitroot.
  destruct R as [->|[->| ->]].
  - cbn [app]. rewrite NS, S, (filter_all _ _ K). reflexivity.
  - change (startswith (u "/" ++ a :: rest) (u "/")) with true. cbv iota.
    change (lstrip_char 47 (u "/" ++ a :: rest))
      with (lstrip_char 47 (a :: rest)).
    rewrite L. unfold len. rewrite length_app.
    replace (length (u "/") + length (a :: rest) - length (a :: rest))%nat
      with 1%nat by (change (length (u "/")) with 1%nat; lia).
    cbn [Nat.eqb]. rewrite S, (filter_all _ _ K). reflexivity.
  - change (startswith (u "//" ++ a :: rest) (u "/")) with true. cbv iota.
    change (lstrip_char 47 (u "//" ++ a :: rest))
      with (lstrip_char 47 (a :: rest)).
    rewrite L. unfold len. rewrite length_app.
    replace (length (u "//") + length (a :: rest) - length (a :: rest))%nat
      with 2%nat by (change (length (u "//")) with 2%nat; lia).
    cbn [Nat.eqb]. rewrite S, (filter_all _ _ K). reflexivity.
Qed.

Lemma str_with_parts (r x : list N) (l : list (list N)) :
  pathlib.keep_component x = true ->
  pathlib.str {| pathlib.root := r; pathlib.parts := x :: l |}
  = r ++ join (u "/") (x :: l).
Proof.
  intros K. unfold pathlib.str. cbn [pathlib.root pathlib.parts].
  remember (r ++ join (u "/") (x :: l)) as s eqn:E. unfold truthy.
  destruct (str_eqb_spec s []) as [Z|_]; [|reflexivity].
  exfalso. subst s. destruct x as [|a x]; [discriminate K|].
  rewrite join_cons_char in Z. revert Z. apply append_nonempty_r. discriminate.
Qed.

(** Parsing the text of a normal path gives the path back. *)
Lemma parse_str (q : pathlib.Path) :
  Props.normal q -> pathlib.parse (pathlib.str q) = q.
Proof.
  destruct q as [r ps]. unfold Props.normal. cbn [pathlib.root pathlib.parts].
  intros [R F]. destruct ps as [|x l].
  - destruct R as [->|[->| ->]]; reflexivity.
  - inversion F as [|? ? [Kx Cx] Fl]; subst.
    rewrite (str_with_parts r x l Kx).
    apply parse_rooted.
    + exact R.
    + exact (join_parts_head x l Kx Cx).
    + apply (split_join 47); [discriminate|].
      apply List.Forall_forall. intros y I. rewrite List.Forall_forall in F.
      exact (proj2 (F y I)).
    + apply List.Forall_forall. intros y I. rewrite List.Forall_forall in F.
      exact (proj1 (F y I)).
Qed.

Lemma parse_str_parse (s : list N) :
  pathlib.parse (pathlib.str (pathlib.parse s)) = pathlib.parse s.
Proof. apply parse_str, parse_normal. Qed.

Lemma Forall_removelast (P : list N -> Prop) (l : list (list N)) :
  Forall P l -> Forall P (removelast l).
Proof.
  induction 1 as [|x l Hx Hl IH]; [constructor|].
  destruct l as [|y l]; [constructor|].
  change (removelast (x :: y :: l)) with (x :: removelast (y :: l)).
  constructor; assumption.
Qed.

Lemma normal_replace_name (q : pathlib.Path) (x : list N) :
  Props.normal q -> pathlib.keep_component x = true -> contains 47 x = false ->
  Props.normal {| pathlib.root := pathlib.root q;
                  pathlib.parts := removelast (pathlib.parts q) ++ [x] |}.
Proof.
  intros [R F] K C. split; [exact R|]. cbn [pathlib.parts].
  apply Forall_app. split; [apply Forall_removelast; exact F|].
  constructor; [split; assumption | constructor].
Qed.

Lemma normal_name (q : pathlib.Path) :
  Props.normal q ->
  (pathlib.parts q = [] /\ pathlib.name q = [])
  \/ (pathlib.name q <> [] /\ contains 47 (pathlib.name q) = false).
Proof.
  intros [_ F]. unfold pathlib.name.
  destruct (pathlib.parts q) as [|x l] eqn:E; [left; auto|]. right.
  assert (I : In (List.last (x :: l) []) (x :: l)).
  { rewrite (app_removelast_last [] (l := x :: l)) at 2 by discriminate.
    apply in_or_app. right. left. reflexivity. }
  rewrite List.Forall_forall in F. destruct (F _ I) as [K C].
  split; [|exact C]. intros Z. rewrite Z in K. discriminate K.
Qed.

Lemma extension_nonempty (e : list N) : Props.extension e -> e <> [].
Proof. intros [_ L] ->. cbn [length] in L. lia. Qed.

(** The text of a normal path followed by an extension is again the text
    of a normal path. *)
Lemma str_append_extension (q : pathlib.Path) (e : list N) :
  Props.normal q -> Props.extension e ->
  exists q', Props.normal q' /\ pathlib.str q' = pathlib.str q ++ e.
Proof.
  intros HN [C L]. pose proof HN as [R F].
  assert (Ke : pathlib.keep_component e = true) by (apply keep_component_long; exact L).
  destruct (normal_name q HN) as [[E _]|[NE CN]].
  - destruct q as [r ps]. cbn [pathlib.parts pathlib.root] in *. subst ps.
    destruct R as [->|[->| ->]].
    + exists {| pathlib.root := []; pathlib.parts := [u "." ++ e] |}.
      assert (K : pathlib.keep_component (u "." ++ e) = true).
      { apply keep_component_long. rewrite length_app.
        change (length (u ".")) with 1%nat. lia. }
      split.
      * split; [left; reflexivity|]. constructor; [|constructor].
        split; [exact K|]. rewrite contains_append, C. reflexivity.
      * rewrite (str_with_parts _ _ _ K). reflexivity.
    + exists {| pathlib.root := u "/"; pathlib.parts := [e] |}.
      split.
      * split; [right; left; reflexivity|]. constructor; [|constructor]. auto.
      * rewrite (str_with_parts _ _ _ Ke). reflexivity.
    + exists {| pathlib.root := u "//"; pathlib.parts := [e] |}.
      split.
      * split; [right; right; reflexivity|]. constructor; [|constructor]. auto.
      * rewrite (str_with_parts _ _ _ Ke). reflexivity.
  - destruct (str_name q NE) as (pre & ES & RS).
    exists {| pathlib.root := pathlib.root q;
              pathlib.parts := removelast (pathlib.parts q)
                               ++ [pathlib.name q ++ e] |}.
    split.
    + apply normal_replace_name; [exact HN | |].
      * apply keep_component_long. rewrite length_app. lia.
      * rewrite contains_append, CN, C. reflexivity.
    + rewrite RS by (apply append_nonempty_r, extension_nonempty; split; assumption).
      rewrite ES, app_assoc. reflexivity.
Qed.

Lemma str_parse_append_extension (s e : list N) :
  Props.extension e ->
  pathlib.str (pathlib.parse (pathlib.str (pathlib.parse s) ++ e))
  = pathlib.str (pathlib.parse s) ++ e.
Proof.
  intros E.
  destruct (str_append_extension _ e (parse_normal s) E) as (q' & HN & <-).
  rewrite (parse_str q' HN). reflexivity.
Qed.

(** ** qr_generator.py: the returned name is stable *)

Lemma qr_file_again (output_path e : list N) :
  Props.extension e ->
  Spec.qr_file (Spec.qr_file output_path e) e = Spec.qr_file output_path e.
Proof.
  intros E.
  destruct (qr_file_cases output_path e) as [[H ->]|[H ->]].
  - unfold Spec.qr_file. rewrite parse_str_parse, H. reflexivity.
  - unfold Spec.qr_file.
    rewrite (str_parse_append_extension _ _ E), endswith_append. reflexivity.
Qed.

Lemma qr_extension_is_extension (U : unicode) (format_type : list N) :
  Props.extension (Spec.qr_extension U format_type).
Proof.
  destruct (qr_extension_cases U format_type) as [[_ ->]|[_ ->]];
    (split; [reflexivity | vm_compute; lia]).
Qed.

(** X13. The name [generate_qr_code] returns is stable: giving it back as
    the output path, with a format of the same extension, returns the same
    name, whatever the two libraries and the other arguments are. *)
Theorem generate_qr_code_name_is_stable (U : unicode)
    (lib lib' : qr_generator.library)
    (data data' output_path format_type format_type' : list N)
    (box_size box_size' border border' : Z)
    (error_correction error_correction' fill_color fill_color'
     back_color back_color' filename filename' : list N) :
  qr_generator.generate_qr_code U lib data output_path format_type box_size
    border error_correction fill_color back_color = Return filename ->
  lower U format_type' = lower U format_type ->
  qr_generator.generate_qr_code U lib' data' filename format_type' box_size'
    border' error_correction' fill_color' back_color' = Return filename' ->
  filename' = filename.
Proof.
  intros H F H'.
  apply generate_qr_code_result in H. apply generate_qr_code_result in H'.
  assert (E : Spec.qr_extension U format_type' = Spec.qr_extension U format_type).
  { unfold Spec.qr_extension. rewrite F. reflexivity. }
  rewrite E in H'. subst filename filename'.
  apply qr_file_again, qr_extension_is_extension.
Qed.

Lemma generate_qr_code_name_is_stable_witness :
  u "out/code.svg" = u "out/code.svg".
Proof.
  apply (generate_qr_code_name_is_stable Sample.tables
           Sample.qr_library Sample.qr_library
           (u "Hello") (u "again") (u "out//code") (u "svg") (u "SVG") 10 12 4 2
           (u "M") (u "H") (u "black") (u "red") (u "white") (u "#fff")
           (u "out/code.svg") (u "out/code.svg")).
  - vm_compute. reflexivity.
  - vm_compute. reflexivity.
  - vm_compute. reflexivity.
Defined.

(** ** barcode_generator.py: the returned name has an extension and is stable *)

Lemma target_path_normal (output_path : list N) (tp : pathlib.Path) :
  barcode_generator.target_path output_path = Return tp ->
  Props.normal tp /\ pathlib.suffix tp <> []
  /\ pathlib.str tp = Spec.barcode_file output_path.
Proof.
  intros H.
  destruct (decide (Spec.has_name output_path)) as [HN|HN].
  2:{ rewrite (target_path_unnamed _ HN) in H. discriminate. }
  destruct (target_path_named _ HN) as (tp' & E & S & X).
  rewrite E in H. injection H as ->.
  split; [|split; [|exact S]].
  - revert E. unfold barcode_generator.target_path, pathlib.with_suffix, truthy.
    cbv zeta.
    destruct (str_eqb_spec (pathlib.suffix (pathlib.parse output_path)) [])
      as [Z|Z]; cbn [negb].
    + change (contains 47 (u ".png")) with false.
      change ((negb (eqb (u ".png") []) && negb (startswith (u ".png") (u ".")))
              || eqb (u ".png") (u ".")) with false.
      cbv iota.
      destruct (str_eqb_spec (pathlib.name (pathlib.parse output_path)) [])
        as [?|NE]; cbn [negb]; [discriminate|].
      intros [= <-].
      destruct (normal_name _ (parse_normal output_path)) as [[_ ?]|[_ C]];
        [contradiction|].
      apply normal_replace_name; [apply parse_normal | |].
      * apply keep_component_long. rewrite length_app.
        change (length (u ".png")) with 4%nat. lia.
      * rewrite contains_append, C. reflexivity.
    + intros [= <-]. apply parse_normal.
  - rewrite X. destruct (barcode_suffix_cases output_path) as [(Z & _ & ->)|(Z & _ & ->)];
      [discriminate | exact Z].
Qed.

Lemma generate_barcode_target (U : unicode) (lib : barcode_generator.library)
    (data barcode_type output_path : list N)
    (options : option (gmap (list N) barcode_generator.option_value))
    (filename : list N) :
  barcode_generator.generate_barcode U lib data barcode_type output_path options
    = Return filename ->
  exists tp, barcode_generator.target_path output_path = Return tp
             /\ filename = pathlib.str tp.
Proof.
  intros H. destruct (generate_barcode_result _ _ _ _ _ _ _ H) as [HN ->].
  destruct (target_path_named _ HN) as (tp & E & S & _).
  exists tp. split; [exact E | symmetry; exact S].
Qed.

(** X14. The name [generate_barcode] of [barcode_generator.py] returns
    always has a suffix: ['.png'] when the output path had none, the suffix
    of the output path otherwise.  The name is stable: giving it back as the
    output path returns the same name. *)
Theorem generate_barcode_name_has_suffix (U : unicode)
    (lib : barcode_generator.library) (data barcode_type output_path : list N)
    (options : option (gmap (list N) barcode_generator.option_value))
    (filename : list N) :
  barcode_generator.generate_barcode U lib data barcode_type output_path options
    = Return filename ->
  pathlib.suffix (pathlib.parse filename) <> []
  /\ pathlib.suffix (pathlib.parse filename) =
     (if eqb (pathlib.suffix (pathlib.parse output_path)) []
      then u ".png" else pathlib.suffix (pathlib.parse output_path))
  /\ forall lib' data' barcode_type' options' filename',
       barcode_generator.generate_barcode U lib' data' barcode_type' filename
         options' = Return filename' ->
       filename' = filename.
Proof.
  intros H. destruct (generate_barcode_target _ _ _ _ _ _ _ H) as (tp & E & ->).
  destruct (target_path_normal _ _ E) as (HN & S & _).
  destruct (generate_barcode_result _ _ _ _ _ _ _ H) as [HN' _].
  destruct (target_path_named _ HN') as (tp' & E' & _ & X).
  rewrite E in E'. injection E' as <-.
  rewrite (parse_str tp HN). split; [exact S|]. split; [exact X|].
  intros lib' data' barcode_type' options' filename' H'.
  destruct (generate_barcode_result _ _ _ _ _ _ _ H') as [_ ->].
  unfold Spec.barcode_file. rewrite (parse_str tp HN).
  destruct (str_eqb_spec (pathlib.suffix tp) []); [contradiction | reflexivity].
Qed.

Lemma generate_barcode_name_has_suffix_witness :
  pathlib.suffix (pathlib.parse (u "labels/item.png")) <> []
  /\ pathlib.suffix (pathlib.parse (u "labels/item.png")) =
     (if eqb (pathlib.suffix (pathlib.parse (u "labels//item"))) []
      then u ".png" else pathlib.suffix (pathlib.parse (u "labels//item")))
  /\ forall lib' data' barcode_type' options' filename',
       barcode_generator.generate_barcode Sample.tables lib' data' barcode_type'
         (u "labels/item.png") options' = Return filename' ->
       filename' = u "labels/item.png".
Proof.
  apply (generate_barcode_name_has_suffix Sample.tables Sample.barcode_library
           (u "ABC123") (u "code128") (u "labels//item") None
           (u "labels/item.png")).
  vm_compute. reflexivity.
Defined.

(** ** Output paths without a final component *)

Lemma unnamed_path_text (output_path : list N) :
  ~ Spec.has_name output_path ->
  pathlib.str (pathlib.parse output_path) ∈ [u "."; u "/"; u "//"].
Proof.
  intros H. pose proof (parse_normal output_path) as HN.
  destruct (normal_name _ HN) as [[E _]|[NE _]]; [|contradiction].
  destruct HN as [R _]. destruct (pathlib.parse output_path) as [r ps].
  cbn [pathlib.parts pathlib.root] in *. subst ps.
  rewrite !elem_of_cons.
  destruct R as [->|[->| ->]]; [left | right; left | right; right; left];
    reflexivity.
Qed.

(** X16. An output path without a final component (its parsed text is
    ["."], ["/"] or ["//"]) is refused: with a supported type and a library
    in which every call returns, [generate_barcode] of
    [barcode_generator.py] raises the [ValueError] of [with_suffix]; with a
    valid code, [generate_barcode] of [ean13_generator.py] raises it under
    the heading ["Invalid EAN-13 code: "]. *)
Theorem unnamed_output_path_is_refused (U : unicode) (output_path : list N) :
  ~ Spec.has_name output_path ->
  pathlib.str (pathlib.parse output_path) ∈ [u "."; u "/"; u "//"]
  /\ (forall lib data barcode_type options,
        Spec.barcode_calls_return lib ->
        barcode_type ∈ Spec.barcode_type_names ->
        barcode_generator.generate_barcode U lib data barcode_type output_path
          options
        = Raise (ValueError
                   (u "PosixPath('" ++ pathlib.str (pathlib.parse output_path)
                    ++ u "')" ++ u " has an empty name")))
  /\ (forall lib code format_type,
        Spec.ean13_calls_return lib ->
        ean13_generator.validate_ean13_code U code = Return code ->
        ean13_generator.generate_barcode U lib code output_path format_type
        = Raise (ValueError
                   (u "Invalid EAN-13 code: "
                    ++ u "PosixPath('" ++ pathlib.str (pathlib.parse output_path)
                    ++ u "')" ++ u " has an empty name"))).
Proof.
  intros H. split; [exact (unnamed_path_text _ H)|]. split.
  - intros lib data barcode_type options (H1 & H2 & _) T.
    unfold barcode_generator.generate_barcode.
    rewrite (validate_barcode_type_member _ T).
    cbn [mbind result_bind bind].
    destruct (H1 barcode_type data (default ∅ options)) as [i ->].
    cbn [mbind result_bind bind].
    destruct (H2 i 10%Z (u "white")) as [i1 ->]. cbn [mbind result_bind bind].
    rewrite (target_path_unnamed _ H). cbn [mbind result_bind bind try_except].
    unfold pathlib.repr. rewrite <- !app_assoc. reflexivity.
  - intros lib code format_type C V.
    destruct (select_writer_returns U lib format_type C) as (w & ext & W).
    destruct C as (_ & _ & H3 & _). destruct (H3 code w) as [e E].
    unfold ean13_generator.generate_barcode.
    rewrite V. cbn [mbind result_bind bind]. rewrite W.
    cbn [mbind result_bind bind]. rewrite E. cbn [mbind result_bind bind].
    unfold ean13_generator.save_path.
    rewrite with_suffix_no_name; [|unfold Spec.has_name in H|auto].
    + cbn [mbind result_bind bind try_except].
      unfold pathlib.repr. rewrite <- !app_assoc. reflexivity.
    + destruct (decide (pathlib.name (pathlib.parse output_path) = []));
        [assumption | contradiction].
Qed.

Lemma unnamed_output_path_is_refused_witness :
  barcode_generator.generate_barcode Sample.tables Sample.barcode_library
    (u "ABC123") (u "code128") (u "//") None
  = Raise (ValueError
             (u "PosixPath('" ++ pathlib.str (pathlib.parse (u "//"))
              ++ u "')" ++ u " has an empty name")).
Proof.
  refine (proj1 (proj2 (unnamed_output_path_is_refused Sample.tables (u "//") _))
            Sample.barcode_library (u "ABC123") (u "code128") None _ _).
  - vm_compute. intros H. apply H. reflexivity.
  - repeat split; intros; try eexists; reflexivity.
  - in_list.
Defined.

(** ** The conversion to RGB *)

(** X18. [generate_barcode] of [barcode_generator.py] converts the image
    only for a PNG file: for an output path whose suffix is not empty and
    is not ['.png'] in lower case, the result is the same whatever
    [convert] does. *)
Theorem convert_only_for_png (U : unicode) (lib : barcode_generator.library)
    (f : barcode_generator.image lib -> list N
         -> result (barcode_generator.image lib))
    (data barcode_type output_path : list N)
    (options : option (gmap (list N) barcode_generator.option_value)) :
  pathlib.suffix (pathlib.parse output_path) <> [] ->
  lower U (pathlib.suffix (pathlib.parse output_path)) <> u ".png" ->
  barcode_generator.generate_barcode U (Props.with_convert lib f)
    data barcode_type output_path options
  = barcode_generator.generate_barcode U lib data barcode_type output_path options.
Proof.
  intros S P. unfold barcode_generator.generate_barcode.
  destruct (barcode_generator.validate_barcode_type barcode_type) as [vt|e];
    [|reflexivity].
  cbn [mbind result_bind bind Props.with_convert
       barcode_generator.treepoem_generate_barcode
       barcode_generator.ImageOps_expand barcode_generator.save
       barcode_generator.image].
  destruct (barcode_generator.treepoem_generate_barcode lib vt data _) as [i|e];
    [|reflexivity].
  cbn [mbind result_bind bind].
  destruct (barcode_generator.ImageOps_expand lib i 10 (u "white")) as [i1|e];
    [|reflexivity].
  cbn [mbind result_bind bind].
  unfold barcode_generator.target_path, truthy. cbv zeta.
  destruct (str_eqb_spec (pathlib.suffix (pathlib.parse output_path)) []);
    [contradiction|].
  cbn [negb mbind result_bind bind].
  destruct (str_eqb_spec (lower U (pathlib.suffix (pathlib.parse output_path)))
              (u ".png"));
    [contradiction|].
  reflexivity.
Qed.

Lemma convert_only_for_png_witness :
  barcode_generator.generate_barcode Sample.tables
    (Props.with_convert Sample.barcode_library
       (fun _ _ => Raise (Exception (u "cannot convert"))))
    (u "ABC123") (u "code128") (u "label.jpg") None
  = barcode_generator.generate_barcode Sample.tables Sample.barcode_library
      (u "ABC123") (u "code128") (u "label.jpg") None.
Proof.
  apply (convert_only_for_png Sample.tables Sample.barcode_library
           (fun _ _ => Raise (Exception (u "cannot convert")))
           (u "ABC123") (u "code128") (u "label.jpg") None).
  - vm_compute. discriminate.
  - vm_compute. discriminate.
Defined.

(** With a [convert] that fails, a PNG file is not written. *)
Example convert_failure_for_png :
  barcode_generator.generate_barcode Sample.tables
    (Props.with_convert Sample.barcode_library
       (fun _ _ => Raise (Exception (u "cannot convert"))))
    (u "ABC123") (u "code128") (u "label.PNG") None
  = Raise (Exception (u "Failed to generate barcode: cannot convert")).
Proof. vm_compute. reflexivity. Qed.

(** ** What a run shows *)


Lemma given_false (v : option (list N)) :
  barcode_generator.given v = false <-> v = None \/ v = Some [].
Proof.
  destruct v as [s|]; unfold barcode_generator.given, truthy.
  - destruct (str_eqb_spec s []) as [->|NE]; cbn [negb].
    + split; auto.
    + split; [discriminate | intros [?|[= ?]]; congruence].
  - split; auto.
Qed.



Lemma barcode_main_shape (U : unicode) (lib : barcode_generator.library)
    (usage prog : list N) (args : barcode_generator.namespace) :
  let o := barcode_generator.main U lib usage prog args in
  (barcode_generator.list_types args = true
   /\ o = {| argparse.stdout := barcode_generator.list_barcode_types;
             argparse.stderr := []; argparse.exit_status := 0 |})
  \/ (barcode_generator.list_types args = false
      /\ (barcode_generator.data args = None
          \/ barcode_generator.data args = Some []
          \/ barcode_generator.type args = None
          \/ barcode_generator.type args = Some [])
      /\ Spec.reports_usage_error o)
  \/ (barcode_generator.list_types args = false
      /\ (exists d t, barcode_generator.data args = Some d /\ d <> []
                      /\ barcode_generator.type args = Some t /\ t <> [])
      /\ ((exists filename, Spec.reports_success (u "Barcode") filename o)
          \/ Spec.reports_error o)).
Proof.
  cbv zeta. unfold barcode_generator.main.
  destruct (barcode_generator.list_types args); [left; auto|]. right.
  destruct (barcode_generator.given (barcode_generator.data args)) eqn:GD;
    cbn [negb orb].
  2:{ left. apply given_false in GD. split; [reflexivity|].
      split; [tauto | apply error_reports_usage_error]. }
  destruct (barcode_generator.given (barcode_generator.type args)) eqn:GT;
    cbn [negb orb].
  2:{ left. apply given_false in GT. split; [reflexivity|].
      split; [tauto | apply error_reports_usage_error]. }
  right. split; [reflexivity|]. split.
  - destruct (barcode_generator.data args) as [d|]; [|discriminate GD].
    destruct (barcode_generator.type args) as [t|]; [|discriminate GT].
    exists d, t. unfold barcode_generator.given in *.
    apply truthy_spec in GD. apply truthy_spec in GT. auto.
  - destruct (_ ≫= _) as [f|[m|m]].
    + left. exists f. repeat split.
    + right. split; [reflexivity|]. split; [eexists; reflexivity | reflexivity].
    + right. split; [reflexivity|]. split; [eexists; reflexivity | reflexivity].
Qed.


Lemma run_shape_exit (parser : list argparse.argument)
    (I : gmap (list N) argparse.value -> Prop) (argv : list argparse.token)
    (o : argparse.outcome) :
  Forall (fun a => Props.prints_and_exits a = true ->
                   forall f, f ∈ argparse.name_or_flags a ->
                             f ∈ [u "-h"; u "--help"; u "--version"]) parser ->
  Props.parsed_ok parser I argv (argparse.Exit o) ->
  (Spec.reports_information o /\ Spec.asks_help_or_version argv)
  \/ Spec.reports_usage_error o.
Proof.
  intros F P. destruct (parsed_ok_outcome parser I argv o F P); auto.
Qed.


(** ** No success without valid input *)

Lemma exit_information (parser : list argparse.argument)
    (I : gmap (list N) argparse.value -> Prop) (argv : list argparse.token)
    (o : argparse.outcome) :
  Forall (fun a => Props.prints_and_exits a = true ->
                   forall f, f ∈ argparse.name_or_flags a ->
                             f ∈ [u "-h"; u "--help"; u "--version"]) parser ->
  Props.parsed_ok parser I argv (argparse.Exit o) ->
  argparse.exit_status o = 0%Z ->
  Spec.asks_help_or_version argv /\ Spec.reports_information o.
Proof.
  intros F P S.
  destruct (run_shape_exit parser I argv o F P) as [[H1 H2]|(_ & _ & H)];
    [auto | rewrite H in S; discriminate S].
Qed.

Lemma generate_barcode_unsupported_cases (U : unicode)
    (lib : barcode_generator.library) (d t output_path usage prog : list N)
    (args : barcode_generator.namespace) :
  t ∉ Spec.barcode_type_names ->
  barcode_generator.list_types args = false ->
  barcode_generator.data args = Some d -> d <> [] ->
  barcode_generator.type args = Some t -> t <> [] ->
  exists m,
    barcode_generator.main U lib usage prog args
    = {| argparse.stdout := []; argparse.stderr := [m];
         argparse.exit_status := 1 |}.
Proof.
  intros O HL HD Hd HT Ht. unfold barcode_generator.main.
  rewrite HL, HD, HT. unfold barcode_generator.given, truthy.
  destruct (str_eqb_spec d []) as [?|_]; [contradiction|].
  destruct (str_eqb_spec t []) as [?|_]; [contradiction|].
  cbn [negb orb from_option]. unfold id. rewrite parse_options_returns.
  cbn [mbind result_bind bind].
  unfold barcode_generator.generate_barcode,
    barcode_generator.validate_barcode_type.
  rewrite (proj2 (BARCODE_TYPES_lookup_None t) O).
  cbn [mbind result_bind bind try_except]. eexists. reflexivity.
Qed.

(** X15. Whatever the library does, a run ends with status 0 only when
    the command line asks for the help text or the version, or on valid
    input: [ean13_generator.py] only for a code of exactly twelve digits
    of [str.isdigit], [qr_generator.py] only for two acceptable colors,
    and [barcode_generator.py] only with [--list-types] or for a non-empty
    data and one of the twelve types. *)
Theorem success_needs_valid_input (U : unicode) (usage help_text prog : list N) :
  (forall lib argv,
     argparse.exit_status (ean13_generator.run U lib usage help_text prog argv)
       = 0%Z ->
     (Spec.asks_help_or_version argv
      /\ Spec.reports_information
           (ean13_generator.run U lib usage help_text prog argv))
     \/ exists ns,
          argparse.parse_args U usage help_text prog ean13_generator.parser argv
            = argparse.Namespace ns
          /\ Spec.only_digits U
               (ean13_generator.code (ean13_generator.read_namespace ns))
          /\ length (ean13_generator.code (ean13_generator.read_namespace ns))
             = 12%nat)
  /\ (forall lib argv,
        argparse.exit_status (qr_generator.run U lib usage help_text prog argv)
          = 0%Z ->
        (Spec.asks_help_or_version argv
         /\ Spec.reports_information
              (qr_generator.run U lib usage help_text prog argv))
        \/ exists ns,
             argparse.parse_args U usage help_text prog qr_generator.parser argv
               = argparse.Namespace ns
             /\ Spec.acceptable_color U
                  (qr_generator.fill_color (qr_generator.read_namespace ns))
             /\ Spec.acceptable_color U
                  (qr_generator.back_color (qr_generator.read_namespace ns)))
  /\ (forall lib argv,
        argparse.exit_status
          (barcode_generator.run U lib usage help_text prog argv) = 0%Z ->
        (Spec.asks_help_or_version argv
         /\ Spec.reports_information
              (barcode_generator.run U lib usage help_text prog argv))
        \/ exists ns,
             argparse.parse_args U usage help_text prog barcode_generator.parser
               argv = argparse.Namespace ns
             /\ (barcode_generator.list_types
                   (barcode_generator.read_namespace ns) = true
                 \/ exists d t,
                      barcode_generator.data
                        (barcode_generator.read_namespace ns) = Some d
                      /\ d <> []
                      /\ barcode_generator.type
                           (barcode_generator.read_namespace ns) = Some t
                      /\ t ∈ Spec.barcode_type_names)).
Proof.
  split; [|split].
  - intros lib argv. unfold ean13_generator.run.
    pose proof (ean13_parse_args_ok U usage help_text prog argv) as P.
    destruct (argparse.parse_args _ _ _ _ _ _) as [ns|o].
    + intros S. right. exists ns. split; [reflexivity|]. revert S.
      unfold ean13_generator.main, ean13_generator.generate_barcode.
      destruct (validate_ean13_code_cases U
                  (ean13_generator.code (ean13_generator.read_namespace ns)))
        as [(D & L & E)|(_ & m & E)]; rewrite E.
      * intros _. split; [|exact L]. apply isdigit_only_digits. exact D.
      * cbn [mbind result_bind bind try_except argparse.exit_status].
        discriminate.
    + intros S. left. exact (exit_information _ _ _ _ ean13_parser_flags P S).
  - intros lib argv. unfold qr_generator.run.
    pose proof (qr_parse_args_ok U usage help_text prog argv) as P.
    destruct (argparse.parse_args _ _ _ _ _ _) as [ns|o].
    + intros S. right. exists ns. split; [reflexivity|]. revert S.
      unfold qr_generator.main.
      destruct (validate_colors_cases U
                  (qr_generator.fill_color (qr_generator.read_namespace ns))
                  (qr_generator.back_color (qr_generator.read_namespace ns)))
        as [(F & B & E)|(_ & m & E)]; rewrite E.
      * intros _. split; apply color_ok_spec; assumption.
      * cbn [mbind result_bind bind argparse.exit_status]. discriminate.
    + intros S. left. exact (exit_information _ _ _ _ qr_parser_flags P S).
  - intros lib argv. unfold barcode_generator.run.
    pose proof (barcode_parse_args_ok U usage help_text prog argv) as P.
    destruct (argparse.parse_args _ _ _ _ _ _) as [ns|o].
    + intros S. right. exists ns. split; [reflexivity|].
      destruct (barcode_main_shape U lib usage prog
                  (barcode_generator.read_namespace ns))
        as [[L _]|[(_ & _ & (_ & _ & E))|(L & (d & t & D & Hd & T & Ht) & _)]].
      * left. exact L.
      * rewrite E in S. discriminate S.
      * right. exists d, t. split; [exact D|]. split; [exact Hd|].
        split; [exact T|].
        destruct (decide (t ∈ Spec.barcode_type_names)) as [I|O]; [exact I|].
        exfalso.
        destruct (generate_barcode_unsupported_cases U lib d t
                    (barcode_generator.output (barcode_generator.read_namespace ns))
                    usage prog (barcode_generator.read_namespace ns)
                    O L D Hd T Ht) as [m M].
        rewrite M in S. discriminate S.
    + intros S. left. exact (exit_information _ _ _ _ barcode_parser_flags P S).
Qed.

(** ** Valid input and a library that answers give a success report *)



Example qr_run_default :
  qr_generator.run Sample.tables Sample.qr_library (u "usage") (u "help")
    (u "qr_generator.py") [argparse.targ (u "Hello World")]
  = {| argparse.stdout := [u "QR code generated successfully: qr_code.png"];
       argparse.stderr := [];
       argparse.exit_status := 0 |}.
Proof. vm_compute. reflexivity. Qed.

Example ean13_run_full_width_digits :
  ean13_generator.run Sample.tables Sample.ean13_library (u "usage") (u "help")
    (u "ean13_generator.py")
    [argparse.targ (repeat 65297 12); argparse.topt (u "-f") (Some (u "png"));
     argparse.topt (u "--output") None; argparse.targ (u "out/code.svg")]
  = {| argparse.stdout := [u "Barcode generated successfully: out/code.png"];
       argparse.stderr := [];
       argparse.exit_status := 0 |}.
Proof. vm_compute. reflexivity. Qed.

Example ean13_run_version :
  ean13_generator.run Sample.tables Sample.ean13_library (u "usage") (u "help")
    (u "ean13_generator.py") [argparse.topt (u "--version") None]
  = {| argparse.stdout := [u "EAN-13 Generator 1.0.0"];
       argparse.stderr := [];
       argparse.exit_status := 0 |}.
Proof. vm_compute. reflexivity. Qed.

Example ean13_run_missing_code :
  ean13_generator.run Sample.tables Sample.ean13_library (u "usage") (u "help")
    (u "ean13_generator.py") []
  = {| argparse.stdout := [];
       argparse.stderr :=
         [u "usage";
          u "ean13_generator.py: error: the following arguments are required: code"];
       argparse.exit_status := 2 |}.
Proof. vm_compute. reflexivity. Qed.

Example barcode_run_list_types :
  argparse.exit_status
    (barcode_generator.run Sample.tables Sample.barcode_library (u "usage")
       (u "help") (u "barcode_generator.py")
       [argparse.topt (u "--list-types") None]) = 0%Z
  /\ nth 2 (argparse.stdout
              (barcode_generator.run Sample.tables Sample.barcode_library
                 (u "usage") (u "help") (u "barcode_generator.py")
                 [argparse.topt (u "--list-types") None])) []
     = u "azteccode       - Aztec Code - 2D matrix code used in transportation".
Proof. split; vm_compute; reflexivity. Qed.

Example barcode_run_missing_type :
  barcode_generator.run Sample.tables Sample.barcode_library (u "usage")
    (u "help") (u "barcode_generator.py") [argparse.targ (u "ABC123")]
  = {| argparse.stdout := [];
       argparse.stderr :=
         [u "usage";
          u "barcode_generator.py: error: Both 'data' and 'type' are required (unless using --list-types)"];
       argparse.exit_status := 2 |}.
Proof. vm_compute. reflexivity. Qed.
